(** * DIY blower door firmware: sensing and metrics-aggregation core

    A shallow embedding of

    - the ADP910 sampling task's per-channel state machine
      ([adp910_channel_reset_cycle], [adp910_channel_try_init],
      [adp910_channel_read], [adp910_diag_record]), and
    - the metrics service of [src/services/blower_metrics.c]
      ([blower_metrics_service_initialize], [.._update], [.._get_snapshot],
      [.._capture_zero_offsets], [.._begin_calibration] and the two linear
      models),

    followed by the properties of the specification that concern them.

    Conventions.
    - [uint32_t], [uint8_t] and [TickType_t] values are integers of [Z]; every
      C operation that can leave the range is followed by an explicit
      wrap-around ([wrap32], [wrap8]).
    - [float] is IEEE-754 binary32, computed with the Standard Library's
      executable specification of binary floating point ([spec_float] at
      precision 24 and maximal exponent 128).
    - What the C code obtains from its environment (the tick counter, the
      result of a driver call, whether the lock could be created or taken) is
      an argument of the embedded function.
    - [printf] diagnostics have no effect on the modelled state and are left
      out. *)

From Stdlib Require Import ZArith Bool List Lia String.
From Stdlib Require Import Floats.SpecFloat.
Import ListNotations.
Local Open Scope Z_scope.

(** ** Machine integers *)

Definition wrap32 (z : Z) : Z := z mod 2 ^ 32.
Definition wrap8 (z : Z) : Z := z mod 2 ^ 8.

Definition is_uint32 (z : Z) : Prop := 0 <= z < 2 ^ 32.
Definition is_uint8 (z : Z) : Prop := 0 <= z < 2 ^ 8.




(** ** binary32 arithmetic *)

Module Float32.

Definition prec : Z := 24.
Definition emax : Z := 128.

Definition float32 : Type := spec_float.

Definition zero : float32 := S754_zero false.
Definition one : float32 := S754_finite false 8388608 (-23).

Definition add (x y : float32) : float32 := SFadd prec emax x y.
Definition sub (x y : float32) : float32 := SFsub prec emax x y.
Definition mul (x y : float32) : float32 := SFmul prec emax x y.
Definition div (x y : float32) : float32 := SFdiv prec emax x y.
Definition neg (x : float32) : float32 := SFopp x.

(** C's [x >= y] and [x > y]: both are false as soon as an operand is NaN. *)
Definition ge (x y : float32) : bool := SFleb y x.
Definition gt (x y : float32) : bool := SFltb y x.

(** The conversion [(float)n] of an unsigned integer, round to nearest even. *)
Definition of_uint32 (n : Z) : float32 := binary_normalize prec emax n 0 false.

#[global] Arguments add : simpl never.
#[global] Arguments sub : simpl never.
#[global] Arguments mul : simpl never.
#[global] Arguments div : simpl never.
#[global] Arguments neg : simpl never.
#[global] Arguments ge : simpl never.
#[global] Arguments gt : simpl never.
#[global] Arguments of_uint32 : simpl never.

End Float32.
Import Float32.

(** ** FreeRTOS macros

    [configTICK_RATE_HZ] comes from the project's FreeRTOS configuration; it
    is the parameter [rate] below. [TickType_t] is the 32-bit tick of the
    port. *)

Module FreeRTOS.

(** [pdMS_TO_TICKS(ms)]: [(TickType_t)(((uint64_t)ms * rate) / 1000)]. *)
Definition pdMS_TO_TICKS (rate ms : Z) : Z := wrap32 ((ms * rate) / 1000).

(** [portTICK_PERIOD_MS]: [(TickType_t)1000 / configTICK_RATE_HZ]. *)
Definition portTICK_PERIOD_MS (rate : Z) : Z := 1000 / rate.

End FreeRTOS.

(** ** The sensor driver's interface, as the task uses it *)

Inductive adp910_status_t : Type :=
| ADP910_STATUS_OK
| ADP910_STATUS_INVALID_ARGUMENT
| ADP910_STATUS_BUS_ERROR
| ADP910_STATUS_NOT_READY
| ADP910_STATUS_CRC_MISMATCH
| ADP910_STATUS_OTHER.
(** [ADP910_STATUS_OTHER] stands for every value outside the five named
    enumerators: the [default:] branch of the task's [switch] statements. *)

Definition adp910_status_eqb (a b : adp910_status_t) : bool :=
  match a, b with
  | ADP910_STATUS_OK, ADP910_STATUS_OK
  | ADP910_STATUS_INVALID_ARGUMENT, ADP910_STATUS_INVALID_ARGUMENT
  | ADP910_STATUS_BUS_ERROR, ADP910_STATUS_BUS_ERROR
  | ADP910_STATUS_NOT_READY, ADP910_STATUS_NOT_READY
  | ADP910_STATUS_CRC_MISMATCH, ADP910_STATUS_CRC_MISMATCH
  | ADP910_STATUS_OTHER, ADP910_STATUS_OTHER => true
  | _, _ => false
  end.


(** The fields of [adp910_sample_t] that the task and the service read. *)
Record adp910_sample_t : Type := mk_sample {
  corrected_pressure_pa : float32;
  temperature_c : float32
}.

Definition adp910_sample_zero : adp910_sample_t :=
  {| corrected_pressure_pa := zero; temperature_c := zero |}.

(** ** The sampling task's channels *)

Module Adp910Task.

Definition ADP910_INIT_RETRY_BACKOFF_MS : Z := 1000.
Definition ADP910_READ_ERROR_STREAK_TO_REINIT : Z := 3.

Record adp910_diag_t : Type := mk_diag {
    ok : Z;
    invalid_argument : Z;
    bus_error : Z;
    not_ready : Z;
    crc_mismatch : Z;
    other : Z;
    last_status : adp910_status_t
  }.

(** Opaque to the task beyond logging. *)
Record adp910_port_config_t : Type := mk_port {
    i2c_instance : Z;
    i2c_address : Z;
    sda_pin : Z;
    scl_pin : Z;
    i2c_frequency_hz : Z
  }.

(** The driver's private handle. The task only passes it to the driver, so
      it is a token here; what a driver call does to it is part of the call's
      result. *)
Definition adp910_sensor_t : Type := Z.

Record adp910_channel_t : Type := mk_channel {
    id : string;
    port : adp910_port_config_t;
    sensor : adp910_sensor_t;
    diag : adp910_diag_t;
    ready : bool;
    next_init_tick : Z;
    sample : adp910_sample_t;
    sample_valid : bool;
    last_read_status : adp910_status_t;
    read_error_streak : Z
  }.

(** What [adp910_sensor_initialize] answers: the status it returns and the
      handle it leaves behind. *)
Record init_result : Type := mk_init_result {
    init_status : adp910_status_t;
    init_sensor : adp910_sensor_t
  }.

(** What [adp910_sensor_read_sample] answers: the status it returns, the
      handle and the contents of the sample buffer it leaves behind. *)
Record read_result : Type := mk_read_result {
    read_status : adp910_status_t;
    read_sensor : adp910_sensor_t;
    read_sample : adp910_sample_t
  }.

Definition set_diag (d : adp910_diag_t) (c : adp910_channel_t) : adp910_channel_t :=
    mk_channel (id c) (port c) (sensor c) d (ready c) (next_init_tick c)
               (sample c) (sample_valid c) (last_read_status c) (read_error_streak c).
Definition set_sensor (s : adp910_sensor_t) (c : adp910_channel_t) : adp910_channel_t :=
    mk_channel (id c) (port c) s (diag c) (ready c) (next_init_tick c)
               (sample c) (sample_valid c) (last_read_status c) (read_error_streak c).
Definition set_ready (b : bool) (c : adp910_channel_t) : adp910_channel_t :=
    mk_channel (id c) (port c) (sensor c) (diag c) b (next_init_tick c)
               (sample c) (sample_valid c) (last_read_status c) (read_error_streak c).
Definition set_next_init_tick (t : Z) (c : adp910_channel_t) : adp910_channel_t :=
    mk_channel (id c) (port c) (sensor c) (diag c) (ready c) t
               (sample c) (sample_valid c) (last_read_status c) (read_error_streak c).
Definition set_sample (s : adp910_sample_t) (c : adp910_channel_t) : adp910_channel_t :=
    mk_channel (id c) (port c) (sensor c) (diag c) (ready c) (next_init_tick c)
               s (sample_valid c) (last_read_status c) (read_error_streak c).
Definition set_sample_valid (b : bool) (c : adp910_channel_t) : adp910_channel_t :=
    mk_channel (id c) (port c) (sensor c) (diag c) (ready c) (next_init_tick c)
               (sample c) b (last_read_status c) (read_error_streak c).
Definition set_last_read_status (s : adp910_status_t) (c : adp910_channel_t) : adp910_channel_t :=
    mk_channel (id c) (port c) (sensor c) (diag c) (ready c) (next_init_tick c)
               (sample c) (sample_valid c) s (read_error_streak c).
Definition set_read_error_streak (n : Z) (c : adp910_channel_t) : adp910_channel_t :=
    mk_channel (id c) (port c) (sensor c) (diag c) (ready c) (next_init_tick c)
               (sample c) (sample_valid c) (last_read_status c) n.

Definition adp910_diag_reset (_ : adp910_diag_t) : adp910_diag_t :=
    {| ok := 0; invalid_argument := 0; bus_error := 0; not_ready := 0;
       crc_mismatch := 0; other := 0; last_status := ADP910_STATUS_OK |}.

Definition adp910_diag_record (d : adp910_diag_t) (status : adp910_status_t) : adp910_diag_t :=
    match status with
    | ADP910_STATUS_OK =>
        mk_diag (wrap32 (ok d + 1)) (invalid_argument d) (bus_error d) (not_ready d)
                (crc_mismatch d) (other d) status
    | ADP910_STATUS_INVALID_ARGUMENT =>
        mk_diag (ok d) (wrap32 (invalid_argument d + 1)) (bus_error d) (not_ready d)
                (crc_mismatch d) (other d) status
    | ADP910_STATUS_BUS_ERROR =>
        mk_diag (ok d) (invalid_argument d) (wrap32 (bus_error d + 1)) (not_ready d)
                (crc_mismatch d) (other d) status
    | ADP910_STATUS_NOT_READY =>
        mk_diag (ok d) (invalid_argument d) (bus_error d) (wrap32 (not_ready d + 1))
                (crc_mismatch d) (other d) status
    | ADP910_STATUS_CRC_MISMATCH =>
        mk_diag (ok d) (invalid_argument d) (bus_error d) (not_ready d)
                (wrap32 (crc_mismatch d + 1)) (other d) status
    | ADP910_STATUS_OTHER =>
        mk_diag (ok d) (invalid_argument d) (bus_error d) (not_ready d)
                (crc_mismatch d) (wrap32 (other d + 1)) status
    end.

Definition adp910_channel_reset_cycle (channel : adp910_channel_t) : adp910_channel_t :=
    let channel := set_sample adp910_sample_zero channel in
    let channel := set_sample_valid false channel in
    set_last_read_status ADP910_STATUS_NOT_READY channel.

Section Ticks.

Variable configTICK_RATE_HZ : Z.

Definition adp910_channel_try_init
        (channel : adp910_channel_t) (now_tick : Z) (drv : init_result) : adp910_channel_t :=
      if ready channel || (now_tick <? next_init_tick channel) then channel
      else
        let init_status := init_status drv in
        let channel := set_sensor (init_sensor drv) channel in
        let channel := set_ready (adp910_status_eqb init_status ADP910_STATUS_OK) channel in
        let channel := set_diag (adp910_diag_record (diag channel) init_status) channel in
        if negb (ready channel) then
          let channel := set_read_error_streak 0 channel in
          set_next_init_tick
            (wrap32 (now_tick
                     + FreeRTOS.pdMS_TO_TICKS configTICK_RATE_HZ ADP910_INIT_RETRY_BACKOFF_MS))
            channel
        else
          set_read_error_streak 0 channel.

End Ticks.

Definition adp910_channel_read
      (channel : adp910_channel_t) (drv : read_result) : adp910_channel_t :=
    if negb (ready channel) then channel
    else
      let channel := set_sensor (read_sensor drv) channel in
      let channel := set_sample (read_sample drv) channel in
      let channel := set_last_read_status (read_status drv) channel in
      let channel :=
        set_diag (adp910_diag_record (diag channel) (last_read_status channel)) channel in
      let channel :=
        set_sample_valid (adp910_status_eqb (last_read_status channel) ADP910_STATUS_OK)
                         channel in
      if adp910_status_eqb (last_read_status channel) ADP910_STATUS_OK then
        set_read_error_streak 0 channel
      else if adp910_status_eqb (last_read_status channel) ADP910_STATUS_BUS_ERROR
              || adp910_status_eqb (last_read_status channel) ADP910_STATUS_NOT_READY then
        let channel :=
          if read_error_streak channel <? 255
          then set_read_error_streak (wrap8 (read_error_streak channel + 1)) channel
          else channel in
        if ADP910_READ_ERROR_STREAK_TO_REINIT <=? read_error_streak channel then
          let channel := set_ready false channel in
          set_read_error_streak 0 channel
        else channel
      else channel.

(** One period of the sampling loop, seen from one channel: the loop runs
      reset, then init-attempt, then read over the channels, and no phase
      touches another channel. *)
Definition adp910_channel_cycle (rate : Z)
      (channel : adp910_channel_t) (now_tick : Z) (i : init_result) (r : read_result)
    : adp910_channel_t :=
    adp910_channel_read
      (adp910_channel_try_init rate (adp910_channel_reset_cycle channel) now_tick i) r.

(** The channels as the task creates them. *)
Definition channel_initial (name : string) (p : adp910_port_config_t) : adp910_channel_t :=
    {| id := name; port := p; sensor := 0;
       diag := adp910_diag_reset (mk_diag 0 0 0 0 0 0 ADP910_STATUS_OK);
       ready := false; next_init_tick := 0; sample := adp910_sample_zero;
       sample_valid := false; last_read_status := ADP910_STATUS_NOT_READY;
       read_error_streak := 0 |}.

(** [n] consecutive reads, one per driver answer. *)
Fixpoint read_run (channel : adp910_channel_t) (answers : list read_result)
    : adp910_channel_t :=
    match answers with
    | [] => channel
    | r :: rest => read_run (adp910_channel_read channel r) rest
    end.

(** The read outcomes other than success, bus error and not ready: CRC
    mismatch, invalid argument, and the unclassified ones. *)
Definition uncounted_failure (s : adp910_status_t) : bool :=
  match s with
  | ADP910_STATUS_CRC_MISMATCH | ADP910_STATUS_INVALID_ARGUMENT | ADP910_STATUS_OTHER => true
  | _ => false
  end.

End Adp910Task.

(** ** The metrics service *)

Module BlowerMetrics.

Definition CALIBRATION_DURATION_MS : Z := 10000.
Definition CALIBRATION_MIN_SAMPLES : Z := 20.

(** Modelled from the spec: the header [services/blower_metrics.h] is not
      among the sources. It declares the calibration states (Idle, Sampling,
      Done; a zeroed snapshot is Idle), the two configuration records, the
      model table and the snapshot, whose fields are the ones
      [blower_metrics.c] reads and writes. *)
Inductive blower_cal_state_t : Type :=
  | BLOWER_CAL_IDLE
  | BLOWER_CAL_SAMPLING
  | BLOWER_CAL_DONE.

Record blower_linear_fan_speed_model_config_t : Type := mk_fan_speed_config {
    pascal_to_speed_gain : float32
  }.

Record blower_linear_air_leakage_model_config_t : Type := mk_air_leakage_config {
    leakage_gain : float32
  }.

(** A model is a C function pointer with a [const void *] context. [None]
      is the NULL pointer; a context, when present, points to the
      configuration record of the corresponding linear model. *)
Definition fan_speed_model_fn : Type :=
    float32 -> option blower_linear_fan_speed_model_config_t -> float32.
Definition air_leakage_model_fn : Type :=
    float32 -> float32 -> option blower_linear_air_leakage_model_config_t -> float32.

Record blower_metrics_models_t : Type := mk_models {
    fan_speed_model : option fan_speed_model_fn;
    fan_speed_model_context : option blower_linear_fan_speed_model_config_t;
    air_leakage_model : option air_leakage_model_fn;
    air_leakage_model_context : option blower_linear_air_leakage_model_config_t
  }.

Record blower_metrics_snapshot_t : Type := mk_snapshot {
    fan_pressure_pa : float32;
    fan_temperature_c : float32;
    fan_sample_valid : bool;
    envelope_pressure_pa : float32;
    envelope_temperature_c : float32;
    envelope_sample_valid : bool;
    fan_speed_units : float32;
    estimated_air_leakage_units : float32;
    calibration_state : blower_cal_state_t;
    calibration_progress_pct : Z;
    calibration_fan_offset : float32;
    calibration_envelope_offset : float32;
    update_sequence : Z;
    last_update_tick : Z
  }.

Record calibration_accumulator_t : Type := mk_cal {
    active : bool;
    start_tick : Z;
    fan_sum : float32;
    envelope_sum : float32;
    fan_count : Z;
    envelope_count : Z
  }.

(** [mutex] is whether the handle is non-NULL. *)
Record blower_metrics_service_context_t : Type := mk_context {
    mutex : bool;
    models : blower_metrics_models_t;
    snapshot : blower_metrics_snapshot_t;
    fan_pressure_offset_pa : float32;
    envelope_pressure_offset_pa : float32;
    last_fan_pressure_raw_pa : float32;
    last_envelope_pressure_raw_pa : float32;
    has_last_fan_pressure_raw : bool;
    has_last_envelope_pressure_raw : bool;
    is_initialized : bool;
    cal : calibration_accumulator_t
  }.

(** Field assignments. *)
Definition set_fan_pressure_pa (v : float32) (s : blower_metrics_snapshot_t) : blower_metrics_snapshot_t :=
    mk_snapshot v (fan_temperature_c s) (fan_sample_valid s) (envelope_pressure_pa s)
      (envelope_temperature_c s) (envelope_sample_valid s) (fan_speed_units s)
      (estimated_air_leakage_units s) (calibration_state s) (calibration_progress_pct s)
      (calibration_fan_offset s) (calibration_envelope_offset s) (update_sequence s)
      (last_update_tick s).
Definition set_fan_temperature_c (v : float32) (s : blower_metrics_snapshot_t) : blower_metrics_snapshot_t :=
    mk_snapshot (fan_pressure_pa s) v (fan_sample_valid s) (envelope_pressure_pa s)
      (envelope_temperature_c s) (envelope_sample_valid s) (fan_speed_units s)
      (estimated_air_leakage_units s) (calibration_state s) (calibration_progress_pct s)
      (calibration_fan_offset s) (calibration_envelope_offset s) (update_sequence s)
      (last_update_tick s).
Definition set_fan_sample_valid (v : bool) (s : blower_metrics_snapshot_t) : blower_metrics_snapshot_t :=
    mk_snapshot (fan_pressure_pa s) (fan_temperature_c s) v (envelope_pressure_pa s)
      (envelope_temperature_c s) (envelope_sample_valid s) (fan_speed_units s)
      (estimated_air_leakage_units s) (calibration_state s) (calibration_progress_pct s)
      (calibration_fan_offset s) (calibration_envelope_offset s) (update_sequence s)
      (last_update_tick s).
Definition set_envelope_pressure_pa (v : float32) (s : blower_metrics_snapshot_t) : blower_metrics_snapshot_t :=
    mk_snapshot (fan_pressure_pa s) (fan_temperature_c s) (fan_sample_valid s) v
      (envelope_temperature_c s) (envelope_sample_valid s) (fan_speed_units s)
      (estimated_air_leakage_units s) (calibration_state s) (calibration_progress_pct s)
      (calibration_fan_offset s) (calibration_envelope_offset s) (update_sequence s)
      (last_update_tick s).
Definition set_envelope_temperature_c (v : float32) (s : blower_metrics_snapshot_t) : blower_metrics_snapshot_t :=
    mk_snapshot (fan_pressure_pa s) (fan_temperature_c s) (fan_sample_valid s)
      (envelope_pressure_pa s) v (envelope_sample_valid s) (fan_speed_units s)
      (estimated_air_leakage_units s) (calibration_state s) (calibration_progress_pct s)
      (calibration_fan_offset s) (calibration_envelope_offset s) (update_sequence s)
      (last_update_tick s).
Definition set_envelope_sample_valid (v : bool) (s : blower_metrics_snapshot_t) : blower_metrics_snapshot_t :=
    mk_snapshot (fan_pressure_pa s) (fan_temperature_c s) (fan_sample_valid s)
      (envelope_pressure_pa s) (envelope_temperature_c s) v (fan_speed_units s)
      (estimated_air_leakage_units s) (calibration_state s) (calibration_progress_pct s)
      (calibration_fan_offset s) (calibration_envelope_offset s) (update_sequence s)
      (last_update_tick s).
Definition set_fan_speed_units (v : float32) (s : blower_metrics_snapshot_t) : blower_metrics_snapshot_t :=
    mk_snapshot (fan_pressure_pa s) (fan_temperature_c s) (fan_sample_valid s)
      (envelope_pressure_pa s) (envelope_temperature_c s) (envelope_sample_valid s) v
      (estimated_air_leakage_units s) (calibration_state s) (calibration_progress_pct s)
      (calibration_fan_offset s) (calibration_envelope_offset s) (update_sequence s)
      (last_update_tick s).
Definition set_estimated_air_leakage_units (v : float32) (s : blower_metrics_snapshot_t) : blower_metrics_snapshot_t :=
    mk_snapshot (fan_pressure_pa s) (fan_temperature_c s) (fan_sample_valid s)
      (envelope_pressure_pa s) (envelope_temperature_c s) (envelope_sample_valid s)
      (fan_speed_units s) v (calibration_state s) (calibration_progress_pct s)
      (calibration_fan_offset s) (calibration_envelope_offset s) (update_sequence s)
      (last_update_tick s).
Definition set_calibration_state (v : blower_cal_state_t) (s : blower_metrics_snapshot_t) : blower_metrics_snapshot_t :=
    mk_snapshot (fan_pressure_pa s) (fan_temperature_c s) (fan_sample_valid s)
      (envelope_pressure_pa s) (envelope_temperature_c s) (envelope_sample_valid s)
      (fan_speed_units s) (estimated_air_leakage_units s) v (calibration_progress_pct s)
      (calibration_fan_offset s) (calibration_envelope_offset s) (update_sequence s)
      (last_update_tick s).
Definition set_calibration_progress_pct (v : Z) (s : blower_metrics_snapshot_t) : blower_metrics_snapshot_t :=
    mk_snapshot (fan_pressure_pa s) (fan_temperature_c s) (fan_sample_valid s)
      (envelope_pressure_pa s) (envelope_temperature_c s) (envelope_sample_valid s)
      (fan_speed_units s) (estimated_air_leakage_units s) (calibration_state s) v
      (calibration_fan_offset s) (calibration_envelope_offset s) (update_sequence s)
      (last_update_tick s).
Definition set_calibration_fan_offset (v : float32) (s : blower_metrics_snapshot_t) : blower_metrics_snapshot_t :=
    mk_snapshot (fan_pressure_pa s) (fan_temperature_c s) (fan_sample_valid s)
      (envelope_pressure_pa s) (envelope_temperature_c s) (envelope_sample_valid s)
      (fan_speed_units s) (estimated_air_leakage_units s) (calibration_state s)
      (calibration_progress_pct s) v (calibration_envelope_offset s) (update_sequence s)
      (last_update_tick s).
Definition set_calibration_envelope_offset (v : float32) (s : blower_metrics_snapshot_t) : blower_metrics_snapshot_t :=
    mk_snapshot (fan_pressure_pa s) (fan_temperature_c s) (fan_sample_valid s)
      (envelope_pressure_pa s) (envelope_temperature_c s) (envelope_sample_valid s)
      (fan_speed_units s) (estimated_air_leakage_units s) (calibration_state s)
      (calibration_progress_pct s) (calibration_fan_offset s) v (update_sequence s)
      (last_update_tick s).
Definition set_update_sequence (v : Z) (s : blower_metrics_snapshot_t) : blower_metrics_snapshot_t :=
    mk_snapshot (fan_pressure_pa s) (fan_temperature_c s) (fan_sample_valid s)
      (envelope_pressure_pa s) (envelope_temperature_c s) (envelope_sample_valid s)
      (fan_speed_units s) (estimated_air_leakage_units s) (calibration_state s)
      (calibration_progress_pct s) (calibration_fan_offset s)
      (calibration_envelope_offset s) v (last_update_tick s).
Definition set_last_update_tick (v : Z) (s : blower_metrics_snapshot_t) : blower_metrics_snapshot_t :=
    mk_snapshot (fan_pressure_pa s) (fan_temperature_c s) (fan_sample_valid s)
      (envelope_pressure_pa s) (envelope_temperature_c s) (envelope_sample_valid s)
      (fan_speed_units s) (estimated_air_leakage_units s) (calibration_state s)
      (calibration_progress_pct s) (calibration_fan_offset s)
      (calibration_envelope_offset s) (update_sequence s) v.
Definition set_active (v : bool) (c : calibration_accumulator_t) : calibration_accumulator_t :=
    mk_cal v (start_tick c) (fan_sum c) (envelope_sum c) (fan_count c)
      (envelope_count c).
Definition set_start_tick (v : Z) (c : calibration_accumulator_t) : calibration_accumulator_t :=
    mk_cal (active c) v (fan_sum c) (envelope_sum c) (fan_count c) (envelope_count c).
Definition set_fan_sum (v : float32) (c : calibration_accumulator_t) : calibration_accumulator_t :=
    mk_cal (active c) (start_tick c) v (envelope_sum c) (fan_count c) (envelope_count c).
Definition set_envelope_sum (v : float32) (c : calibration_accumulator_t) : calibration_accumulator_t :=
    mk_cal (active c) (start_tick c) (fan_sum c) v (fan_count c) (envelope_count c).
Definition set_fan_count (v : Z) (c : calibration_accumulator_t) : calibration_accumulator_t :=
    mk_cal (active c) (start_tick c) (fan_sum c) (envelope_sum c) v (envelope_count c).
Definition set_envelope_count (v : Z) (c : calibration_accumulator_t) : calibration_accumulator_t :=
    mk_cal (active c) (start_tick c) (fan_sum c) (envelope_sum c) (fan_count c) v.
Definition set_mutex (v : bool) (g : blower_metrics_service_context_t) : blower_metrics_service_context_t :=
    mk_context v (models g) (snapshot g) (fan_pressure_offset_pa g)
      (envelope_pressure_offset_pa g) (last_fan_pressure_raw_pa g)
      (last_envelope_pressure_raw_pa g) (has_last_fan_pressure_raw g)
      (has_last_envelope_pressure_raw g) (is_initialized g) (cal g).
Definition set_models (v : blower_metrics_models_t) (g : blower_metrics_service_context_t) : blower_metrics_service_context_t :=
    mk_context (mutex g) v (snapshot g) (fan_pressure_offset_pa g)
      (envelope_pressure_offset_pa g) (last_fan_pressure_raw_pa g)
      (last_envelope_pressure_raw_pa g) (has_last_fan_pressure_raw g)
      (has_last_envelope_pressure_raw g) (is_initialized g) (cal g).
Definition set_snapshot (v : blower_metrics_snapshot_t) (g : blower_metrics_service_context_t) : blower_metrics_service_context_t :=
    mk_context (mutex g) (models g) v (fan_pressure_offset_pa g)
      (envelope_pressure_offset_pa g) (last_fan_pressure_raw_pa g)
      (last_envelope_pressure_raw_pa g) (has_last_fan_pressure_raw g)
      (has_last_envelope_pressure_raw g) (is_initialized g) (cal g).
Definition set_fan_pressure_offset_pa (v : float32) (g : blower_metrics_service_context_t) : blower_metrics_service_context_t :=
    mk_context (mutex g) (models g) (snapshot g) v (envelope_pressure_offset_pa g)
      (last_fan_pressure_raw_pa g) (last_envelope_pressure_raw_pa g)
      (has_last_fan_pressure_raw g) (has_last_envelope_pressure_raw g)
      (is_initialized g) (cal g).
Definition set_envelope_pressure_offset_pa (v : float32) (g : blower_metrics_service_context_t) : blower_metrics_service_context_t :=
    mk_context (mutex g) (models g) (snapshot g) (fan_pressure_offset_pa g) v
      (last_fan_pressure_raw_pa g) (last_envelope_pressure_raw_pa g)
      (has_last_fan_pressure_raw g) (has_last_envelope_pressure_raw g)
      (is_initialized g) (cal g).
Definition set_last_fan_pressure_raw_pa (v : float32) (g : blower_metrics_service_context_t) : blower_metrics_service_context_t :=
    mk_context (mutex g) (models g) (snapshot g) (fan_pressure_offset_pa g)
      (envelope_pressure_offset_pa g) v (last_envelope_pressure_raw_pa g)
      (has_last_fan_pressure_raw g) (has_last_envelope_pressure_raw g)
      (is_initialized g) (cal g).
Definition set_last_envelope_pressure_raw_pa (v : float32) (g : blower_metrics_service_context_t) : blower_metrics_service_context_t :=
    mk_context (mutex g) (models g) (snapshot g) (fan_pressure_offset_pa g)
      (envelope_pressure_offset_pa g) (last_fan_pressure_raw_pa g) v
      (has_last_fan_pressure_raw g) (has_last_envelope_pressure_raw g)
      (is_initialized g) (cal g).
Definition set_has_last_fan_pressure_raw (v : bool) (g : blower_metrics_service_context_t) : blower_metrics_service_context_t :=
    mk_context (mutex g) (models g) (snapshot g) (fan_pressure_offset_pa g)
      (envelope_pressure_offset_pa g) (last_fan_pressure_raw_pa g)
      (last_envelope_pressure_raw_pa g) v (has_last_envelope_pressure_raw g)
      (is_initialized g) (cal g).
Definition set_has_last_envelope_pressure_raw (v : bool) (g : blower_metrics_service_context_t) : blower_metrics_service_context_t :=
    mk_context (mutex g) (models g) (snapshot g) (fan_pressure_offset_pa g)
      (envelope_pressure_offset_pa g) (last_fan_pressure_raw_pa g)
      (last_envelope_pressure_raw_pa g) (has_last_fan_pressure_raw g) v
      (is_initialized g) (cal g).
Definition set_is_initialized (v : bool) (g : blower_metrics_service_context_t) : blower_metrics_service_context_t :=
    mk_context (mutex g) (models g) (snapshot g) (fan_pressure_offset_pa g)
      (envelope_pressure_offset_pa g) (last_fan_pressure_raw_pa g)
      (last_envelope_pressure_raw_pa g) (has_last_fan_pressure_raw g)
      (has_last_envelope_pressure_raw g) v (cal g).
Definition set_cal (v : calibration_accumulator_t) (g : blower_metrics_service_context_t) : blower_metrics_service_context_t :=
    mk_context (mutex g) (models g) (snapshot g) (fan_pressure_offset_pa g)
      (envelope_pressure_offset_pa g) (last_fan_pressure_raw_pa g)
      (last_envelope_pressure_raw_pa g) (has_last_fan_pressure_raw g)
      (has_last_envelope_pressure_raw g) (is_initialized g) v.

(** Outcome of a function that calls through the model table: it returns, or
    it calls a NULL function pointer, which is undefined behaviour in C. *)
Inductive result (A : Type) : Type :=
| Returns (a : A)
| NullCall.
Arguments Returns {A} a.
Arguments NullCall {A}.

Definition with_snapshot (f : blower_metrics_snapshot_t -> blower_metrics_snapshot_t)
    (g : blower_metrics_service_context_t) : blower_metrics_service_context_t :=
  set_snapshot (f (snapshot g)) g.

Definition with_cal (f : calibration_accumulator_t -> calibration_accumulator_t)
    (g : blower_metrics_service_context_t) : blower_metrics_service_context_t :=
  set_cal (f (cal g)) g.

(** [memset(.., 0, ..)] of a snapshot and of an accumulator. *)
Definition blower_metrics_snapshot_zero : blower_metrics_snapshot_t :=
  mk_snapshot zero zero false zero zero false zero zero BLOWER_CAL_IDLE 0 zero zero 0 0.

Definition calibration_accumulator_zero : calibration_accumulator_t :=
  mk_cal false 0 zero zero 0 0.

(** The context as static storage holds it before the first call. *)
Definition g_service_context : blower_metrics_service_context_t :=
  mk_context false (mk_models None None None None) blower_metrics_snapshot_zero
             zero zero zero zero false false false calibration_accumulator_zero.

Definition blower_absf (value : float32) : float32 :=
  if ge value zero then value else neg value.

Definition blower_linear_fan_speed_model : fan_speed_model_fn :=
  fun pressure_pa context =>
    let gain :=
      match context with
      | Some config =>
          if gt (pascal_to_speed_gain config) zero then pascal_to_speed_gain config else one
      | None => one
      end in
    mul (blower_absf pressure_pa) gain.

Definition blower_linear_air_leakage_model : air_leakage_model_fn :=
  fun speed_units pressure_pa context =>
    let gain :=
      match context with
      | Some config => if gt (leakage_gain config) zero then leakage_gain config else one
      | None => one
      end in
    mul (mul speed_units (blower_absf pressure_pa)) gain.

Definition blower_metrics_service_apply_default_models
    (_ : blower_metrics_models_t) : blower_metrics_models_t :=
  {| fan_speed_model := Some blower_linear_fan_speed_model;
     fan_speed_model_context := None;
     air_leakage_model := Some blower_linear_air_leakage_model;
     air_leakage_model_context := None |}.

(** [models != NULL && models->fan_speed_model != NULL &&
    models->air_leakage_model != NULL] *)
Definition models_supplied (m : option blower_metrics_models_t) : bool :=
  match m with
  | Some m =>
      match fan_speed_model m, air_leakage_model m with
      | Some _, Some _ => true
      | _, _ => false
      end
  | None => false
  end.

(** [create_ok]: whether [xSemaphoreCreateMutex] returns a handle. The result
    of the [xSemaphoreTake] of this function is not looked at by the code. *)
Definition blower_metrics_service_initialize
    (g : blower_metrics_service_context_t)
    (m : option blower_metrics_models_t) (create_ok : bool)
  : blower_metrics_service_context_t :=
  let g := if negb (mutex g) then set_mutex create_ok g else g in
  if negb (mutex g) then g
  else
    let g :=
      match m with
      | Some supplied =>
          if models_supplied m then set_models supplied g
          else set_models (blower_metrics_service_apply_default_models (models g)) g
      | None => set_models (blower_metrics_service_apply_default_models (models g)) g
      end in
    let g := set_snapshot blower_metrics_snapshot_zero g in
    let g := set_fan_pressure_offset_pa zero g in
    let g := set_envelope_pressure_offset_pa zero g in
    let g := set_last_fan_pressure_raw_pa zero g in
    let g := set_last_envelope_pressure_raw_pa zero g in
    let g := set_has_last_fan_pressure_raw false g in
    let g := set_has_last_envelope_pressure_raw false g in
    let g := set_cal calibration_accumulator_zero g in
    set_is_initialized true g.

(** [valid && sample != NULL]: the sample when both hold. *)
Definition sample_given (valid : bool) (sample : option adp910_sample_t)
  : option adp910_sample_t :=
  if valid then sample else None.

(** Lines 121-143 of [blower_metrics_service_update], for each role. *)
Definition update_fan_role (fan_sample : option adp910_sample_t) (fan_valid : bool)
    (g : blower_metrics_service_context_t) : blower_metrics_service_context_t :=
  match sample_given fan_valid fan_sample with
  | Some fan_sample =>
      let g := set_last_fan_pressure_raw_pa (corrected_pressure_pa fan_sample) g in
      let g := set_has_last_fan_pressure_raw true g in
      let g := with_snapshot
                 (set_fan_pressure_pa
                    (sub (last_fan_pressure_raw_pa g) (fan_pressure_offset_pa g))) g in
      let g := with_snapshot (set_fan_temperature_c (temperature_c fan_sample)) g in
      with_snapshot (set_fan_sample_valid true) g
  | None => with_snapshot (set_fan_sample_valid false) g
  end.

Definition update_envelope_role
    (envelope_sample : option adp910_sample_t) (envelope_valid : bool)
    (g : blower_metrics_service_context_t) : blower_metrics_service_context_t :=
  match sample_given envelope_valid envelope_sample with
  | Some envelope_sample =>
      let g := set_last_envelope_pressure_raw_pa (corrected_pressure_pa envelope_sample) g in
      let g := set_has_last_envelope_pressure_raw true g in
      let g := with_snapshot
                 (set_envelope_pressure_pa
                    (sub (last_envelope_pressure_raw_pa g) (envelope_pressure_offset_pa g)))
                 g in
      let g := with_snapshot (set_envelope_temperature_c (temperature_c envelope_sample)) g in
      with_snapshot (set_envelope_sample_valid true) g
  | None => with_snapshot (set_envelope_sample_valid false) g
  end.

(** [elapsed_ms] of the calibration block: the tick difference and its
    product with [portTICK_PERIOD_MS] are both computed in 32 bits. *)
Definition calibration_elapsed_ms (rate start_tick now_tick : Z) : Z :=
  let elapsed := wrap32 (now_tick - start_tick) in
  wrap32 (elapsed * FreeRTOS.portTICK_PERIOD_MS rate).

(** Lines 146-193: the calibration accumulator. *)
Definition update_calibration (rate now_tick : Z)
    (fan_sample : option adp910_sample_t) (fan_valid : bool)
    (envelope_sample : option adp910_sample_t) (envelope_valid : bool)
    (g : blower_metrics_service_context_t) : blower_metrics_service_context_t :=
  if active (cal g) then
    let elapsed_ms := calibration_elapsed_ms rate (start_tick (cal g)) now_tick in
    let g :=
      match sample_given fan_valid fan_sample with
      | Some fan_sample =>
          let g := with_cal (fun c =>
                     set_fan_sum (add (fan_sum c) (corrected_pressure_pa fan_sample)) c) g in
          with_cal (fun c => set_fan_count (wrap32 (fan_count c + 1)) c) g
      | None => g
      end in
    let g :=
      match sample_given envelope_valid envelope_sample with
      | Some envelope_sample =>
          let g := with_cal (fun c =>
                     set_envelope_sum
                       (add (envelope_sum c) (corrected_pressure_pa envelope_sample)) c) g in
          with_cal (fun c => set_envelope_count (wrap32 (envelope_count c + 1)) c) g
      | None => g
      end in
    if elapsed_ms <? CALIBRATION_DURATION_MS then
      let pct := wrap32 (elapsed_ms * 100) / CALIBRATION_DURATION_MS in
      let pct := if 99 <? pct then 99 else pct in
      let g := with_snapshot (set_calibration_state BLOWER_CAL_SAMPLING) g in
      with_snapshot (set_calibration_progress_pct (wrap8 pct)) g
    else
      let g :=
        if CALIBRATION_MIN_SAMPLES <=? fan_count (cal g) then
          let g := set_fan_pressure_offset_pa
                     (div (fan_sum (cal g)) (of_uint32 (fan_count (cal g)))) g in
          with_snapshot
            (set_fan_pressure_pa
               (sub (last_fan_pressure_raw_pa g) (fan_pressure_offset_pa g))) g
        else g in
      let g :=
        if CALIBRATION_MIN_SAMPLES <=? envelope_count (cal g) then
          let g := set_envelope_pressure_offset_pa
                     (div (envelope_sum (cal g)) (of_uint32 (envelope_count (cal g)))) g in
          with_snapshot
            (set_envelope_pressure_pa
               (sub (last_envelope_pressure_raw_pa g) (envelope_pressure_offset_pa g))) g
        else g in
      let g := with_snapshot (set_calibration_fan_offset (fan_pressure_offset_pa g)) g in
      let g := with_snapshot
                 (set_calibration_envelope_offset (envelope_pressure_offset_pa g)) g in
      let g := with_snapshot (set_calibration_state BLOWER_CAL_DONE) g in
      let g := with_snapshot (set_calibration_progress_pct 100) g in
      with_cal (set_active false) g
  else g.

(** The tail that [blower_metrics_service_update] (lines 195-203) and
    [blower_metrics_service_capture_zero_offsets] (lines 252-259) share: both
    models are called through the table, then the sequence number is
    incremented and the tick stamped. *)
Definition publish_derived (stamp_tick : Z) (g : blower_metrics_service_context_t)
  : result blower_metrics_service_context_t :=
  match fan_speed_model (models g) with
  | None => NullCall
  | Some fan_speed =>
      let g := with_snapshot (fun s =>
                 set_fan_speed_units
                   (fan_speed (fan_pressure_pa s) (fan_speed_model_context (models g))) s) g in
      match air_leakage_model (models g) with
      | None => NullCall
      | Some air_leakage =>
          let g := with_snapshot (fun s =>
                     set_estimated_air_leakage_units
                       (air_leakage (fan_speed_units s) (envelope_pressure_pa s)
                                    (air_leakage_model_context (models g))) s) g in
          let g := with_snapshot (fun s =>
                     set_update_sequence (wrap32 (update_sequence s + 1)) s) g in
          Returns (with_snapshot (set_last_update_tick (wrap32 stamp_tick)) g)
      end
  end.

(** [blower_metrics_service_update]. From the environment: [create_ok] (used
    by the lazy initialisation), [take_ok] (whether [xSemaphoreTake] returns
    [pdTRUE]) and the two readings of the tick counter. The boolean of the
    result tells whether the call reached its end (true) or left through one
    of its early [return]s (false). *)
Definition blower_metrics_service_update (rate : Z)
    (g : blower_metrics_service_context_t)
    (create_ok take_ok : bool) (now_tick stamp_tick : Z)
    (fan_sample : option adp910_sample_t) (fan_sample_valid : bool)
    (envelope_sample : option adp910_sample_t) (envelope_sample_valid : bool)
  : result (blower_metrics_service_context_t * bool) :=
  let g := if negb (is_initialized g)
           then blower_metrics_service_initialize g None create_ok else g in
  if negb (is_initialized g) || negb (mutex g) then Returns (g, false)
  else if negb take_ok then Returns (g, false)
  else
    let g := update_fan_role fan_sample fan_sample_valid g in
    let g := update_envelope_role envelope_sample envelope_sample_valid g in
    let g := update_calibration rate now_tick fan_sample fan_sample_valid
                                envelope_sample envelope_sample_valid g in
    match publish_derived stamp_tick g with
    | Returns g => Returns (g, true)
    | NullCall => NullCall
    end.

(** [blower_metrics_service_get_snapshot]: [Some] of the copy written to
    [*out_snapshot] when the function returns true, [None] when it returns
    false. The context is not modified. *)
Definition blower_metrics_service_get_snapshot
    (g : blower_metrics_service_context_t) (out_nonnull take_ok : bool)
  : option blower_metrics_snapshot_t :=
  if negb out_nonnull || negb (mutex g) || negb (is_initialized g) then None
  else if take_ok then Some (snapshot g)
  else None.

(** [blower_metrics_service_capture_zero_offsets]: the new context and the
    returned [captured]. *)
Definition blower_metrics_service_capture_zero_offsets
    (g : blower_metrics_service_context_t) (take_ok : bool) (stamp_tick : Z)
  : result (blower_metrics_service_context_t * bool) :=
  if negb (mutex g) || negb (is_initialized g) then Returns (g, false)
  else if negb take_ok then Returns (g, false)
  else
    let captured := false in
    let '(g, captured) :=
      if fan_sample_valid (snapshot g) && has_last_fan_pressure_raw g then
        let g := set_fan_pressure_offset_pa (last_fan_pressure_raw_pa g) g in
        (with_snapshot (set_fan_pressure_pa zero) g, true)
      else (g, captured) in
    let '(g, captured) :=
      if envelope_sample_valid (snapshot g) && has_last_envelope_pressure_raw g then
        let g := set_envelope_pressure_offset_pa (last_envelope_pressure_raw_pa g) g in
        (with_snapshot (set_envelope_pressure_pa zero) g, true)
      else (g, captured) in
    if captured then
      match publish_derived stamp_tick g with
      | Returns g => Returns (g, true)
      | NullCall => NullCall
      end
    else Returns (g, false).

(** [blower_metrics_service_begin_calibration]; [now_tick] is the tick
    counter read for [start_tick]. *)
Definition blower_metrics_service_begin_calibration
    (g : blower_metrics_service_context_t) (take_ok : bool) (now_tick : Z)
  : blower_metrics_service_context_t :=
  if negb (mutex g) || negb (is_initialized g) then g
  else if negb take_ok then g
  else
    let g := set_fan_pressure_offset_pa zero g in
    let g := set_envelope_pressure_offset_pa zero g in
    let g := set_cal {| active := true; start_tick := now_tick;
                        fan_sum := zero; envelope_sum := zero;
                        fan_count := 0; envelope_count := 0 |} g in
    let g := with_snapshot (set_calibration_state BLOWER_CAL_SAMPLING) g in
    with_snapshot (set_calibration_progress_pct 0) g.

(** *** Sequences of calls

    The entry points of the service, each with what it receives from its
    caller and from the environment. *)
Inductive service_call : Type :=
| CallInitialize (m : option blower_metrics_models_t) (create_ok : bool)
| CallUpdate (create_ok take_ok : bool) (now_tick stamp_tick : Z)
    (fan_sample : option adp910_sample_t) (fan_sample_valid : bool)
    (envelope_sample : option adp910_sample_t) (envelope_sample_valid : bool)
| CallGetSnapshot (out_nonnull take_ok : bool)
| CallCaptureZeroOffsets (take_ok : bool) (stamp_tick : Z)
| CallBeginCalibration (take_ok : bool) (now_tick : Z).

Definition count_if (b : bool) : nat := if b then 1%nat else 0%nat.

(** One call. The number is 1 for an [update] that reached its end and for a
    [capture_zero_offsets] that returned true, 0 otherwise. *)
Definition service_step (rate : Z) (g : blower_metrics_service_context_t)
    (c : service_call) : result (blower_metrics_service_context_t * nat) :=
  match c with
  | CallInitialize m create_ok =>
      Returns (blower_metrics_service_initialize g m create_ok, 0%nat)
  | CallUpdate create_ok take_ok now_tick stamp_tick fs fv es ev =>
      match blower_metrics_service_update rate g create_ok take_ok now_tick stamp_tick
                                          fs fv es ev with
      | Returns (g, committed) => Returns (g, count_if committed)
      | NullCall => NullCall
      end
  | CallGetSnapshot _ _ => Returns (g, 0%nat)
  | CallCaptureZeroOffsets take_ok stamp_tick =>
      match blower_metrics_service_capture_zero_offsets g take_ok stamp_tick with
      | Returns (g, captured) => Returns (g, count_if captured)
      | NullCall => NullCall
      end
  | CallBeginCalibration take_ok now_tick =>
      Returns (blower_metrics_service_begin_calibration g take_ok now_tick, 0%nat)
  end.

Fixpoint service_run (rate : Z) (g : blower_metrics_service_context_t)
    (calls : list service_call) : result (blower_metrics_service_context_t * nat) :=
  match calls with
  | [] => Returns (g, 0%nat)
  | c :: rest =>
      match service_step rate g c with
      | Returns (g, n) =>
          match service_run rate g rest with
          | Returns (g, m) => Returns (g, (n + m)%nat)
          | NullCall => NullCall
          end
      | NullCall => NullCall
      end
  end.

Definition is_initialize (c : service_call) : bool :=
  match c with
  | CallInitialize _ _ => true
  | _ => false
  end.

(** Calls that leave a calibration window started at [start] open: an
    [update] whose elapsed time is below the duration, a read of the
    snapshot, a manual zero capture. *)
Definition in_window (rate start : Z) (c : service_call) : bool :=
  match c with
  | CallUpdate _ _ now_tick _ _ _ _ _ =>
      calibration_elapsed_ms rate start now_tick <? CALIBRATION_DURATION_MS
  | CallGetSnapshot _ _ => true
  | CallCaptureZeroOffsets _ _ => true
  | _ => false
  end.

(** The pressures that the [update] calls of a sequence hand over for a role,
    in order: those of the calls that take the lock and give a valid sample. *)
Fixpoint fan_pressures (calls : list service_call) : list float32 :=
  match calls with
  | [] => []
  | CallUpdate _ true _ _ fs fv _ _ :: rest =>
      match sample_given fv fs with
      | Some s => corrected_pressure_pa s :: fan_pressures rest
      | None => fan_pressures rest
      end
  | _ :: rest => fan_pressures rest
  end.

Fixpoint envelope_pressures (calls : list service_call) : list float32 :=
  match calls with
  | [] => []
  | CallUpdate _ true _ _ _ _ es ev :: rest =>
      match sample_given ev es with
      | Some s => corrected_pressure_pa s :: envelope_pressures rest
      | None => envelope_pressures rest
      end
  | _ :: rest => envelope_pressures rest
  end.

(** The running sum the accumulator keeps: left to right, from [0.0f]. *)
Definition float_sum (l : list float32) : float32 := fold_left add l zero.

(** *** Well-formed contexts *)

Definition service_ready (g : blower_metrics_service_context_t) : Prop :=
  is_initialized g = true /\ mutex g = true
  /\ models_supplied (Some (models g)) = true.

(** What holds of the context between calls: either no call has initialised
    it and it is still the static storage, or it is initialised with its lock
    and a complete model table; the sequence number is a [uint32_t]. *)
Definition service_inv (g : blower_metrics_service_context_t) : Prop :=
  is_uint32 (update_sequence (snapshot g))
  /\ (service_ready g \/ g = g_service_context).

(** The contexts that calls can produce from the static storage. *)
Inductive reachable (rate : Z) : blower_metrics_service_context_t -> Prop :=
| reachable_start : reachable rate g_service_context
| reachable_call (g g' : blower_metrics_service_context_t) (c : service_call) (n : nat) :
    reachable rate g -> service_step rate g c = Returns (g', n) -> reachable rate g'.

(** *** Observations used in the statements *)

(** A role that [blower_metrics_service_capture_zero_offsets] captures: its
    sample is currently valid and a raw reading is cached. *)
Definition fan_capturable (g : blower_metrics_service_context_t) : bool :=
  fan_sample_valid (snapshot g) && has_last_fan_pressure_raw g.

Definition envelope_capturable (g : blower_metrics_service_context_t) : bool :=
  envelope_sample_valid (snapshot g) && has_last_envelope_pressure_raw g.

Definition offsets (g : blower_metrics_service_context_t) : float32 * float32 :=
  (fan_pressure_offset_pa g, envelope_pressure_offset_pa g).

(** The sample count of a role once a call's own sample is accumulated. *)
Definition count_after (valid : bool) (sample : option adp910_sample_t) (count : Z) : Z :=
  match sample_given valid sample with
  | Some _ => wrap32 (count + 1)
  | None => count
  end.

(** Whether an [update] at [now_tick] closes the calibration window of [g]. *)
Definition finalizes (rate : Z) (g : blower_metrics_service_context_t) (now_tick : Z) : bool :=
  active (cal g)
  && (CALIBRATION_DURATION_MS <=? calibration_elapsed_ms rate (start_tick (cal g)) now_tick).

(** The calls at which the offsets are written: initialisation, the start of
    a calibration window, a manual capture with a capturable role, and an
    [update] that closes a window in which a role has the minimum number of
    samples. *)
Definition writes_offsets (rate : Z) (g : blower_metrics_service_context_t)
    (c : service_call) : bool :=
  match c with
  | CallInitialize _ _ => true
  | CallUpdate _ take_ok now_tick _ fs fv es ev =>
      take_ok && finalizes rate g now_tick
      && ((CALIBRATION_MIN_SAMPLES <=? count_after fv fs (fan_count (cal g)))
          || (CALIBRATION_MIN_SAMPLES <=? count_after ev es (envelope_count (cal g))))
  | CallGetSnapshot _ _ => false
  | CallCaptureZeroOffsets take_ok _ =>
      take_ok && (fan_capturable g || envelope_capturable g)
  | CallBeginCalibration _ _ => true
  end.

(** The model table that [blower_metrics_service_initialize] installs for an
    argument [m]. *)
Definition models_to_install (m : option blower_metrics_models_t) : blower_metrics_models_t :=
  match m with
  | Some supplied =>
      if models_supplied m then supplied
      else blower_metrics_service_apply_default_models supplied
  | None =>
      blower_metrics_service_apply_default_models (mk_models None None None None)
  end.

(** The three ways through the calibration block of an [update] at
    [now_tick]. *)
Inductive calibration_case (rate : Z) (g : blower_metrics_service_context_t) (now_tick : Z)
  : Prop :=
| case_inactive : active (cal g) = false -> calibration_case rate g now_tick
| case_window :
    active (cal g) = true ->
    calibration_elapsed_ms rate (start_tick (cal g)) now_tick < CALIBRATION_DURATION_MS ->
    calibration_case rate g now_tick
| case_finalize :
    active (cal g) = true ->
    CALIBRATION_DURATION_MS <= calibration_elapsed_ms rate (start_tick (cal g)) now_tick ->
    calibration_case rate g now_tick.

(** An open calibration window started at tick [T], with the sums and the
    (unwrapped) numbers of samples accumulated so far. *)
Record window_state (g : blower_metrics_service_context_t) (T : Z)
    (fsum esum : float32) (fcount ecount : Z) : Prop := mk_window_state {
  ws_ready : service_ready g;
  ws_active : active (cal g) = true;
  ws_start : start_tick (cal g) = T;
  ws_fan_sum : fan_sum (cal g) = fsum;
  ws_envelope_sum : envelope_sum (cal g) = esum;
  ws_fan_count : fan_count (cal g) = wrap32 fcount;
  ws_envelope_count : envelope_count (cal g) = wrap32 ecount
}.

End BlowerMetrics.

(** ** Concrete channels, contexts and call sequences

    Small inputs on which the definitions above are evaluated. *)

Module Examples.
Import Adp910Task BlowerMetrics.

Definition tick_rate : Z := 1000.

Definition fan_port : adp910_port_config_t :=
  {| i2c_instance := 0; i2c_address := 37; sda_pin := 4; scl_pin := 5;
     i2c_frequency_hz := 100000 |}.

(** The fan channel just after a successful initialisation at tick 0. *)
Definition fan_channel_ready : adp910_channel_t :=
  adp910_channel_try_init tick_rate (channel_initial "sensor0" fan_port) 0
    {| init_status := ADP910_STATUS_OK; init_sensor := 1 |}.

Definition init_ok : init_result :=
  {| init_status := ADP910_STATUS_OK; init_sensor := 1 |}.

Definition answer (s : adp910_status_t) : read_result :=
  {| read_status := s; read_sensor := 1; read_sample := adp910_sample_zero |}.

(** A sample of [p] pascals at [t] degrees. *)
Definition sample_of (p t : Z) : adp910_sample_t :=
  {| corrected_pressure_pa := of_uint32 p; temperature_c := of_uint32 t |}.

(** The service after [blower_metrics_service_initialize(NULL)]. *)
Definition ready_service : blower_metrics_service_context_t :=
  blower_metrics_service_initialize g_service_context None true.

(** The model table of the sampling task, with gains 2 and 3. *)
Definition task_models : blower_metrics_models_t :=
  {| fan_speed_model := Some blower_linear_fan_speed_model;
     fan_speed_model_context := Some {| pascal_to_speed_gain := of_uint32 2 |};
     air_leakage_model := Some blower_linear_air_leakage_model;
     air_leakage_model_context := Some {| leakage_gain := of_uint32 3 |} |}.

Definition state_of (r : result (blower_metrics_service_context_t * nat))
  : blower_metrics_service_context_t :=
  match r with
  | Returns (g, _) => g
  | NullCall => g_service_context
  end.

(** An [update] at tick [now] with a fan sample of [p] pascals, or none, and
    an envelope sample of [q] pascals, or none. *)
Definition is_some {A : Type} (o : option A) : bool :=
  match o with
  | Some _ => true
  | None => false
  end.

Definition update_at (now : Z) (p q : option Z) : service_call :=
  CallUpdate true true now now
    (option_map (fun p => sample_of p 20) p) (is_some p)
    (option_map (fun q => sample_of q 20) q) (is_some q).

(** A service with the task's models and one valid sample per role. *)
Definition sampled_service : blower_metrics_service_context_t :=
  state_of (service_run tick_rate g_service_context
              [CallInitialize (Some task_models) true; update_at 10 (Some 5) (Some 7)]).

(** A service whose offsets were captured at 5 Pa (fan) and 7 Pa (envelope). *)
Definition zeroed_service : blower_metrics_service_context_t :=
  state_of (service_run tick_rate g_service_context
              [CallInitialize None true; update_at 10 (Some 5) (Some 7);
               CallCaptureZeroOffsets true 11]).

(** A calibration window opened at tick 0 in which 20 fan samples of 5 Pa
    have been accumulated, and no envelope sample. *)
Definition window_of_twenty : blower_metrics_service_context_t :=
  state_of (service_run tick_rate g_service_context
              ([CallInitialize None true; CallBeginCalibration true 0]
               ++ repeat (update_at 100 (Some 5) None) 20)).

(** A window with 10 fan samples followed by 24 envelope samples; the closing
    [update] brings the 25th envelope sample. *)
Definition uneven_window : list service_call :=
  repeat (update_at 100 (Some 5) None) 10 ++ repeat (update_at 200 None (Some 8)) 24.

(** Three sampling cycles of the ready fan channel with a bus error each. *)
Definition bus_error : read_result := answer ADP910_STATUS_BUS_ERROR.

Definition after_three_bus_errors : adp910_channel_t :=
  adp910_channel_cycle tick_rate
    (adp910_channel_cycle tick_rate
       (adp910_channel_cycle tick_rate fan_channel_ready 10 init_ok bus_error)
       20 init_ok bus_error)
    30 init_ok bus_error.

Definition uncounted_answers : list read_result :=
  [answer ADP910_STATUS_CRC_MISMATCH; answer ADP910_STATUS_CRC_MISMATCH;
   answer ADP910_STATUS_INVALID_ARGUMENT; answer ADP910_STATUS_OTHER].

(** Calls of every kind but [initialize], on the static storage. *)
Definition mixed_calls : list service_call :=
  [update_at 10 (Some 5) (Some 7); CallBeginCalibration true 20;
   CallCaptureZeroOffsets true 30; CallGetSnapshot true true; update_at 40 None None].


(** The service initialised with the task's models, and the same service
    initialised again without models. *)
Definition task_service : blower_metrics_service_context_t :=
  blower_metrics_service_initialize g_service_context (Some task_models) true.

Definition reinitialized_service : blower_metrics_service_context_t :=
  blower_metrics_service_initialize task_service None true.

(** The ready service just after [begin_calibration] at tick 0. *)
Definition calibrating_service : blower_metrics_service_context_t :=
  blower_metrics_service_begin_calibration ready_service true 0.

(** The ready fan channel after two bus errors and a CRC mismatch: it is
    still READY, and its streak stands at 2. *)
Definition mid_streak_channel : adp910_channel_t :=
  adp910_channel_cycle tick_rate
    (adp910_channel_cycle tick_rate
       (adp910_channel_cycle tick_rate fan_channel_ready 10 init_ok bus_error)
       20 init_ok bus_error)
    30 init_ok (answer ADP910_STATUS_CRC_MISMATCH).

End Examples.

(** ** The rest of the sampling task *)

Module SamplingTask.
Import Adp910Task BlowerMetrics.

Definition adp910_status_name (status : adp910_status_t) : string :=
  match status with
  | ADP910_STATUS_OK => "ok"
  | ADP910_STATUS_INVALID_ARGUMENT => "invalid_argument"
  | ADP910_STATUS_BUS_ERROR => "bus_error"
  | ADP910_STATUS_NOT_READY => "not_ready"
  | ADP910_STATUS_CRC_MISMATCH => "crc_mismatch"
  | ADP910_STATUS_OTHER => "unknown"
  end.

(** [adp910_diag_record] over a sequence of outcomes, oldest first. *)
Definition diag_record_all (d : adp910_diag_t) (outcomes : list adp910_status_t)
  : adp910_diag_t :=
  fold_left adp910_diag_record outcomes d.

(** How often an outcome occurs in a sequence. *)
Definition occurrences (s : adp910_status_t) (outcomes : list adp910_status_t) : Z :=
  Z.of_nat (List.length (filter (adp910_status_eqb s) outcomes)).

Definition diag_total (d : adp910_diag_t) : Z :=
  ok d + invalid_argument d + bus_error d + not_ready d + crc_mismatch d + other d.

(** What the state machine keeps of a channel: the streak stays below the
    re-initialisation threshold, and a channel that is not READY has none. *)
Definition channel_inv (ch : adp910_channel_t) : Prop :=
  0 <= read_error_streak ch < ADP910_READ_ERROR_STREAK_TO_REINIT
  /\ (ready ch = false -> read_error_streak ch = 0).

(** The state of [adp910_sampling_task_entry]: its two channels and the
    metrics service it feeds. *)
Record task_state : Type := mk_task_state {
  channel0 : adp910_channel_t;
  channel1 : adp910_channel_t;
  service : blower_metrics_service_context_t
}.

(** What one period of the loop receives: the tick read at its top, the
    driver's answers for each channel, and what [blower_metrics_service_update]
    receives from the environment. *)
Record period_inputs : Type := mk_period_inputs {
  now_tick : Z;
  init0 : init_result;
  init1 : init_result;
  read0 : read_result;
  read1 : read_result;
  create_ok : bool;
  take_ok : bool;
  calibration_tick : Z;
  stamp_tick : Z
}.

(** [sample_valid ? &sample : NULL] *)
Definition sample_pointer (ch : adp910_channel_t) : option adp910_sample_t :=
  if sample_valid ch then Some (sample ch) else None.

(** The body of the [while (1)] loop. The three [for] loops run reset, then
    init-attempt, then read over both channels; the periodic log line reads
    the snapshot and prints, and changes nothing. *)
Definition sampling_task_period (rate : Z) (s : task_state) (e : period_inputs)
  : result task_state :=
  let c0 := adp910_channel_reset_cycle (channel0 s) in
  let c1 := adp910_channel_reset_cycle (channel1 s) in
  let c0 := adp910_channel_try_init rate c0 (now_tick e) (init0 e) in
  let c1 := adp910_channel_try_init rate c1 (now_tick e) (init1 e) in
  let c0 := adp910_channel_read c0 (read0 e) in
  let c1 := adp910_channel_read c1 (read1 e) in
  match blower_metrics_service_update rate (service s) (create_ok e) (take_ok e)
          (calibration_tick e) (stamp_tick e)
          (sample_pointer c0) (sample_valid c0)
          (sample_pointer c1) (sample_valid c1) with
  | Returns (g, _) => Returns (mk_task_state c0 c1 g)
  | NullCall => NullCall
  end.

Fixpoint sampling_task_run (rate : Z) (s : task_state) (periods : list period_inputs)
  : result task_state :=
  match periods with
  | [] => Returns s
  | e :: rest =>
      match sampling_task_period rate s e with
      | Returns s => sampling_task_run rate s rest
      | NullCall => NullCall
      end
  end.

(** The task before its loop: the two channels with their ports, the service
    initialised with the two linear models and their gains, the diagnostics
    reset. The ports and the gains come from [app/app_config.h], which is not
    among the sources: they are parameters. [g] is the service context the
    task finds. *)
Definition sampling_task_start
    (port0 port1 : adp910_port_config_t) (fan_gain leakage_gain : float32)
    (g : blower_metrics_service_context_t) (create_ok : bool) : task_state :=
  let models :=
    {| fan_speed_model := Some blower_linear_fan_speed_model;
       fan_speed_model_context := Some (mk_fan_speed_config fan_gain);
       air_leakage_model := Some blower_linear_air_leakage_model;
       air_leakage_model_context := Some (mk_air_leakage_config leakage_gain) |} in
  let c0 := channel_initial "sensor0" port0 in
  let c1 := channel_initial "sensor1" port1 in
  let g := blower_metrics_service_initialize g (Some models) create_ok in
  mk_task_state (set_diag (adp910_diag_reset (diag c0)) c0)
                (set_diag (adp910_diag_reset (diag c1)) c1) g.

(** The readiness of a channel when the read of a period starts. *)
Definition ready_at_read (rate : Z) (ch : adp910_channel_t) (now : Z) (i : init_result)
  : bool :=
  ready (adp910_channel_try_init rate (adp910_channel_reset_cycle ch) now i).

(** Published calibration state and progress agree with the accumulator:
    Sampling exactly while it is active, with a progress below 100; Done with
    100; Idle with 0. *)
Definition calibration_consistent (g : blower_metrics_service_context_t) : Prop :=
  match calibration_state (snapshot g) with
  | BLOWER_CAL_IDLE =>
      active (cal g) = false /\ calibration_progress_pct (snapshot g) = 0
  | BLOWER_CAL_SAMPLING =>
      active (cal g) = true /\ 0 <= calibration_progress_pct (snapshot g) <= 99
  | BLOWER_CAL_DONE =>
      active (cal g) = false /\ calibration_progress_pct (snapshot g) = 100
  end.

(** The derived metrics of a snapshot are the installed models applied to
    its pressures. *)
Definition derived_consistent (g : blower_metrics_service_context_t) : Prop :=
  exists (f : fan_speed_model_fn) (a : air_leakage_model_fn),
    fan_speed_model (models g) = Some f
    /\ air_leakage_model (models g) = Some a
    /\ fan_speed_units (snapshot g)
       = f (fan_pressure_pa (snapshot g)) (fan_speed_model_context (models g))
    /\ estimated_air_leakage_units (snapshot g)
       = a (fan_speed_units (snapshot g)) (envelope_pressure_pa (snapshot g))
           (air_leakage_model_context (models g)).

(** Calls that are not the ingestion entry point and do not restart the
    service or the window. *)
Definition is_reader_call (c : service_call) : bool :=
  match c with
  | CallGetSnapshot _ _ => true
  | CallCaptureZeroOffsets _ _ => true
  | _ => false
  end.

(** binary32 values that are numbers: not NaN, not infinite. *)
Definition is_finite (x : float32) : bool :=
  match x with
  | S754_zero _ => true
  | S754_finite _ _ _ => true
  | _ => false
  end.

Definition is_nan (x : float32) : bool :=
  match x with
  | S754_nan => true
  | _ => false
  end.

Definition is_zero (x : float32) : bool :=
  match x with
  | S754_zero _ => true
  | _ => false
  end.

Definition diag_in_range (d : adp910_diag_t) : Prop :=
  is_uint32 (ok d) /\ is_uint32 (invalid_argument d) /\ is_uint32 (bus_error d)
  /\ is_uint32 (not_ready d) /\ is_uint32 (crc_mismatch d) /\ is_uint32 (other d).

(** Bus error and not ready: the outcomes that count toward the streak. *)
Definition counted_failure (s : adp910_status_t) : bool :=
  adp910_status_eqb s ADP910_STATUS_BUS_ERROR || adp910_status_eqb s ADP910_STATUS_NOT_READY.

(** The calibration offsets as the snapshot publishes them. *)
Definition published_offsets (g : blower_metrics_service_context_t) : float32 * float32 :=
  (calibration_fan_offset (snapshot g), calibration_envelope_offset (snapshot g)).

(** An [update] that takes the lock and closes the calibration window. *)
Definition closes_window (rate : Z) (g : blower_metrics_service_context_t)
    (c : service_call) : bool :=
  match c with
  | CallUpdate _ take_ok now_tick _ _ _ _ _ => take_ok && finalizes rate g now_tick
  | _ => false
  end.

(** A configured gain that is a number, when there is a configuration. *)
Definition fan_gain_finite (c : option blower_linear_fan_speed_model_config_t) : Prop :=
  match c with
  | Some config => is_finite (pascal_to_speed_gain config) = true
  | None => True
  end.

Definition leakage_gain_finite (c : option blower_linear_air_leakage_model_config_t) : Prop :=
  match c with
  | Some config => is_finite (leakage_gain config) = true
  | None => True
  end.

End SamplingTask.

(** ** More concrete inputs *)

Module MoreExamples.
Import Adp910Task BlowerMetrics SamplingTask Examples.

Definition recorded_outcomes : list adp910_status_t :=
  [ADP910_STATUS_OK; ADP910_STATUS_OK; ADP910_STATUS_BUS_ERROR; ADP910_STATUS_CRC_MISMATCH;
   ADP910_STATUS_OK; ADP910_STATUS_NOT_READY; ADP910_STATUS_OTHER].

Definition envelope_port : adp910_port_config_t :=
  {| i2c_instance := 1; i2c_address := 37; sda_pin := 6; scl_pin := 7;
     i2c_frequency_hz := 100000 |}.

Definition fan_channel_start : adp910_channel_t := channel_initial "sensor0" fan_port.

Definition init_bus_error : init_result :=
  {| init_status := ADP910_STATUS_BUS_ERROR; init_sensor := 0 |}.

(** A bus error followed by a not-ready outcome. *)
Definition two_counted_failures : list read_result :=
  [answer ADP910_STATUS_BUS_ERROR; answer ADP910_STATUS_NOT_READY].

(** A read that succeeds with 5 Pa at 20 degrees. *)
Definition read_five : read_result :=
  {| read_status := ADP910_STATUS_OK; read_sensor := 1; read_sample := sample_of 5 20 |}.

(** The task at its start, on the static storage, with gains 2 and 3. *)
Definition task_at_start : task_state :=
  sampling_task_start fan_port envelope_port (of_uint32 2) (of_uint32 3)
                      g_service_context true.

(** A period at tick 10 in which the fan sensor initialises and delivers
    5 Pa while the envelope sensor fails to initialise. *)
Definition first_period : period_inputs :=
  {| now_tick := 10; init0 := init_ok; init1 := init_bus_error;
     read0 := read_five; read1 := answer ADP910_STATUS_BUS_ERROR;
     create_ok := true; take_ok := true; calibration_tick := 10; stamp_tick := 10 |}.

(** A service in which only the envelope role is capturable: the last
    [update] brought a valid envelope sample and no fan sample. *)
Definition envelope_only_service : blower_metrics_service_context_t :=
  state_of (service_run tick_rate g_service_context
              [CallInitialize None true; update_at 10 None (Some 7)]).

Definition reader_calls : list service_call :=
  [CallGetSnapshot true true; CallCaptureZeroOffsets true 50000; CallGetSnapshot true false].

End MoreExamples.

(** * Properties *)

(** ** Machine integers *)

Lemma wrap32_range (z : Z) : is_uint32 (wrap32 z).
Proof. unfold is_uint32, wrap32. apply Z.mod_pos_bound. lia. Qed.

Lemma wrap32_small (z : Z) : is_uint32 z -> wrap32 z = z.
Proof. unfold is_uint32, wrap32. intros H. apply Z.mod_small. exact H. Qed.

Lemma adp910_status_eqb_eq (a b : adp910_status_t) :
  adp910_status_eqb a b = true <-> a = b.
Proof. destruct a, b; simpl; split; congruence. Qed.

(** ** The channel state machine *)

Section ChannelFacts.
Import Adp910Task.

Variable rate : Z.

Lemma reset_cycle_frame (ch : adp910_channel_t) :
  ready (adp910_channel_reset_cycle ch) = ready ch
  /\ read_error_streak (adp910_channel_reset_cycle ch) = read_error_streak ch
  /\ next_init_tick (adp910_channel_reset_cycle ch) = next_init_tick ch
  /\ diag (adp910_channel_reset_cycle ch) = diag ch.
Proof. repeat split. Qed.

Lemma try_init_ready_noop (ch : adp910_channel_t) (now : Z) (i : init_result) :
  ready ch = true -> adp910_channel_try_init rate ch now i = ch.
Proof. intros H. unfold adp910_channel_try_init. rewrite H. reflexivity. Qed.

Lemma read_not_ready_noop (ch : adp910_channel_t) (r : read_result) :
  ready ch = false -> adp910_channel_read ch r = ch.
Proof. intros H. unfold adp910_channel_read. rewrite H. reflexivity. Qed.

(** A counted failure below the threshold: the streak grows by one, nothing
    else of the state machine moves. *)
Lemma read_counted_below (ch : adp910_channel_t) (r : read_result) :
  ready ch = true ->
  read_status r = ADP910_STATUS_BUS_ERROR \/ read_status r = ADP910_STATUS_NOT_READY ->
  0 <= read_error_streak ch < 2 ->
  let ch' := adp910_channel_read ch r in
  ready ch' = true /\ read_error_streak ch' = read_error_streak ch + 1
  /\ next_init_tick ch' = next_init_tick ch.
Proof.
  intros Hr Hs Hn. destruct ch as [i p s d rd nt sm sv ls st]. simpl in *. subst rd.
  destruct r as [rs rsn rsm]. simpl in Hs.
  unfold adp910_channel_read. simpl.
  assert (E255 : (st <? 255) = true) by (apply Z.ltb_lt; lia).
  assert (Ew : wrap8 (st + 1) = st + 1) by (unfold wrap8; apply Z.mod_small; lia).
  destruct Hs; subst rs; simpl; rewrite E255; simpl; rewrite Ew;
    unfold ADP910_READ_ERROR_STREAK_TO_REINIT;
    (replace (3 <=? st + 1) with false by (symmetry; apply Z.leb_gt; lia));
    simpl; auto.
Qed.

(** A counted failure that reaches the threshold: the channel leaves READY,
    the streak restarts, the deadline is not written. *)
Lemma read_counted_reaching (ch : adp910_channel_t) (r : read_result) :
  ready ch = true ->
  read_status r = ADP910_STATUS_BUS_ERROR \/ read_status r = ADP910_STATUS_NOT_READY ->
  read_error_streak ch = 2 ->
  let ch' := adp910_channel_read ch r in
  ready ch' = false /\ read_error_streak ch' = 0
  /\ next_init_tick ch' = next_init_tick ch
  /\ diag ch' = adp910_diag_record (diag ch) (read_status r).
Proof.
  intros Hr Hs Hn. destruct ch as [i p s d rd nt sm sv ls st]. simpl in *. subst rd st.
  destruct r as [rs rsn rsm]. simpl in *.
  unfold adp910_channel_read. simpl.
  destruct Hs; subst rs; simpl; auto.
Qed.

Lemma read_uncounted (ch : adp910_channel_t) (r : read_result) :
  ready ch = true -> uncounted_failure (read_status r) = true ->
  let ch' := adp910_channel_read ch r in
  ready ch' = true /\ read_error_streak ch' = read_error_streak ch
  /\ sample_valid ch' = false
  /\ diag ch' = adp910_diag_record (diag ch) (read_status r).
Proof.
  intros Hr Hs. destruct ch as [i p s d rd nt sm sv ls st]. simpl in *. subst rd.
  destruct r as [rs rsn rsm]. simpl in *.
  unfold adp910_channel_read. simpl.
  destruct rs; simpl in *; try discriminate; auto.
Qed.

Lemma cycle_counted_below (ch : adp910_channel_t) (t : Z) (i : init_result) (r : read_result) :
  ready ch = true ->
  read_status r = ADP910_STATUS_BUS_ERROR \/ read_status r = ADP910_STATUS_NOT_READY ->
  0 <= read_error_streak ch < 2 ->
  let ch' := adp910_channel_cycle rate ch t i r in
  ready ch' = true /\ read_error_streak ch' = read_error_streak ch + 1
  /\ next_init_tick ch' = next_init_tick ch.
Proof.
  intros Hr Hs Hn. unfold adp910_channel_cycle.
  rewrite try_init_ready_noop by exact Hr.
  exact (read_counted_below (adp910_channel_reset_cycle ch) r Hr Hs Hn).
Qed.

Lemma cycle_counted_reaching (ch : adp910_channel_t) (t : Z) (i : init_result) (r : read_result) :
  ready ch = true ->
  read_status r = ADP910_STATUS_BUS_ERROR \/ read_status r = ADP910_STATUS_NOT_READY ->
  read_error_streak ch = 2 ->
  let ch' := adp910_channel_cycle rate ch t i r in
  ready ch' = false /\ read_error_streak ch' = 0
  /\ next_init_tick ch' = next_init_tick ch.
Proof.
  intros Hr Hs Hn. unfold adp910_channel_cycle.
  rewrite try_init_ready_noop by exact Hr.
  destruct (read_counted_reaching (adp910_channel_reset_cycle ch) r Hr Hs Hn) as (A & B & C & _).
  auto.
Qed.

(** A NOT_READY channel whose deadline has been reached attempts the
    initialisation: the driver's answer decides readiness and is recorded. *)
Lemma try_init_attempts (ch : adp910_channel_t) (now : Z) (i : init_result) :
  ready ch = false -> next_init_tick ch <= now ->
  let ch' := adp910_channel_try_init rate ch now i in
  ready ch' = adp910_status_eqb (init_status i) ADP910_STATUS_OK
  /\ diag ch' = adp910_diag_record (diag ch) (init_status i)
  /\ read_error_streak ch' = 0.
Proof.
  intros Hr Ht. unfold adp910_channel_try_init. rewrite Hr.
  replace (now <? next_init_tick ch) with false by (symmetry; apply Z.ltb_ge; exact Ht).
  destruct ch as [a p s d rd nt sm sv ls st]. simpl.
  destruct (adp910_status_eqb (init_status i) ADP910_STATUS_OK); simpl; auto.
Qed.

End ChannelFacts.

Section ChannelClaims.
Import Adp910Task.

Variable rate : Z.

(** C2, as amended. A READY channel whose error streak is 0 (as after a
    successful read or a successful initialisation) and whose next three
    cycles each read a bus error stays READY after the first and the second
    failure and becomes NOT_READY on the third; the streak is then 0 and the
    retry deadline is the one the channel had before, so that a following
    cycle at any tick that has reached this deadline attempts the
    initialisation again: its outcome decides readiness and is recorded in
    the diagnostics. *)
Theorem three_bus_errors_force_reinit
    (ch : adp910_channel_t) (t1 t2 t3 : Z) (i1 i2 i3 : init_result) (r1 r2 r3 : read_result) :
  ready ch = true ->
  read_error_streak ch = 0 ->
  read_status r1 = ADP910_STATUS_BUS_ERROR ->
  read_status r2 = ADP910_STATUS_BUS_ERROR ->
  read_status r3 = ADP910_STATUS_BUS_ERROR ->
  let c1 := adp910_channel_cycle rate ch t1 i1 r1 in
  let c2 := adp910_channel_cycle rate c1 t2 i2 r2 in
  let c3 := adp910_channel_cycle rate c2 t3 i3 r3 in
  (ready c1 = true /\ read_error_streak c1 = 1)
  /\ (ready c2 = true /\ read_error_streak c2 = 2)
  /\ (ready c3 = false /\ read_error_streak c3 = 0)
  /\ next_init_tick c3 = next_init_tick ch
  /\ forall (t4 : Z) (i4 : init_result),
       next_init_tick ch <= t4 ->
       let c4 := adp910_channel_try_init rate (adp910_channel_reset_cycle c3) t4 i4 in
       ready c4 = adp910_status_eqb (init_status i4) ADP910_STATUS_OK
       /\ diag c4 = adp910_diag_record (diag c3) (init_status i4).
Proof.
  intros Hr Hs H1 H2 H3 c1 c2 c3.
  destruct (cycle_counted_below rate ch t1 i1 r1 Hr (or_introl H1)) as (R1 & N1 & D1);
    [lia|].
  fold c1 in R1, N1, D1. rewrite Hs in N1.
  destruct (cycle_counted_below rate c1 t2 i2 r2 R1 (or_introl H2)) as (R2 & N2 & D2);
    [lia|].
  fold c2 in R2, N2, D2. rewrite N1 in N2.
  destruct (cycle_counted_reaching rate c2 t3 i3 r3 R2 (or_introl H3) N2) as (R3 & N3 & D3).
  fold c3 in R3, N3, D3.
  assert (D : next_init_tick c3 = next_init_tick ch) by congruence.
  split; [auto|]. split; [auto|]. split; [auto|]. split; [exact D|].
  intros t4 i4 Ht c4. subst c4.
  destruct (reset_cycle_frame c3) as (F1 & _ & F3 & F4).
  destruct (try_init_attempts rate (adp910_channel_reset_cycle c3) t4 i4) as (A & B & _).
  - rewrite F1. exact R3.
  - rewrite F3, D. exact Ht.
  - rewrite F4 in B. split; [exact A | exact B].
Qed.

(** C3. On a READY channel, any number of consecutive reads whose outcome is
    a CRC mismatch, an invalid argument or unclassified leaves the channel
    READY with the streak it had; and a read can only raise the streak or
    take the channel out of READY when its outcome is a bus error or not
    ready. *)
Theorem uncounted_failures_keep_ready
    (ch : adp910_channel_t) (answers : list read_result) :
  ready ch = true ->
  is_uint8 (read_error_streak ch) ->
  Forall (fun r => uncounted_failure (read_status r) = true) answers ->
  (ready (read_run ch answers) = true
   /\ read_error_streak (read_run ch answers) = read_error_streak ch)
  /\ forall r : read_result,
       read_error_streak ch < read_error_streak (adp910_channel_read ch r)
       \/ ready (adp910_channel_read ch r) = false ->
       read_status r = ADP910_STATUS_BUS_ERROR \/ read_status r = ADP910_STATUS_NOT_READY.
Proof.
  intros Hr Hu Hall. split.
  - revert ch Hr Hu. induction Hall as [|r rest Hx _ IH]; intros ch Hr Hu.
    + simpl. auto.
    + simpl. destruct (read_uncounted ch r Hr Hx) as (A & B & _).
      simpl in A, B.
      destruct (IH (adp910_channel_read ch r) A) as (C & D).
      { rewrite B. exact Hu. }
      rewrite C, D, B. auto.
  - intros r H. destruct (read_status r) eqn:E; auto; exfalso.
    + (* success resets the streak and keeps the channel READY *)
      destruct ch as [i p s d rd nt sm sv ls st]. destruct r as [rs rsn rsm].
      unfold is_uint8 in Hu.
      simpl in *. subst rd rs. unfold adp910_channel_read in H. simpl in H.
      destruct H; [lia | discriminate].
    + assert (U : uncounted_failure (read_status r) = true) by (rewrite E; reflexivity).
      destruct (read_uncounted ch r Hr U) as (A & B & _). simpl in A, B.
      destruct H; [lia | congruence].
    + assert (U : uncounted_failure (read_status r) = true) by (rewrite E; reflexivity).
      destruct (read_uncounted ch r Hr U) as (A & B & _). simpl in A, B.
      destruct H; [lia | congruence].
    + assert (U : uncounted_failure (read_status r) = true) by (rewrite E; reflexivity).
      destruct (read_uncounted ch r Hr U) as (A & B & _). simpl in A, B.
      destruct H; [lia | congruence].
Qed.

End ChannelClaims.

(** ** The metrics service: one equation per stage *)

Import BlowerMetrics.

Ltac open_context g :=
  let md := fresh "md" in
  let sn := fresh "sn" in
  let cl := fresh "cl" in
  destruct g as [? md sn ? ? ? ? ? ? ? cl]; destruct md; destruct sn; destruct cl.

(** Projections of constructors and of field assignments. *)
Ltac fields :=
  cbn [mutex models snapshot fan_pressure_offset_pa envelope_pressure_offset_pa
       last_fan_pressure_raw_pa last_envelope_pressure_raw_pa has_last_fan_pressure_raw
       has_last_envelope_pressure_raw is_initialized cal
       fan_pressure_pa fan_temperature_c fan_sample_valid envelope_pressure_pa
       envelope_temperature_c envelope_sample_valid fan_speed_units
       estimated_air_leakage_units calibration_state calibration_progress_pct
       calibration_fan_offset calibration_envelope_offset update_sequence last_update_tick
       active start_tick fan_sum envelope_sum fan_count envelope_count
       fan_speed_model fan_speed_model_context air_leakage_model air_leakage_model_context
       set_fan_pressure_pa set_fan_temperature_c set_fan_sample_valid set_envelope_pressure_pa
       set_envelope_temperature_c set_envelope_sample_valid set_fan_speed_units
       set_estimated_air_leakage_units set_calibration_state set_calibration_progress_pct
       set_calibration_fan_offset set_calibration_envelope_offset set_update_sequence
       set_last_update_tick
       set_active set_start_tick set_fan_sum set_envelope_sum set_fan_count set_envelope_count
       set_mutex set_models set_snapshot set_fan_pressure_offset_pa
       set_envelope_pressure_offset_pa set_last_fan_pressure_raw_pa
       set_last_envelope_pressure_raw_pa set_has_last_fan_pressure_raw
       set_has_last_envelope_pressure_raw set_is_initialized set_cal
       with_snapshot with_cal fst snd].

Section ServiceFacts.

Variable rate : Z.




Lemma update_fan_role_eq (fs : option adp910_sample_t) (fv : bool)
    (g : blower_metrics_service_context_t) :
  update_fan_role fs fv g =
  match sample_given fv fs with
  | Some s =>
      mk_context (mutex g) (models g)
        (set_fan_sample_valid true
           (set_fan_temperature_c (temperature_c s)
              (set_fan_pressure_pa
                 (sub (corrected_pressure_pa s) (fan_pressure_offset_pa g)) (snapshot g))))
        (fan_pressure_offset_pa g) (envelope_pressure_offset_pa g)
        (corrected_pressure_pa s) (last_envelope_pressure_raw_pa g)
        true (has_last_envelope_pressure_raw g) (is_initialized g) (cal g)
  | None =>
      mk_context (mutex g) (models g) (set_fan_sample_valid false (snapshot g))
        (fan_pressure_offset_pa g) (envelope_pressure_offset_pa g)
        (last_fan_pressure_raw_pa g) (last_envelope_pressure_raw_pa g)
        (has_last_fan_pressure_raw g) (has_last_envelope_pressure_raw g)
        (is_initialized g) (cal g)
  end.
Proof.
  unfold update_fan_role. destruct (sample_given fv fs); destruct g; reflexivity.
Qed.

Lemma update_envelope_role_eq (es : option adp910_sample_t) (ev : bool)
    (g : blower_metrics_service_context_t) :
  update_envelope_role es ev g =
  match sample_given ev es with
  | Some s =>
      mk_context (mutex g) (models g)
        (set_envelope_sample_valid true
           (set_envelope_temperature_c (temperature_c s)
              (set_envelope_pressure_pa
                 (sub (corrected_pressure_pa s) (envelope_pressure_offset_pa g))
                 (snapshot g))))
        (fan_pressure_offset_pa g) (envelope_pressure_offset_pa g)
        (last_fan_pressure_raw_pa g) (corrected_pressure_pa s)
        (has_last_fan_pressure_raw g) true (is_initialized g) (cal g)
  | None =>
      mk_context (mutex g) (models g) (set_envelope_sample_valid false (snapshot g))
        (fan_pressure_offset_pa g) (envelope_pressure_offset_pa g)
        (last_fan_pressure_raw_pa g) (last_envelope_pressure_raw_pa g)
        (has_last_fan_pressure_raw g) (has_last_envelope_pressure_raw g)
        (is_initialized g) (cal g)
  end.
Proof.
  unfold update_envelope_role. destruct (sample_given ev es); destruct g; reflexivity.
Qed.

Lemma update_calibration_inactive (now : Z) (fs : option adp910_sample_t) (fv : bool)
    (es : option adp910_sample_t) (ev : bool) (g : blower_metrics_service_context_t) :
  active (cal g) = false -> update_calibration rate now fs fv es ev g = g.
Proof. intros H. unfold update_calibration. rewrite H. reflexivity. Qed.

(** The accumulator after a call's samples are added. *)
Lemma update_calibration_window (now : Z) (fs : option adp910_sample_t) (fv : bool)
    (es : option adp910_sample_t) (ev : bool) (g : blower_metrics_service_context_t) :
  active (cal g) = true ->
  calibration_elapsed_ms rate (start_tick (cal g)) now < CALIBRATION_DURATION_MS ->
  update_calibration rate now fs fv es ev g =
  mk_context (mutex g) (models g)
    (set_calibration_progress_pct
       (wrap8 (let pct := wrap32 (calibration_elapsed_ms rate (start_tick (cal g)) now * 100)
                          / CALIBRATION_DURATION_MS in
               if 99 <? pct then 99 else pct))
       (set_calibration_state BLOWER_CAL_SAMPLING (snapshot g)))
    (fan_pressure_offset_pa g) (envelope_pressure_offset_pa g)
    (last_fan_pressure_raw_pa g) (last_envelope_pressure_raw_pa g)
    (has_last_fan_pressure_raw g) (has_last_envelope_pressure_raw g)
    (is_initialized g)
    (mk_cal true (start_tick (cal g))
       (match sample_given fv fs with
        | Some s => add (fan_sum (cal g)) (corrected_pressure_pa s)
        | None => fan_sum (cal g)
        end)
       (match sample_given ev es with
        | Some s => add (envelope_sum (cal g)) (corrected_pressure_pa s)
        | None => envelope_sum (cal g)
        end)
       (count_after fv fs (fan_count (cal g)))
       (count_after ev es (envelope_count (cal g)))).
Proof.
  intros Ha He. apply Z.ltb_lt in He.
  unfold update_calibration, count_after. rewrite Ha.
  destruct (sample_given fv fs), (sample_given ev es); open_context g;
    cbn [cal start_tick active with_cal set_cal] in *; subst;
    cbn [cal start_tick with_cal set_cal set_fan_sum set_fan_count set_envelope_sum
         set_envelope_count fan_sum fan_count envelope_sum envelope_count active];
    rewrite He; reflexivity.
Qed.

Lemma update_calibration_finalize (now : Z) (fs : option adp910_sample_t) (fv : bool)
    (es : option adp910_sample_t) (ev : bool) (g : blower_metrics_service_context_t) :
  active (cal g) = true ->
  CALIBRATION_DURATION_MS <= calibration_elapsed_ms rate (start_tick (cal g)) now ->
  let fsum := match sample_given fv fs with
              | Some s => add (fan_sum (cal g)) (corrected_pressure_pa s)
              | None => fan_sum (cal g)
              end in
  let esum := match sample_given ev es with
              | Some s => add (envelope_sum (cal g)) (corrected_pressure_pa s)
              | None => envelope_sum (cal g)
              end in
  let fcount := count_after fv fs (fan_count (cal g)) in
  let ecount := count_after ev es (envelope_count (cal g)) in
  let foff := if CALIBRATION_MIN_SAMPLES <=? fcount
              then div fsum (of_uint32 fcount) else fan_pressure_offset_pa g in
  let eoff := if CALIBRATION_MIN_SAMPLES <=? ecount
              then div esum (of_uint32 ecount) else envelope_pressure_offset_pa g in
  update_calibration rate now fs fv es ev g =
  mk_context (mutex g) (models g)
    (set_calibration_progress_pct 100
       (set_calibration_state BLOWER_CAL_DONE
          (set_calibration_envelope_offset eoff
             (set_calibration_fan_offset foff
                (set_envelope_pressure_pa
                   (if CALIBRATION_MIN_SAMPLES <=? ecount
                    then sub (last_envelope_pressure_raw_pa g) eoff
                    else envelope_pressure_pa (snapshot g))
                   (set_fan_pressure_pa
                      (if CALIBRATION_MIN_SAMPLES <=? fcount
                       then sub (last_fan_pressure_raw_pa g) foff
                       else fan_pressure_pa (snapshot g))
                      (snapshot g)))))))
    foff eoff
    (last_fan_pressure_raw_pa g) (last_envelope_pressure_raw_pa g)
    (has_last_fan_pressure_raw g) (has_last_envelope_pressure_raw g)
    (is_initialized g)
    (mk_cal false (start_tick (cal g)) fsum esum fcount ecount).
Proof.
  intros Ha He fsum esum fcount ecount foff eoff. apply Z.ltb_ge in He.
  subst foff eoff.
  destruct (CALIBRATION_MIN_SAMPLES <=? fcount) eqn:Cf;
    destruct (CALIBRATION_MIN_SAMPLES <=? ecount) eqn:Ce;
    subst fsum esum fcount ecount; unfold count_after in *;
    unfold update_calibration; rewrite Ha;
    destruct (sample_given fv fs), (sample_given ev es); open_context g;
    cbn [cal start_tick active fan_count envelope_count] in *; subst;
    cbn [cal start_tick with_cal set_cal set_fan_sum set_fan_count set_envelope_sum
         set_envelope_count fan_sum fan_count envelope_sum envelope_count active];
    rewrite He; fields; rewrite Cf; fields; rewrite Ce; reflexivity.
Qed.

Lemma publish_derived_eq (stamp : Z) (g : blower_metrics_service_context_t)
    (f : fan_speed_model_fn) (a : air_leakage_model_fn) :
  fan_speed_model (models g) = Some f ->
  air_leakage_model (models g) = Some a ->
  let speed := f (fan_pressure_pa (snapshot g)) (fan_speed_model_context (models g)) in
  publish_derived stamp g =
  Returns
    (mk_context (mutex g) (models g)
       (set_last_update_tick (wrap32 stamp)
          (set_update_sequence (wrap32 (update_sequence (snapshot g) + 1))
             (set_estimated_air_leakage_units
                (a speed (envelope_pressure_pa (snapshot g))
                   (air_leakage_model_context (models g)))
                (set_fan_speed_units speed (snapshot g)))))
       (fan_pressure_offset_pa g) (envelope_pressure_offset_pa g)
       (last_fan_pressure_raw_pa g) (last_envelope_pressure_raw_pa g)
       (has_last_fan_pressure_raw g) (has_last_envelope_pressure_raw g)
       (is_initialized g) (cal g)).
Proof.
  intros Hf Ha. open_context g. cbn [models fan_speed_model air_leakage_model] in Hf, Ha.
  subst. reflexivity.
Qed.

Lemma models_supplied_inv (m : blower_metrics_models_t) :
  models_supplied (Some m) = true ->
  exists f a, fan_speed_model m = Some f /\ air_leakage_model m = Some a.
Proof.
  unfold models_supplied.
  destruct (fan_speed_model m) as [f|]; [|discriminate].
  destruct (air_leakage_model m) as [a|]; [|discriminate].
  intros _. exists f, a. auto.
Qed.

(** [update] on an initialised service: the lock decides whether the body
    runs. *)
Lemma update_ready_eq (g : blower_metrics_service_context_t) (co tk : bool) (now st : Z)
    (fs : option adp910_sample_t) (fv : bool) (es : option adp910_sample_t) (ev : bool) :
  is_initialized g = true -> mutex g = true ->
  blower_metrics_service_update rate g co tk now st fs fv es ev =
  if tk then
    match publish_derived st
            (update_calibration rate now fs fv es ev
               (update_envelope_role es ev (update_fan_role fs fv g))) with
    | Returns g' => Returns (g', true)
    | NullCall => NullCall
    end
  else Returns (g, false).
Proof.
  intros Hi Hm. unfold blower_metrics_service_update. rewrite Hi.
  cbn [negb]. cbv zeta. rewrite Hi, Hm. destruct tk; reflexivity.
Qed.

Lemma initialize_eq (g : blower_metrics_service_context_t)
    (m : option blower_metrics_models_t) (co : bool) :
  blower_metrics_service_initialize g m co =
  if mutex g || co then
    mk_context true (models_to_install m) blower_metrics_snapshot_zero
               zero zero zero zero false false true calibration_accumulator_zero
  else g.
Proof.
  unfold blower_metrics_service_initialize, models_to_install.
  destruct g as [mx md sn fo eo lf le hf he ini cl].
  destruct mx, co; cbn [mutex negb set_mutex orb]; try reflexivity;
    destruct m as [supplied|]; try reflexivity;
    destruct (models_supplied (Some supplied)); reflexivity.
Qed.

Lemma capture_eq (g : blower_metrics_service_context_t) (tk : bool) (st : Z)
    (f : fan_speed_model_fn) (a : air_leakage_model_fn) :
  is_initialized g = true -> mutex g = true ->
  fan_speed_model (models g) = Some f ->
  air_leakage_model (models g) = Some a ->
  let fan_p := if fan_capturable g then zero else fan_pressure_pa (snapshot g) in
  let env_p := if envelope_capturable g then zero else envelope_pressure_pa (snapshot g) in
  let speed := f fan_p (fan_speed_model_context (models g)) in
  blower_metrics_service_capture_zero_offsets g tk st =
  if tk && (fan_capturable g || envelope_capturable g) then
    Returns
      (mk_context (mutex g) (models g)
         (set_last_update_tick (wrap32 st)
            (set_update_sequence (wrap32 (update_sequence (snapshot g) + 1))
               (set_estimated_air_leakage_units
                  (a speed env_p (air_leakage_model_context (models g)))
                  (set_fan_speed_units speed
                     (set_envelope_pressure_pa env_p
                        (set_fan_pressure_pa fan_p (snapshot g)))))))
         (if fan_capturable g then last_fan_pressure_raw_pa g else fan_pressure_offset_pa g)
         (if envelope_capturable g
          then last_envelope_pressure_raw_pa g else envelope_pressure_offset_pa g)
         (last_fan_pressure_raw_pa g) (last_envelope_pressure_raw_pa g)
         (has_last_fan_pressure_raw g) (has_last_envelope_pressure_raw g)
         (is_initialized g) (cal g), true)
  else Returns (g, false).
Proof.
  intros Hi Hm Hf Ha. open_context g.
  cbn [is_initialized mutex models fan_speed_model air_leakage_model] in Hi, Hm, Hf, Ha.
  subst. unfold fan_capturable, envelope_capturable.
  cbn [snapshot fan_sample_valid envelope_sample_valid has_last_fan_pressure_raw
       has_last_envelope_pressure_raw].
  unfold blower_metrics_service_capture_zero_offsets.
  cbn [mutex is_initialized negb orb snapshot fan_sample_valid envelope_sample_valid
       has_last_fan_pressure_raw has_last_envelope_pressure_raw].
  destruct tk; [|reflexivity].
  destruct fan_sample_valid0, has_last_fan_pressure_raw0,
           envelope_sample_valid0, has_last_envelope_pressure_raw0; reflexivity.
Qed.

Lemma begin_calibration_eq (g : blower_metrics_service_context_t) (tk : bool) (now : Z) :
  blower_metrics_service_begin_calibration g tk now =
  if mutex g && is_initialized g && tk then
    mk_context (mutex g) (models g)
      (set_calibration_progress_pct 0
         (set_calibration_state BLOWER_CAL_SAMPLING (snapshot g)))
      zero zero
      (last_fan_pressure_raw_pa g) (last_envelope_pressure_raw_pa g)
      (has_last_fan_pressure_raw g) (has_last_envelope_pressure_raw g)
      (is_initialized g) (mk_cal true now zero zero 0 0)
  else g.
Proof.
  unfold blower_metrics_service_begin_calibration.
  destruct g as [mx md sn fo eo lf le hf he ini cl].
  destruct mx, ini, tk; reflexivity.
Qed.

End ServiceFacts.

(** ** The metrics service: what each call does to a well-formed context *)

Section ServiceSteps.

Variable rate : Z.

Lemma roles_cal (fs : option adp910_sample_t) (fv : bool) (es : option adp910_sample_t)
    (ev : bool) (g : blower_metrics_service_context_t) :
  cal (update_envelope_role es ev (update_fan_role fs fv g)) = cal g.
Proof.
  rewrite update_envelope_role_eq, update_fan_role_eq.
  destruct (sample_given ev es), (sample_given fv fs); reflexivity.
Qed.

Lemma calibration_cases (g : blower_metrics_service_context_t) (now : Z) :
  calibration_case rate g now.
Proof.
  destruct (active (cal g)) eqn:Ha.
  - destruct (Z.lt_ge_cases (calibration_elapsed_ms rate (start_tick (cal g)) now)
                            CALIBRATION_DURATION_MS).
    + apply case_window; assumption.
    + apply case_finalize; assumption.
  - apply case_inactive; assumption.
Qed.

(** Rewrites the three stages of the body of [update] on [g] by their
    equations, one goal per way through the calibration block. *)
Ltac body_cases g now fs fv es ev :=
  destruct (calibration_cases g now) as [Hact | Hact Hel | Hact Hel];
  [ rewrite (update_calibration_inactive rate now fs fv es ev)
      by (rewrite roles_cal; exact Hact)
  | rewrite (update_calibration_window rate now fs fv es ev)
      by (rewrite roles_cal; assumption)
  | rewrite (update_calibration_finalize rate now fs fv es ev)
      by (rewrite roles_cal; assumption) ];
  rewrite ?roles_cal;
  rewrite update_envelope_role_eq, update_fan_role_eq.

(** What no stage of the body of [update] writes. *)
Lemma update_body_frame (now : Z) (fs : option adp910_sample_t) (fv : bool)
    (es : option adp910_sample_t) (ev : bool) (g : blower_metrics_service_context_t) :
  let g' := update_calibration rate now fs fv es ev
              (update_envelope_role es ev (update_fan_role fs fv g)) in
  mutex g' = mutex g /\ models g' = models g /\ is_initialized g' = is_initialized g
  /\ update_sequence (snapshot g') = update_sequence (snapshot g)
  /\ start_tick (cal g') = start_tick (cal g).
Proof.
  intros g'. subst g'.
  body_cases g now fs fv es ev;
    destruct (sample_given ev es), (sample_given fv fs); fields; auto.
Qed.

Lemma update_ready_runs (g : blower_metrics_service_context_t) (co tk : bool) (now st : Z)
    (fs : option adp910_sample_t) (fv : bool) (es : option adp910_sample_t) (ev : bool) :
  service_ready g ->
  exists g',
    blower_metrics_service_update rate g co tk now st fs fv es ev = Returns (g', tk)
    /\ service_ready g'
    /\ update_sequence (snapshot g') =
       (if tk then wrap32 (update_sequence (snapshot g) + 1) else update_sequence (snapshot g)).
Proof.
  intros (Hi & Hm & Hs).
  destruct (models_supplied_inv _ Hs) as (f & a & Hf & Ha).
  rewrite update_ready_eq by assumption.
  destruct tk; [| exists g; repeat split; assumption].
  destruct (update_body_frame now fs fv es ev g) as (Fm & Fd & Fi & Fs & _).
  rewrite (publish_derived_eq st _ f a) by (rewrite Fd; assumption).
  eexists. split; [reflexivity|]. unfold service_ready. fields.
  rewrite Fm, Fd, Fi, Fs. auto.
Qed.

Lemma models_to_install_complete (m : option blower_metrics_models_t) :
  models_supplied (Some (models_to_install m)) = true.
Proof.
  unfold models_to_install. destruct m as [s|]; [|reflexivity].
  destruct (models_supplied (Some s)) eqn:E; [exact E | reflexivity].
Qed.

(** Once the lock exists or can be created, initialisation leaves a ready
    service with a zeroed snapshot. *)
Lemma initialize_ready (g : blower_metrics_service_context_t)
    (m : option blower_metrics_models_t) (co : bool) :
  mutex g || co = true ->
  service_ready (blower_metrics_service_initialize g m co)
  /\ snapshot (blower_metrics_service_initialize g m co) = blower_metrics_snapshot_zero.
Proof.
  intros H. rewrite initialize_eq, H. unfold service_ready. fields.
  repeat split. apply models_to_install_complete.
Qed.

(** The lazy initialisation of [update]. *)
Lemma update_lazy_eq (g : blower_metrics_service_context_t) (co tk : bool) (now st : Z)
    (fs : option adp910_sample_t) (fv : bool) (es : option adp910_sample_t) (ev : bool) :
  is_initialized g = false ->
  blower_metrics_service_update rate g co tk now st fs fv es ev =
  if mutex g || co then
    blower_metrics_service_update rate (blower_metrics_service_initialize g None co)
                                  co tk now st fs fv es ev
  else Returns (g, false).
Proof.
  intros Hi. destruct (mutex g || co) eqn:Hc.
  - destruct (initialize_ready g None co Hc) as ((Hi' & Hm' & _) & _).
    rewrite (update_ready_eq rate (blower_metrics_service_initialize g None co))
      by assumption.
    unfold blower_metrics_service_update at 1. rewrite Hi. cbn [negb]. cbv zeta.
    rewrite Hi', Hm'. destruct tk; reflexivity.
  - unfold blower_metrics_service_update. rewrite Hi. cbn [negb]. cbv zeta.
    rewrite initialize_eq, Hc, Hi. reflexivity.
Qed.

Lemma capture_ready_runs (g : blower_metrics_service_context_t) (tk : bool) (st : Z) :
  service_ready g ->
  let captured := tk && (fan_capturable g || envelope_capturable g) in
  exists g',
    blower_metrics_service_capture_zero_offsets g tk st = Returns (g', captured)
    /\ service_ready g'
    /\ cal g' = cal g
    /\ update_sequence (snapshot g') =
       (if captured then wrap32 (update_sequence (snapshot g) + 1)
        else update_sequence (snapshot g)).
Proof.
  intros (Hi & Hm & Hs) captured.
  destruct (models_supplied_inv _ Hs) as (f & a & Hf & Ha).
  rewrite (capture_eq g tk st f a Hi Hm Hf Ha). fold captured.
  destruct captured; eexists; (split; [reflexivity|]); unfold service_ready; fields; auto.
Qed.

Lemma begin_calibration_ready (g : blower_metrics_service_context_t) (tk : bool) (now : Z) :
  service_ready g ->
  service_ready (blower_metrics_service_begin_calibration g tk now)
  /\ update_sequence (snapshot (blower_metrics_service_begin_calibration g tk now))
     = update_sequence (snapshot g).
Proof.
  intros (Hi & Hm & Hs). rewrite begin_calibration_eq, Hi, Hm. cbn [andb].
  destruct tk; unfold service_ready; fields; auto.
Qed.

(** Every call returns on a well-formed context, leaves it well-formed, and
    - unless it is an initialisation - moves the sequence number by the
    number it reports. *)
Lemma service_step_inv (g : blower_metrics_service_context_t) (c : service_call) :
  service_inv g ->
  exists g' n,
    service_step rate g c = Returns (g', n)
    /\ service_inv g'
    /\ (is_initialize c = false ->
        update_sequence (snapshot g') = wrap32 (update_sequence (snapshot g) + Z.of_nat n)).
Proof.
  intros (Hu & Hg).
  assert (Hkeep : update_sequence (snapshot g)
                  = wrap32 (update_sequence (snapshot g) + Z.of_nat 0)).
  { cbn [Z.of_nat]. rewrite Z.add_0_r. symmetry. apply wrap32_small. exact Hu. }
  destruct c as [m co | co tk now st fs fv es ev | o tk | tk st | tk now];
    cbn [service_step is_initialize].
  - (* initialize *)
    eexists _, _. split; [reflexivity|]. split; [|discriminate].
    rewrite initialize_eq. destruct (mutex g || co) eqn:Hc.
    + split; [unfold is_uint32; cbn; lia|]. left. unfold service_ready. fields.
      repeat split. apply models_to_install_complete.
    + split; assumption.
  - (* update *)
    assert (Hready : forall g0, service_ready g0 -> is_uint32 (update_sequence (snapshot g0)) ->
              exists g' n,
                match blower_metrics_service_update rate g0 co tk now st fs fv es ev with
                | Returns (g1, committed) => Returns (g1, count_if committed)
                | NullCall => NullCall
                end = Returns (g', n)
                /\ service_inv g'
                /\ update_sequence (snapshot g')
                   = wrap32 (update_sequence (snapshot g0) + Z.of_nat n)).
    { intros g0 Hr Hu0.
      destruct (update_ready_runs g0 co tk now st fs fv es ev Hr) as (g' & E & Hr' & Hs').
      rewrite E. exists g', (count_if tk). split; [reflexivity|].
      destruct tk; cbn [count_if Z.of_nat Pos.of_succ_nat] in *.
      - split; [split; [rewrite Hs'; apply wrap32_range | left; exact Hr'] | exact Hs'].
      - rewrite Z.add_0_r, (wrap32_small _ Hu0).
        split; [split; [rewrite Hs'; exact Hu0 | left; exact Hr'] | exact Hs']. }
    destruct Hg as [Hr | Hstatic].
    + destruct (Hready g Hr Hu) as (g' & n & E & Hi' & Hs'). exists g', n. auto.
    + subst g. rewrite update_lazy_eq by reflexivity.
      cbn [mutex g_service_context orb]. destruct co.
      * destruct (initialize_ready g_service_context None true eq_refl) as (Hr1 & Hz1).
        destruct (Hready _ Hr1) as (g' & n & E & Hi' & Hs').
        { rewrite Hz1. cbn. unfold is_uint32. lia. }
        exists g', n. rewrite Hz1 in Hs'. auto.
      * exists g_service_context, 0%nat. split; [reflexivity|].
        split; [split; [exact Hu | right; reflexivity] | intros _; exact Hkeep].
  - (* get_snapshot *)
    exists g, 0%nat. split; [reflexivity|]. split; [split; assumption | intros _; exact Hkeep].
  - (* capture_zero_offsets *)
    destruct Hg as [Hr | Hstatic].
    + destruct (capture_ready_runs g tk st Hr) as (g' & E & Hr' & _ & Hs').
      rewrite E. eexists _, _. split; [reflexivity|].
      destruct (tk && (fan_capturable g || envelope_capturable g));
        cbn [count_if Z.of_nat Pos.of_succ_nat].
      * split; [split; [rewrite Hs'; apply wrap32_range | left; exact Hr'] | intros _; exact Hs'].
      * split; [split; [rewrite Hs'; exact Hu | left; exact Hr']
               | intros _; rewrite Hs'; exact Hkeep].
    + subst g. exists g_service_context, 0%nat. split; [reflexivity|].
      split; [split; [exact Hu | right; reflexivity] | intros _; exact Hkeep].
  - (* begin_calibration *)
    eexists _, _. split; [reflexivity|].
    destruct Hg as [Hr | Hstatic].
    + destruct (begin_calibration_ready g tk now Hr) as (Hr' & Hs').
      split; [split; [rewrite Hs'; exact Hu | left; exact Hr']
             | intros _; rewrite Hs'; exact Hkeep].
    + subst g. split; [split; [exact Hu | right; reflexivity] | intros _; exact Hkeep].
Qed.

Lemma wrap32_add_l (a b : Z) : wrap32 (wrap32 a + b) = wrap32 (a + b).
Proof. unfold wrap32. apply Z.add_mod_idemp_l. lia. Qed.

Lemma service_run_inv (g : blower_metrics_service_context_t) (calls : list service_call) :
  service_inv g ->
  exists g' n,
    service_run rate g calls = Returns (g', n)
    /\ service_inv g'
    /\ (forallb (fun c => negb (is_initialize c)) calls = true ->
        update_sequence (snapshot g') = wrap32 (update_sequence (snapshot g) + Z.of_nat n)).
Proof.
  revert g. induction calls as [|c rest IH]; intros g Hinv.
  - exists g, 0%nat. split; [reflexivity|]. split; [exact Hinv|].
    intros _. cbn [Z.of_nat]. rewrite Z.add_0_r. symmetry. apply wrap32_small.
    exact (proj1 Hinv).
  - destruct (service_step_inv g c Hinv) as (g1 & n1 & E1 & Hinv1 & Hs1).
    destruct (IH g1 Hinv1) as (g2 & n2 & E2 & Hinv2 & Hs2).
    exists g2, (n1 + n2)%nat. cbn [service_run]. rewrite E1, E2.
    split; [reflexivity|]. split; [exact Hinv2|].
    cbn [forallb]. intros H. apply andb_true_iff in H. destruct H as (Hc & Hrest).
    apply negb_true_iff in Hc.
    rewrite (Hs2 Hrest), (Hs1 Hc), wrap32_add_l. f_equal. lia.
Qed.

(** Every reachable context is well-formed. *)
Lemma reachable_inv (g : blower_metrics_service_context_t) :
  reachable rate g -> service_inv g.
Proof.
  induction 1 as [|g g' c n _ IH Hstep].
  - split; [cbn; unfold is_uint32; lia | right; reflexivity].
  - destruct (service_step_inv g c IH) as (g1 & n1 & E1 & Hinv1 & _).
    rewrite E1 in Hstep. injection Hstep as <- <-. exact Hinv1.
Qed.

(** An [update] that takes the lock of an initialised service. *)
Lemma update_commit_eq (g : blower_metrics_service_context_t) (co : bool) (now st : Z)
    (fs : option adp910_sample_t) (fv : bool) (es : option adp910_sample_t) (ev : bool)
    (f : fan_speed_model_fn) (a : air_leakage_model_fn) :
  is_initialized g = true -> mutex g = true ->
  fan_speed_model (models g) = Some f ->
  air_leakage_model (models g) = Some a ->
  let body := update_calibration rate now fs fv es ev
                (update_envelope_role es ev (update_fan_role fs fv g)) in
  let speed := f (fan_pressure_pa (snapshot body)) (fan_speed_model_context (models g)) in
  blower_metrics_service_update rate g co true now st fs fv es ev =
  Returns
    (mk_context (mutex g) (models g)
       (set_last_update_tick (wrap32 st)
          (set_update_sequence (wrap32 (update_sequence (snapshot g) + 1))
             (set_estimated_air_leakage_units
                (a speed (envelope_pressure_pa (snapshot body))
                   (air_leakage_model_context (models g)))
                (set_fan_speed_units speed (snapshot body)))))
       (fan_pressure_offset_pa body) (envelope_pressure_offset_pa body)
       (last_fan_pressure_raw_pa body) (last_envelope_pressure_raw_pa body)
       (has_last_fan_pressure_raw body) (has_last_envelope_pressure_raw body)
       (is_initialized g) (cal body), true).
Proof.
  intros Hi Hm Hf Ha body speed.
  destruct (update_body_frame now fs fv es ev g) as (Fm & Fd & Fi & Fs & _).
  fold body in Fm, Fd, Fi, Fs.
  rewrite update_ready_eq by assumption. fold body.
  rewrite (publish_derived_eq st body f a) by (rewrite Fd; assumption).
  subst speed. rewrite Fm, Fd, Fi, Fs. reflexivity.
Qed.

End ServiceSteps.

(** ** Calibration windows *)

Section CalibrationWindow.

Variable rate : Z.

Lemma calibration_elapsed_ms_range (start now : Z) :
  is_uint32 (calibration_elapsed_ms rate start now).
Proof. unfold calibration_elapsed_ms. apply wrap32_range. Qed.

(** With a tick rate of 1000 Hz the elapsed time is the tick difference, as
    long as the counter has not wrapped past the start. *)
Lemma calibration_elapsed_ms_exact (start now : Z) :
  is_uint32 (now - start) ->
  calibration_elapsed_ms 1000 start now = now - start.
Proof.
  intros H. unfold calibration_elapsed_ms, FreeRTOS.portTICK_PERIOD_MS.
  change (1000 / 1000) with 1. rewrite Z.mul_1_r, (wrap32_small _ H). apply wrap32_small, H.
Qed.

Lemma progress_pct_value (E : Z) :
  0 <= E < CALIBRATION_DURATION_MS ->
  wrap8 (let pct := wrap32 (E * 100) / CALIBRATION_DURATION_MS in
         if 99 <? pct then 99 else pct)
  = Z.min 99 (E * 100 / 10000).
Proof.
  unfold CALIBRATION_DURATION_MS. intros H. cbv zeta.
  rewrite (wrap32_small (E * 100)) by (unfold is_uint32; lia).
  assert (Hq : 0 <= E * 100 / 10000 <= 99).
  { split.
    - apply Z.div_pos; lia.
    - apply Z.lt_succ_r. apply Z.div_lt_upper_bound; lia. }
  replace (99 <? E * 100 / 10000) with false by (symmetry; apply Z.ltb_ge; lia).
  rewrite Z.min_r by lia. unfold wrap8. apply Z.mod_small. lia.
Qed.

Lemma fan_pressures_cons (c : service_call) (rest : list service_call) :
  fan_pressures (c :: rest) = fan_pressures [c] ++ fan_pressures rest.
Proof.
  destruct c as [m co | co tk now st fs fv es ev | o tk | tk st | tk now]; try reflexivity.
  cbn [fan_pressures]. destruct tk; [|reflexivity].
  destruct (sample_given fv fs); reflexivity.
Qed.

Lemma envelope_pressures_cons (c : service_call) (rest : list service_call) :
  envelope_pressures (c :: rest) = envelope_pressures [c] ++ envelope_pressures rest.
Proof.
  destruct c as [m co | co tk now st fs fv es ev | o tk | tk st | tk now]; try reflexivity.
  cbn [envelope_pressures]. destruct tk; [|reflexivity].
  destruct (sample_given ev es); reflexivity.
Qed.

Lemma fan_pressures_app (l1 l2 : list service_call) :
  fan_pressures (l1 ++ l2) = fan_pressures l1 ++ fan_pressures l2.
Proof.
  induction l1 as [|c l1 IH]; [reflexivity|].
  cbn [app]. rewrite (fan_pressures_cons c (l1 ++ l2)), (fan_pressures_cons c l1), IH.
  apply app_assoc.
Qed.

Lemma envelope_pressures_app (l1 l2 : list service_call) :
  envelope_pressures (l1 ++ l2) = envelope_pressures l1 ++ envelope_pressures l2.
Proof.
  induction l1 as [|c l1 IH]; [reflexivity|].
  cbn [app]. rewrite (envelope_pressures_cons c (l1 ++ l2)), (envelope_pressures_cons c l1), IH.
  apply app_assoc.
Qed.

Lemma begin_calibration_opens (g : blower_metrics_service_context_t) (T : Z) :
  service_ready g ->
  window_state (blower_metrics_service_begin_calibration g true T) T zero zero 0 0
  /\ offsets (blower_metrics_service_begin_calibration g true T) = (zero, zero).
Proof.
  intros (Hi & Hm & Hs). rewrite begin_calibration_eq, Hi, Hm. cbn [andb].
  split; [|reflexivity].
  constructor; unfold service_ready; fields; auto.
Qed.

Lemma window_step (g : blower_metrics_service_context_t) (T : Z) (fsum esum : float32)
    (fc ec : Z) (c : service_call) :
  window_state g T fsum esum fc ec ->
  in_window rate T c = true ->
  exists g' n,
    service_step rate g c = Returns (g', n)
    /\ window_state g' T
         (fold_left add (fan_pressures [c]) fsum)
         (fold_left add (envelope_pressures [c]) esum)
         (fc + Z.of_nat (List.length (fan_pressures [c])))
         (ec + Z.of_nat (List.length (envelope_pressures [c]))).
Proof.
  intros [Hr Ha Hst Hfs Hes Hfc Hec] Hw.
  assert (Hsame : window_state g T fsum esum (fc + 0) (ec + 0)).
  { rewrite !Z.add_0_r. constructor; assumption. }
  destruct c as [m co | co tk now st fs fv es ev | o tk | tk st | tk now];
    cbn [in_window] in Hw; try discriminate; cbn [service_step].
  - (* update *)
    destruct Hr as (Hi & Hm & Hs).
    destruct tk.
    + destruct (models_supplied_inv _ Hs) as (f & a & Hf & Hal).
      pose proof (update_commit_eq rate g co now st fs fv es ev f a Hi Hm Hf Hal) as E.
      cbv zeta in E. rewrite E. clear E.
      eexists _, _. split; [reflexivity|].
      apply Z.ltb_lt in Hw. rewrite <- Hst in Hw.
      rewrite (update_calibration_window rate now fs fv es ev)
        by (rewrite roles_cal; assumption).
      rewrite !roles_cal. cbn [fan_pressures envelope_pressures]. unfold count_after.
      destruct (sample_given fv fs), (sample_given ev es);
        constructor; unfold service_ready; fields; cbn [fold_left List.length Z.of_nat];
        rewrite ?Hfc, ?Hec, ?wrap32_add_l, ?Z.add_0_r; auto; try (f_equal; assumption).
    + rewrite update_ready_eq by assumption.
      eexists _, _. split; [reflexivity|]. exact Hsame.
  - (* get_snapshot *)
    eexists _, _. split; [reflexivity|]. exact Hsame.
  - (* capture_zero_offsets *)
    destruct (capture_ready_runs g tk st Hr) as (g' & E & Hr' & Hc' & _).
    rewrite E. eexists _, _. split; [reflexivity|].
    cbn [fan_pressures envelope_pressures fold_left List.length Z.of_nat].
    rewrite !Z.add_0_r. constructor; rewrite ?Hc'; assumption.
Qed.

Lemma window_run (calls : list service_call) :
  forall (g : blower_metrics_service_context_t) (T : Z) (fsum esum : float32) (fc ec : Z),
  window_state g T fsum esum fc ec ->
  forallb (in_window rate T) calls = true ->
  exists g' n,
    service_run rate g calls = Returns (g', n)
    /\ window_state g' T
         (fold_left add (fan_pressures calls) fsum)
         (fold_left add (envelope_pressures calls) esum)
         (fc + Z.of_nat (List.length (fan_pressures calls)))
         (ec + Z.of_nat (List.length (envelope_pressures calls))).
Proof.
  induction calls as [|c rest IH]; intros g T fsum esum fc ec Hws Hall.
  - exists g, 0%nat. split; [reflexivity|].
    cbn [fan_pressures envelope_pressures fold_left List.length Z.of_nat].
    rewrite !Z.add_0_r. exact Hws.
  - cbn [forallb] in Hall. apply andb_true_iff in Hall. destruct Hall as (Hc & Hrest).
    destruct (window_step g T fsum esum fc ec c Hws Hc) as (g1 & n1 & E1 & Hws1).
    destruct (IH _ _ _ _ _ _ Hws1 Hrest) as (g2 & n2 & E2 & Hws2).
    exists g2, (n1 + n2)%nat. cbn [service_run]. rewrite E1, E2.
    split; [reflexivity|].
    rewrite (fan_pressures_cons c rest), (envelope_pressures_cons c rest).
    rewrite !fold_left_app, !List.length_app, !Nat2Z.inj_add, !Z.add_assoc.
    exact Hws2.
Qed.

End CalibrationWindow.

(** ** The properties of the service *)

Section ServiceClaims.

Variable rate : Z.

(** C1, as amended. On a well-formed context and for every sequence of calls
    to [update], [get_snapshot], [capture_zero_offsets] and
    [begin_calibration], every call returns, and the sequence number at the
    end is the one at the start plus the number of [update] calls that ran to
    their end and of [capture_zero_offsets] calls that captured, modulo 2^32.
    The other calls leave it as it is, [begin_calibration] included, although
    it writes the calibration state and progress of the snapshot. *)
Theorem update_sequence_counts_commits
    (g : blower_metrics_service_context_t) (calls : list service_call) :
  service_inv g ->
  forallb (fun c => negb (is_initialize c)) calls = true ->
  exists g' n,
    service_run rate g calls = Returns (g', n)
    /\ update_sequence (snapshot g') = wrap32 (update_sequence (snapshot g) + Z.of_nat n).
Proof.
  intros Hinv Hcalls.
  destruct (service_run_inv rate g calls Hinv) as (g' & n & E & _ & Hs).
  exists g', n. split; [exact E | exact (Hs Hcalls)].
Qed.


(** C5. The [update] that closes a calibration window decides for each role
    on its own. With the window being the calls since [begin_calibration]
    and the closing call itself: a role that handed over fewer than 20 valid
    samples keeps the offset it had before the closing call; a role with at
    least 20 gets as offset the sum of its pressures divided by their number,
    and its published pressure is the cached raw reading minus this new
    offset. *)
Theorem calibration_finalizes_per_role
    (g : blower_metrics_service_context_t) (T : Z) (calls : list service_call)
    (co : bool) (now st : Z)
    (fs : option adp910_sample_t) (fv : bool) (es : option adp910_sample_t) (ev : bool) :
  service_ready g ->
  forallb (in_window rate T) calls = true ->
  CALIBRATION_DURATION_MS <= calibration_elapsed_ms rate T now ->
  let window := calls ++ [CallUpdate co true now st fs fv es ev] in
  let fan_n := wrap32 (Z.of_nat (List.length (fan_pressures window))) in
  let envelope_n := wrap32 (Z.of_nat (List.length (envelope_pressures window))) in
  exists g1 n g2,
    service_run rate (blower_metrics_service_begin_calibration g true T) calls
    = Returns (g1, n)
    /\ blower_metrics_service_update rate g1 co true now st fs fv es ev = Returns (g2, true)
    /\ (fan_n < CALIBRATION_MIN_SAMPLES ->
        fan_pressure_offset_pa g2 = fan_pressure_offset_pa g1)
    /\ (CALIBRATION_MIN_SAMPLES <= fan_n ->
        fan_pressure_offset_pa g2
        = div (float_sum (fan_pressures window)) (of_uint32 fan_n)
        /\ fan_pressure_pa (snapshot g2)
           = sub (last_fan_pressure_raw_pa g2) (fan_pressure_offset_pa g2))
    /\ (envelope_n < CALIBRATION_MIN_SAMPLES ->
        envelope_pressure_offset_pa g2 = envelope_pressure_offset_pa g1)
    /\ (CALIBRATION_MIN_SAMPLES <= envelope_n ->
        envelope_pressure_offset_pa g2
        = div (float_sum (envelope_pressures window)) (of_uint32 envelope_n)
        /\ envelope_pressure_pa (snapshot g2)
           = sub (last_envelope_pressure_raw_pa g2) (envelope_pressure_offset_pa g2)).
Proof.
  intros Hr Hcalls HE window fan_n envelope_n.
  destruct (begin_calibration_opens g T Hr) as (Hopen & _).
  destruct (window_run rate calls _ _ _ _ _ _ Hopen Hcalls) as (g1 & n & E1 & Hws).
  destruct Hws as [(Hi & Hm & Hs) Ha Hst Hfs Hes Hfc Hec].
  destruct (models_supplied_inv _ Hs) as (f & a & Hf & Hal).
  pose proof (update_commit_eq rate g1 co now st fs fv es ev f a Hi Hm Hf Hal) as E.
  cbv zeta in E.
  exists g1, n. eexists. split; [exact E1|]. split; [exact E|]. clear E.
  rewrite <- Hst in HE.
  pose proof (update_calibration_finalize rate now fs fv es ev
                (update_envelope_role es ev (update_fan_role fs fv g1))) as F.
  rewrite !roles_cal in F. specialize (F Ha HE). cbv zeta in F. rewrite F. clear F.
  fields.
  (* the numbers of samples and the sums, in terms of the window *)
  assert (Nf : count_after fv fs (fan_count (cal g1)) = fan_n).
  { subst fan_n window. rewrite fan_pressures_app, List.length_app, Nat2Z.inj_add.
    rewrite Hfc. cbn [fan_pressures]. unfold count_after.
    destruct (sample_given fv fs); cbn [List.length Z.of_nat Pos.of_succ_nat Pos.succ].
    - rewrite wrap32_add_l. reflexivity.
    - rewrite Z.add_0_r. reflexivity. }
  assert (Ne : count_after ev es (envelope_count (cal g1)) = envelope_n).
  { subst envelope_n window.
    rewrite envelope_pressures_app, List.length_app, Nat2Z.inj_add.
    rewrite Hec. cbn [envelope_pressures]. unfold count_after.
    destruct (sample_given ev es); cbn [List.length Z.of_nat Pos.of_succ_nat Pos.succ].
    - rewrite wrap32_add_l. reflexivity.
    - rewrite Z.add_0_r. reflexivity. }
  assert (Sf : match sample_given fv fs with
               | Some s => add (fan_sum (cal g1)) (corrected_pressure_pa s)
               | None => fan_sum (cal g1)
               end = float_sum (fan_pressures window)).
  { subst window. unfold float_sum. rewrite fan_pressures_app, fold_left_app, Hfs.
    cbn [fan_pressures]. destruct (sample_given fv fs); reflexivity. }
  assert (Se : match sample_given ev es with
               | Some s => add (envelope_sum (cal g1)) (corrected_pressure_pa s)
               | None => envelope_sum (cal g1)
               end = float_sum (envelope_pressures window)).
  { subst window. unfold float_sum.
    rewrite envelope_pressures_app, fold_left_app, Hes.
    cbn [envelope_pressures]. destruct (sample_given ev es); reflexivity. }
  rewrite Nf, Ne, Sf, Se.
  assert (Ff : fan_pressure_offset_pa (update_envelope_role es ev (update_fan_role fs fv g1))
               = fan_pressure_offset_pa g1).
  { rewrite update_envelope_role_eq, update_fan_role_eq.
    destruct (sample_given ev es), (sample_given fv fs); reflexivity. }
  assert (Fe : envelope_pressure_offset_pa
                 (update_envelope_role es ev (update_fan_role fs fv g1))
               = envelope_pressure_offset_pa g1).
  { rewrite update_envelope_role_eq, update_fan_role_eq.
    destruct (sample_given ev es), (sample_given fv fs); reflexivity. }
  rewrite Ff, Fe.
  split; [intros H | split; [intros H | split; [intros H | intros H]]].
  - replace (CALIBRATION_MIN_SAMPLES <=? fan_n) with false
      by (symmetry; apply Z.leb_gt; exact H).
    reflexivity.
  - apply Z.leb_le in H. rewrite H. split; reflexivity.
  - replace (CALIBRATION_MIN_SAMPLES <=? envelope_n) with false
      by (symmetry; apply Z.leb_gt; exact H).
    reflexivity.
  - apply Z.leb_le in H. rewrite H. split; reflexivity.
Qed.

(** C6. When neither role is capturable - no currently valid sample with a
    cached raw reading - [capture_zero_offsets] returns false and leaves the
    whole context as it was: the snapshot with its sequence number and its
    derived metrics, and both offsets. *)
Theorem capture_nothing_when_no_role
    (g : blower_metrics_service_context_t) (tk : bool) (st : Z) :
  fan_capturable g = false ->
  envelope_capturable g = false ->
  blower_metrics_service_capture_zero_offsets g tk st = Returns (g, false).
Proof.
  unfold fan_capturable, envelope_capturable. intros Hf He.
  unfold blower_metrics_service_capture_zero_offsets.
  destruct (negb (mutex g) || negb (is_initialized g)); [reflexivity|].
  destruct (negb tk); [reflexivity|].
  rewrite Hf. cbv zeta. cbn iota. rewrite He. reflexivity.
Qed.


(** C8, as amended. [initialize] is idempotent. Whenever the lock exists or
    can be created, a call zeroes the snapshot, both offsets, the cached raw
    readings and the calibration accumulator and marks the service
    initialised; it installs the supplied model table when that is complete
    and otherwise the built-in linear models with no configuration, whatever
    table an earlier call had installed. *)
Theorem initialize_resets_and_installs
    (g : blower_metrics_service_context_t) (m : option blower_metrics_models_t) (co : bool) :
  let g' := blower_metrics_service_initialize g m co in
  blower_metrics_service_initialize g' m co = g'
  /\ (mutex g || co = true ->
      snapshot g' = blower_metrics_snapshot_zero
      /\ offsets g' = (zero, zero)
      /\ cal g' = calibration_accumulator_zero
      /\ has_last_fan_pressure_raw g' = false
      /\ has_last_envelope_pressure_raw g' = false
      /\ is_initialized g' = true
      /\ models g' = models_to_install m
      /\ (models_supplied m = false ->
          models g' = blower_metrics_service_apply_default_models (models g))).
Proof.
  intros g'. subst g'. split.
  - rewrite (initialize_eq g m co). destruct (mutex g || co) eqn:Hc.
    + rewrite initialize_eq. reflexivity.
    + rewrite initialize_eq, Hc. reflexivity.
  - intros Hc. rewrite initialize_eq, Hc. unfold offsets. fields.
    repeat (split; [reflexivity|]).
    intros Hm. unfold models_to_install.
    destruct m as [s|]; [rewrite Hm|]; reflexivity.
Qed.

(** C9, as amended. On an initialised service the offsets are written only by
    [initialize], by [begin_calibration], by a [capture_zero_offsets] that
    has a capturable role, and by an [update] that closes a calibration
    window in which a role has at least 20 samples; every other call returns
    and leaves both offsets as they were. [begin_calibration] and
    [initialize] set both offsets to [0.0]. *)
Theorem offsets_written_only_at
    (g : blower_metrics_service_context_t) :
  service_ready g ->
  (forall c : service_call,
     writes_offsets rate g c = false ->
     exists g' n, service_step rate g c = Returns (g', n) /\ offsets g' = offsets g)
  /\ (forall now : Z,
        offsets (blower_metrics_service_begin_calibration g true now) = (zero, zero))
  /\ (forall (m : option blower_metrics_models_t) (co : bool),
        offsets (blower_metrics_service_initialize g m co) = (zero, zero)).
Proof.
  intros Hr. split; [|split].
  - intros c Hw.
    destruct c as [m co | co tk now st fs fv es ev | o tk | tk st | tk now];
      cbn [writes_offsets] in Hw; try discriminate; cbn [service_step].
    + (* update *)
      destruct Hr as (Hi & Hm & Hs).
      destruct tk; [| rewrite update_ready_eq by assumption; eexists _, _; split; reflexivity].
      destruct (models_supplied_inv _ Hs) as (f & a & Hf & Hal).
      pose proof (update_commit_eq rate g co now st fs fv es ev f a Hi Hm Hf Hal) as E.
      cbv zeta in E. rewrite E. clear E.
      eexists _, _. split; [reflexivity|]. unfold offsets. fields.
      cbn [andb] in Hw. unfold finalizes in Hw.
      destruct (calibration_cases rate g now) as [Hact | Hact Hel | Hact Hel].
      * rewrite (update_calibration_inactive rate now fs fv es ev)
          by (rewrite roles_cal; exact Hact).
        rewrite update_envelope_role_eq, update_fan_role_eq.
        destruct (sample_given ev es), (sample_given fv fs); reflexivity.
      * rewrite (update_calibration_window rate now fs fv es ev)
          by (rewrite roles_cal; assumption).
        fields. rewrite update_envelope_role_eq, update_fan_role_eq.
        destruct (sample_given ev es), (sample_given fv fs); reflexivity.
      * rewrite Hact in Hw. apply Z.leb_le in Hel. rewrite Hel in Hw. cbn [andb] in Hw.
        apply orb_false_iff in Hw. destruct Hw as (Hwf & Hwe).
        apply Z.leb_le in Hel.
        pose proof (update_calibration_finalize rate now fs fv es ev
                      (update_envelope_role es ev (update_fan_role fs fv g))) as F.
        rewrite !roles_cal in F. specialize (F Hact Hel). cbv zeta in F.
        rewrite F, Hwf, Hwe. clear F. fields.
        rewrite update_envelope_role_eq, update_fan_role_eq.
        destruct (sample_given ev es), (sample_given fv fs); reflexivity.
    + (* get_snapshot *)
      eexists _, _. split; reflexivity.
    + (* capture_zero_offsets *)
      destruct Hr as (Hi & Hm & Hs).
      destruct (models_supplied_inv _ Hs) as (f & a & Hf & Hal).
      pose proof (capture_eq g tk st f a Hi Hm Hf Hal) as E. cbv zeta in E.
      rewrite Hw in E. rewrite E. eexists _, _. split; reflexivity.
  - intros now. apply (begin_calibration_opens g now Hr).
  - intros m co. destruct Hr as (_ & Hm & _).
    rewrite initialize_eq, Hm. reflexivity.
Qed.

(** C10, as amended. For each role, an [update] whose validity flag is true
    while the sample pointer is NULL does exactly what it does when the flag
    is false. On an initialised service such a call returns; the role is
    published as invalid; its temperature, its cached raw reading and the
    accumulator's sum and count for it are those of before. Its published
    pressure is that of before too, unless the call closes a calibration
    window in which the role has at least 20 samples: it is then the cached
    raw reading minus the new offset. *)
Theorem null_sample_is_invalid_role
    (g : blower_metrics_service_context_t) (co tk : bool) (now st : Z)
    (other : option adp910_sample_t) (other_valid : bool) :
  (forall x : option adp910_sample_t,
     blower_metrics_service_update rate g co tk now st None true other other_valid
     = blower_metrics_service_update rate g co tk now st x false other other_valid)
  /\ (forall x : option adp910_sample_t,
        blower_metrics_service_update rate g co tk now st other other_valid None true
        = blower_metrics_service_update rate g co tk now st other other_valid x false)
  /\ (service_ready g ->
      exists g',
        blower_metrics_service_update rate g co true now st None true other other_valid
        = Returns (g', true)
        /\ fan_sample_valid (snapshot g') = false
        /\ fan_temperature_c (snapshot g') = fan_temperature_c (snapshot g)
        /\ last_fan_pressure_raw_pa g' = last_fan_pressure_raw_pa g
        /\ has_last_fan_pressure_raw g' = has_last_fan_pressure_raw g
        /\ fan_sum (cal g') = fan_sum (cal g)
        /\ fan_count (cal g') = fan_count (cal g)
        /\ fan_pressure_pa (snapshot g')
           = if finalizes rate g now && (CALIBRATION_MIN_SAMPLES <=? fan_count (cal g))
             then sub (last_fan_pressure_raw_pa g) (fan_pressure_offset_pa g')
             else fan_pressure_pa (snapshot g))
  /\ (service_ready g ->
      exists g',
        blower_metrics_service_update rate g co true now st other other_valid None true
        = Returns (g', true)
        /\ envelope_sample_valid (snapshot g') = false
        /\ envelope_temperature_c (snapshot g') = envelope_temperature_c (snapshot g)
        /\ last_envelope_pressure_raw_pa g' = last_envelope_pressure_raw_pa g
        /\ has_last_envelope_pressure_raw g' = has_last_envelope_pressure_raw g
        /\ envelope_sum (cal g') = envelope_sum (cal g)
        /\ envelope_count (cal g') = envelope_count (cal g)
        /\ envelope_pressure_pa (snapshot g')
           = if finalizes rate g now
                && (CALIBRATION_MIN_SAMPLES <=? envelope_count (cal g))
             then sub (last_envelope_pressure_raw_pa g) (envelope_pressure_offset_pa g')
             else envelope_pressure_pa (snapshot g)).
Proof.
  split; [|split; [|split]].
  - intros x. unfold blower_metrics_service_update, update_fan_role, update_calibration.
    reflexivity.
  - intros x. unfold blower_metrics_service_update, update_envelope_role, update_calibration.
    reflexivity.
  - intros (Hi & Hm & Hs).
    destruct (models_supplied_inv _ Hs) as (f & a & Hf & Hal).
    pose proof (update_commit_eq rate g co now st None true other other_valid
                  f a Hi Hm Hf Hal) as E.
    cbv zeta in E. rewrite E. clear E.
    eexists. split; [reflexivity|]. fields. unfold finalizes.
    destruct (calibration_cases rate g now) as [Hact | Hact Hel | Hact Hel]; rewrite Hact.
    + rewrite (update_calibration_inactive rate now None true other other_valid)
        by (rewrite roles_cal; exact Hact).
      rewrite update_envelope_role_eq, update_fan_role_eq. cbn [sample_given andb].
      destruct (sample_given other_valid other); fields; repeat split.
    + rewrite (update_calibration_window rate now None true other other_valid)
        by (rewrite roles_cal; assumption).
      replace (CALIBRATION_DURATION_MS <=? calibration_elapsed_ms rate (start_tick (cal g)) now)
        with false by (symmetry; apply Z.leb_gt; exact Hel).
      unfold count_after. rewrite !roles_cal.
      rewrite update_envelope_role_eq, update_fan_role_eq. cbn [sample_given andb].
      destruct (sample_given other_valid other); fields; repeat split.
    + pose proof (update_calibration_finalize rate now None true other other_valid
                    (update_envelope_role other other_valid (update_fan_role None true g))) as F.
      rewrite !roles_cal in F. specialize (F Hact Hel). cbv zeta in F. rewrite F. clear F.
      apply Z.leb_le in Hel. rewrite Hel. unfold count_after.
      rewrite update_envelope_role_eq, update_fan_role_eq. cbn [sample_given andb].
      destruct (sample_given other_valid other); fields;
        destruct (CALIBRATION_MIN_SAMPLES <=? fan_count (cal g)); repeat split.
  - intros (Hi & Hm & Hs).
    destruct (models_supplied_inv _ Hs) as (f & a & Hf & Hal).
    pose proof (update_commit_eq rate g co now st other other_valid None true
                  f a Hi Hm Hf Hal) as E.
    cbv zeta in E. rewrite E. clear E.
    eexists. split; [reflexivity|]. fields. unfold finalizes.
    destruct (calibration_cases rate g now) as [Hact | Hact Hel | Hact Hel]; rewrite Hact.
    + rewrite (update_calibration_inactive rate now other other_valid None true)
        by (rewrite roles_cal; exact Hact).
      rewrite update_envelope_role_eq, update_fan_role_eq. cbn [sample_given andb].
      destruct (sample_given other_valid other); fields; repeat split.
    + rewrite (update_calibration_window rate now other other_valid None true)
        by (rewrite roles_cal; assumption).
      replace (CALIBRATION_DURATION_MS <=? calibration_elapsed_ms rate (start_tick (cal g)) now)
        with false by (symmetry; apply Z.leb_gt; exact Hel).
      unfold count_after. rewrite !roles_cal.
      rewrite update_envelope_role_eq, update_fan_role_eq. cbn [sample_given andb].
      destruct (sample_given other_valid other); fields; repeat split.
    + pose proof (update_calibration_finalize rate now other other_valid None true
                    (update_envelope_role None true (update_fan_role other other_valid g))) as F.
      rewrite !roles_cal in F. specialize (F Hact Hel). cbv zeta in F. rewrite F. clear F.
      apply Z.leb_le in Hel. rewrite Hel. unfold count_after.
      rewrite update_envelope_role_eq, update_fan_role_eq. cbn [sample_given andb].
      destruct (sample_given other_valid other); fields;
        destruct (CALIBRATION_MIN_SAMPLES <=? envelope_count (cal g)); repeat split.
Qed.

End ServiceClaims.

(** ** The properties at concrete inputs *)

Section Instances.
Import Adp910Task Examples.

Lemma ready_service_ready : service_ready ready_service.
Proof. repeat split. Defined.

Lemma sampled_service_ready : service_ready sampled_service.
Proof. repeat split. Defined.

Lemma zeroed_service_ready : service_ready zeroed_service.
Proof. repeat split. Defined.

Lemma three_bus_errors_force_reinit_witness :
  ready fan_channel_ready = true
  /\ ready after_three_bus_errors = false
  /\ read_error_streak after_three_bus_errors = 0
  /\ next_init_tick after_three_bus_errors = next_init_tick fan_channel_ready.
Proof.
  pose proof (three_bus_errors_force_reinit tick_rate fan_channel_ready 10 20 30
                init_ok init_ok init_ok bus_error bus_error bus_error
                eq_refl eq_refl eq_refl eq_refl eq_refl) as H.
  cbv zeta in H. destruct H as (_ & _ & (H3 & N3) & D3 & _).
  split; [reflexivity|]. unfold after_three_bus_errors.
  split; [exact H3|]. split; [exact N3 | exact D3].
Defined.

Lemma uncounted_failures_keep_ready_witness :
  ready (read_run fan_channel_ready uncounted_answers) = true
  /\ read_error_streak (read_run fan_channel_ready uncounted_answers)
     = read_error_streak fan_channel_ready.
Proof.
  apply (uncounted_failures_keep_ready fan_channel_ready uncounted_answers).
  - reflexivity.
  - unfold is_uint8. simpl. lia.
  - repeat constructor.
Defined.

Lemma update_sequence_counts_commits_witness :
  exists g' n,
    service_run tick_rate g_service_context mixed_calls = Returns (g', n)
    /\ update_sequence (snapshot g')
       = wrap32 (update_sequence (snapshot g_service_context) + Z.of_nat n).
Proof.
  apply (update_sequence_counts_commits tick_rate g_service_context mixed_calls).
  - split; [unfold is_uint32; simpl; lia | right; reflexivity].
  - reflexivity.
Defined.


Lemma calibration_finalizes_per_role_witness :
  exists g1 n g2,
    service_run tick_rate (blower_metrics_service_begin_calibration ready_service true 0)
                uneven_window = Returns (g1, n)
    /\ blower_metrics_service_update tick_rate g1 true true 10000 10000
         None false (Some (sample_of 8 20)) true = Returns (g2, true)
    /\ fan_pressure_offset_pa g2 = fan_pressure_offset_pa g1
    /\ envelope_pressure_offset_pa g2 = of_uint32 8.
Proof.
  destruct (calibration_finalizes_per_role tick_rate ready_service 0 uneven_window
              true 10000 10000 None false (Some (sample_of 8 20)) true
              ready_service_ready eq_refl)
    as (g1 & n & g2 & E1 & E2 & Hf & _ & _ & He).
  - vm_compute. discriminate.
  - exists g1, n, g2. split; [exact E1|]. split; [exact E2|].
    split.
    + apply Hf. vm_compute. reflexivity.
    + destruct He as (He & _); [vm_compute; discriminate|].
      rewrite He. vm_compute. reflexivity.
Defined.

Lemma capture_nothing_when_no_role_witness :
  blower_metrics_service_capture_zero_offsets ready_service true 5
  = Returns (ready_service, false).
Proof.
  apply (capture_nothing_when_no_role ready_service true 5); reflexivity.
Defined.


Lemma initialize_resets_and_installs_witness :
  blower_metrics_service_initialize task_service (Some task_models) true = task_service
  /\ snapshot task_service = blower_metrics_snapshot_zero
  /\ models task_service = task_models.
Proof.
  destruct (initialize_resets_and_installs g_service_context (Some task_models) true)
    as (Hid & Hreset).
  destruct (Hreset eq_refl) as (Hs & _ & _ & _ & _ & _ & Hm & _).
  split; [exact Hid|]. split; [exact Hs | exact Hm].
Defined.

Lemma offsets_written_only_at_witness :
  exists g' n,
    service_step tick_rate zeroed_service (update_at 20 (Some 6) None) = Returns (g', n)
    /\ offsets g' = offsets zeroed_service.
Proof.
  destruct (offsets_written_only_at tick_rate zeroed_service zeroed_service_ready)
    as (H & _).
  apply H. reflexivity.
Defined.

Lemma null_sample_is_invalid_role_witness :
  exists g',
    blower_metrics_service_update tick_rate sampled_service true true 20 20
      None true None false = Returns (g', true)
    /\ fan_sample_valid (snapshot g') = false
    /\ fan_pressure_pa (snapshot g') = fan_pressure_pa (snapshot sampled_service).
Proof.
  destruct (null_sample_is_invalid_role tick_rate sampled_service true true 20 20 None false)
    as (_ & _ & H & _).
  destruct (H sampled_service_ready) as (g' & E & Hv & _ & _ & _ & _ & _ & Hp).
  exists g'. split; [exact E|]. split; [exact Hv|]. rewrite Hp. reflexivity.
Defined.

(** *** Where the specification's wording and the code part *)

(** C2: a READY channel whose streak already stands at 2 leaves READY on the
    first bus error of a run, not on the third. *)
Lemma mid_streak_channel_leaves_on_first_failure :
  ready mid_streak_channel = true
  /\ read_error_streak mid_streak_channel = 2
  /\ ready (adp910_channel_cycle tick_rate mid_streak_channel 40 init_ok bus_error) = false.
Proof. vm_compute. repeat split. Qed.

(** C1: [begin_calibration] commits a change of the published snapshot and
    leaves the sequence number where it was. *)
Lemma begin_calibration_mutates_without_increment :
  snapshot calibrating_service <> snapshot ready_service
  /\ update_sequence (snapshot calibrating_service) = update_sequence (snapshot ready_service)
  /\ update_sequence (snapshot calibrating_service)
     <> wrap32 (update_sequence (snapshot ready_service) + 1).
Proof.
  vm_compute. split; [discriminate|]. split; [reflexivity | discriminate].
Qed.

(** C8: a second [initialize] without models replaces the models that the
    first one installed. *)
Lemma initialize_replaces_models :
  models_supplied None = false
  /\ models task_service = task_models
  /\ models reinitialized_service <> models task_service.
Proof.
  split; [reflexivity|]. split; [reflexivity|].
  intros H. apply (f_equal fan_speed_model_context) in H. discriminate H.
Qed.

(** C9: [begin_calibration] changes the offsets of a service whose offsets
    had been captured. *)
Lemma begin_calibration_rewrites_offsets :
  offsets (blower_metrics_service_begin_calibration zeroed_service true 20)
  <> offsets zeroed_service.
Proof. vm_compute. discriminate. Qed.

(** C10: the [update] that closes the window of 20 fan samples, called with a
    true flag and a NULL fan sample, changes the published fan pressure. *)
Lemma null_sample_pressure_recomputed :
  match blower_metrics_service_update tick_rate window_of_twenty true true 10000 10000
          None true None false with
  | Returns (g', committed) =>
      committed = true
      /\ fan_pressure_pa (snapshot g') <> fan_pressure_pa (snapshot window_of_twenty)
  | NullCall => False
  end.
Proof. vm_compute. split; [reflexivity | discriminate]. Qed.

End Instances.

(** * Further properties of the code *)

(** Splits the conjunctions that are written out, not the folded ones. *)
Ltac splits := repeat match goal with |- _ /\ _ => split end.

(** ** Diagnostics counters *)

Section DiagnosticsFacts.
Import Adp910Task SamplingTask.

Lemma diag_record_in_range (d : adp910_diag_t) (s : adp910_status_t) :
  diag_in_range d -> diag_in_range (adp910_diag_record d s).
Proof.
  unfold diag_in_range. intros (A & B & C & D & E & F).
  destruct s; cbn [adp910_diag_record ok invalid_argument bus_error not_ready
                   crc_mismatch other];
    splits; try assumption; apply wrap32_range.
Qed.

Lemma occurrences_cons (s x : adp910_status_t) (l : list adp910_status_t) :
  occurrences s (x :: l) = (if adp910_status_eqb s x then 1 else 0) + occurrences s l.
Proof.
  unfold occurrences. cbn [filter].
  destruct (adp910_status_eqb s x); cbn [List.length]; lia.
Qed.

Lemma occurrences_nonneg (s : adp910_status_t) (l : list adp910_status_t) :
  0 <= occurrences s l.
Proof. unfold occurrences. lia. Qed.

Lemma occurrences_total (l : list adp910_status_t) :
  occurrences ADP910_STATUS_OK l + occurrences ADP910_STATUS_INVALID_ARGUMENT l
  + occurrences ADP910_STATUS_BUS_ERROR l + occurrences ADP910_STATUS_NOT_READY l
  + occurrences ADP910_STATUS_CRC_MISMATCH l + occurrences ADP910_STATUS_OTHER l
  = Z.of_nat (List.length l).
Proof.
  induction l as [|x l IH]; [reflexivity|].
  rewrite !occurrences_cons. cbn [List.length]. rewrite Nat2Z.inj_succ.
  destruct x; cbn [adp910_status_eqb]; lia.
Qed.

Lemma last_cons_default (A : Type) (l : list A) (x d : A) :
  last (x :: l) d = last l x.
Proof.
  revert x d. induction l as [|y l IH]; intros x d; [reflexivity|].
  change (last (x :: y :: l) d) with (last (y :: l) d).
  rewrite (IH y d), (IH y x). reflexivity.
Qed.

(** Each bucket advances by the occurrences of its outcome, modulo 2^32. *)
Lemma diag_record_all_buckets (outcomes : list adp910_status_t) :
  forall d : adp910_diag_t,
  diag_in_range d ->
  let d' := diag_record_all d outcomes in
  ok d' = wrap32 (ok d + occurrences ADP910_STATUS_OK outcomes)
  /\ invalid_argument d'
     = wrap32 (invalid_argument d + occurrences ADP910_STATUS_INVALID_ARGUMENT outcomes)
  /\ bus_error d' = wrap32 (bus_error d + occurrences ADP910_STATUS_BUS_ERROR outcomes)
  /\ not_ready d' = wrap32 (not_ready d + occurrences ADP910_STATUS_NOT_READY outcomes)
  /\ crc_mismatch d'
     = wrap32 (crc_mismatch d + occurrences ADP910_STATUS_CRC_MISMATCH outcomes)
  /\ other d' = wrap32 (other d + occurrences ADP910_STATUS_OTHER outcomes)
  /\ last_status d' = last outcomes (last_status d).
Proof.
  induction outcomes as [|x l IH]; intros d Hd.
  - destruct Hd as (A & B & C & D & E & F). cbn [diag_record_all fold_left last].
    unfold occurrences. cbn [filter List.length Z.of_nat]. rewrite !Z.add_0_r.
    repeat split; symmetry; apply wrap32_small; assumption.
  - pose proof (IH (adp910_diag_record d x) (diag_record_in_range d x Hd)) as H.
    cbv zeta in H. unfold diag_record_all in *. cbn [fold_left].
    destruct H as (A & B & C & D & E & F & G).
    rewrite A, B, C, D, E, F, G, !occurrences_cons.
    pose proof (last_cons_default _ l x (last_status d)) as L.
    rewrite L.
    destruct x; cbn [adp910_diag_record ok invalid_argument bus_error not_ready
                     crc_mismatch other last_status adp910_status_eqb];
      rewrite ?wrap32_add_l, ?Z.add_0_l, ?Z.add_assoc; repeat split; reflexivity.
Qed.

(** X1. After a reset, recording a sequence of fewer than 2^32 outcomes
    leaves in each bucket the number of occurrences of its outcome, so the six
    buckets add up to the number of recorded outcomes; the last status is the
    last outcome recorded. *)
Theorem diag_buckets_count_outcomes
    (d0 : adp910_diag_t) (outcomes : list adp910_status_t) :
  Z.of_nat (List.length outcomes) < 2 ^ 32 ->
  let d := diag_record_all (adp910_diag_reset d0) outcomes in
  ok d = occurrences ADP910_STATUS_OK outcomes
  /\ invalid_argument d = occurrences ADP910_STATUS_INVALID_ARGUMENT outcomes
  /\ bus_error d = occurrences ADP910_STATUS_BUS_ERROR outcomes
  /\ not_ready d = occurrences ADP910_STATUS_NOT_READY outcomes
  /\ crc_mismatch d = occurrences ADP910_STATUS_CRC_MISMATCH outcomes
  /\ other d = occurrences ADP910_STATUS_OTHER outcomes
  /\ diag_total d = Z.of_nat (List.length outcomes)
  /\ last_status d = last outcomes ADP910_STATUS_OK.
Proof.
  intros Hlen d.
  assert (Hr : diag_in_range (adp910_diag_reset d0)).
  { unfold diag_in_range, is_uint32. cbn. lia. }
  destruct (diag_record_all_buckets outcomes _ Hr) as (A & B & C & D & E & F & G).
  fold d in A, B, C, D, E, F, G. cbn [adp910_diag_reset ok invalid_argument bus_error
    not_ready crc_mismatch other last_status] in A, B, C, D, E, F, G.
  rewrite !Z.add_0_l in *.
  pose proof (occurrences_total outcomes) as T.
  pose proof (occurrences_nonneg ADP910_STATUS_OK outcomes).
  pose proof (occurrences_nonneg ADP910_STATUS_INVALID_ARGUMENT outcomes).
  pose proof (occurrences_nonneg ADP910_STATUS_BUS_ERROR outcomes).
  pose proof (occurrences_nonneg ADP910_STATUS_NOT_READY outcomes).
  pose proof (occurrences_nonneg ADP910_STATUS_CRC_MISMATCH outcomes).
  pose proof (occurrences_nonneg ADP910_STATUS_OTHER outcomes).
  rewrite wrap32_small in A, B, C, D, E, F by (unfold is_uint32; lia).
  unfold diag_total. rewrite A, B, C, D, E, F.
  repeat split; try reflexivity; try assumption.
Qed.

(** X2. Outcomes with different classifications have different names in the
    log. *)
Theorem status_names_distinct (a b : adp910_status_t) :
  adp910_status_name a = adp910_status_name b -> a = b.
Proof. destruct a, b; cbn; intros H; try reflexivity; discriminate H. Qed.

End DiagnosticsFacts.

(** ** The channel state machine, beyond the claims *)

Section ChannelExtras.
Import Adp910Task SamplingTask.

Variable rate : Z.

Lemma read_keeps_channel_inv (ch : adp910_channel_t) (r : read_result) :
  channel_inv ch -> channel_inv (adp910_channel_read ch r).
Proof.
  unfold channel_inv, ADP910_READ_ERROR_STREAK_TO_REINIT. intros (Hs & Hn).
  destruct (ready ch) eqn:Hr; [|rewrite read_not_ready_noop by exact Hr; rewrite Hr; auto].
  destruct (read_status r) eqn:E.
  - (* success *)
    destruct ch as [i p s d rd nt sm sv ls st]. destruct r as [rs rsn rsm].
    cbn in Hr, E. subst rd rs. unfold adp910_channel_read. cbn. split; [lia | auto].
  - assert (U : uncounted_failure (read_status r) = true) by (rewrite E; reflexivity).
    destruct (read_uncounted ch r Hr U) as (A & B & _). cbv zeta in A, B.
    rewrite A, B. split; [exact Hs | discriminate].
  - destruct (Z.eq_dec (read_error_streak ch) 2) as [H2 | H2].
    + destruct (read_counted_reaching ch r Hr (or_introl E) H2) as (A & B & _).
      cbv zeta in A, B. rewrite A, B. split; [lia | auto].
    + destruct (read_counted_below ch r Hr (or_introl E)) as (A & B & _); [lia|].
      cbv zeta in A, B. rewrite A, B. split; [lia | discriminate].
  - destruct (Z.eq_dec (read_error_streak ch) 2) as [H2 | H2].
    + destruct (read_counted_reaching ch r Hr (or_intror E) H2) as (A & B & _).
      cbv zeta in A, B. rewrite A, B. split; [lia | auto].
    + destruct (read_counted_below ch r Hr (or_intror E)) as (A & B & _); [lia|].
      cbv zeta in A, B. rewrite A, B. split; [lia | discriminate].
  - assert (U : uncounted_failure (read_status r) = true) by (rewrite E; reflexivity).
    destruct (read_uncounted ch r Hr U) as (A & B & _). cbv zeta in A, B.
    rewrite A, B. split; [exact Hs | discriminate].
  - assert (U : uncounted_failure (read_status r) = true) by (rewrite E; reflexivity).
    destruct (read_uncounted ch r Hr U) as (A & B & _). cbv zeta in A, B.
    rewrite A, B. split; [exact Hs | discriminate].
Qed.

Lemma try_init_keeps_channel_inv (ch : adp910_channel_t) (now : Z) (i : init_result) :
  channel_inv ch -> channel_inv (adp910_channel_try_init rate ch now i).
Proof.
  intros Hinv. unfold adp910_channel_try_init.
  destruct (ready ch || (now <? next_init_tick ch)); [exact Hinv|].
  unfold channel_inv, ADP910_READ_ERROR_STREAK_TO_REINIT.
  destruct ch as [a p s d rd nt sm sv ls st]. cbn.
  destruct (adp910_status_eqb (init_status i) ADP910_STATUS_OK); cbn; split; auto; lia.
Qed.

(** What the init attempt leaves of the baseline that the reset wrote. *)
Lemma try_init_sample_frame (ch : adp910_channel_t) (now : Z) (i : init_result) :
  let ch' := adp910_channel_try_init rate ch now i in
  sample ch' = sample ch /\ sample_valid ch' = sample_valid ch
  /\ last_read_status ch' = last_read_status ch.
Proof.
  unfold adp910_channel_try_init.
  destruct (ready ch || (now <? next_init_tick ch)); [auto|].
  destruct ch as [a p s d rd nt sm sv ls st]. cbn.
  destruct (adp910_status_eqb (init_status i) ADP910_STATUS_OK); cbn; auto.
Qed.

Lemma read_ready_sample (ch : adp910_channel_t) (r : read_result) :
  ready ch = true ->
  let ch' := adp910_channel_read ch r in
  sample ch' = read_sample r
  /\ sample_valid ch' = adp910_status_eqb (read_status r) ADP910_STATUS_OK
  /\ last_read_status ch' = read_status r
  /\ diag ch' = adp910_diag_record (diag ch) (read_status r).
Proof.
  intros Hr. destruct ch as [a p s d rd nt sm sv ls st]. destruct r as [rs rsn rsm].
  cbn in Hr. subst rd. unfold adp910_channel_read. cbn.
  destruct rs; cbn; try (splits; reflexivity);
    destruct (st <? 255); cbn;
    match goal with
    | |- context [ADP910_READ_ERROR_STREAK_TO_REINIT <=? ?n] =>
        destruct (ADP910_READ_ERROR_STREAK_TO_REINIT <=? n)
    end; cbn; splits; reflexivity.
Qed.

(** X3. The streak of a channel stays below the re-initialisation threshold,
    and a channel that is not READY has none: every period of the loop keeps
    both, whatever the tick and the driver's answers. The saturation of the
    8-bit streak at 255 is therefore never reached. *)
Theorem cycle_keeps_channel_inv
    (ch : adp910_channel_t) (now : Z) (i : init_result) (r : read_result) :
  channel_inv ch -> channel_inv (adp910_channel_cycle rate ch now i r).
Proof.
  intros Hinv. unfold adp910_channel_cycle.
  apply read_keeps_channel_inv, try_init_keeps_channel_inv.
  destruct Hinv as (Hs & Hn). split; [exact Hs | exact Hn].
Qed.

Lemma cycle_sample_facts
    (ch : adp910_channel_t) (now : Z) (i : init_result) (r : read_result) :
  let ch' := adp910_channel_cycle rate ch now i r in
  sample_valid ch'
  = ready_at_read rate ch now i && adp910_status_eqb (read_status r) ADP910_STATUS_OK
  /\ (ready_at_read rate ch now i = false ->
      sample ch' = adp910_sample_zero /\ last_read_status ch' = ADP910_STATUS_NOT_READY)
  /\ (ready_at_read rate ch now i = true ->
      sample ch' = read_sample r /\ last_read_status ch' = read_status r).
Proof.
  intros ch'. subst ch'. unfold adp910_channel_cycle, ready_at_read.
  set (c := adp910_channel_try_init rate (adp910_channel_reset_cycle ch) now i).
  destruct (try_init_sample_frame (adp910_channel_reset_cycle ch) now i) as (Fs & Fv & Fl).
  fold c in Fs, Fv, Fl.
  change (sample (adp910_channel_reset_cycle ch)) with adp910_sample_zero in Fs.
  change (sample_valid (adp910_channel_reset_cycle ch)) with false in Fv.
  change (last_read_status (adp910_channel_reset_cycle ch))
    with ADP910_STATUS_NOT_READY in Fl.
  destruct (ready c) eqn:Hr.
  - destruct (read_ready_sample c r Hr) as (A & B & C & _). cbv zeta in A, B, C.
    rewrite A, B, C. cbn [andb]. splits; auto; discriminate.
  - rewrite read_not_ready_noop by exact Hr. rewrite Fs, Fv, Fl. cbn [andb].
    splits; auto; discriminate.
Qed.

(** X4. After a period the sample of a channel is marked valid exactly when
    the channel was READY for the read and the read succeeded. A channel that
    was not read holds the zeroed sample with last status not-ready; a channel
    that was read holds what the driver left and the status it returned. *)
Theorem cycle_sample_valid_iff_read_ok
    (ch : adp910_channel_t) (now : Z) (i : init_result) (r : read_result) :
  let ch' := adp910_channel_cycle rate ch now i r in
  sample_valid ch'
  = ready_at_read rate ch now i && adp910_status_eqb (read_status r) ADP910_STATUS_OK
  /\ (ready_at_read rate ch now i = false ->
      sample ch' = adp910_sample_zero /\ last_read_status ch' = ADP910_STATUS_NOT_READY)
  /\ (ready_at_read rate ch now i = true ->
      sample ch' = read_sample r /\ last_read_status ch' = read_status r).
Proof. exact (cycle_sample_facts ch now i r). Qed.

(** X5. A failed initialisation at tick [now] sets the deadline to
    [now + pdMS_TO_TICKS(1000)] (modulo 2^32) and leaves the channel
    NOT_READY; until a tick reaches that deadline a period does nothing but
    the reset: the driver's answers are not looked at and the diagnostics do
    not move. *)
Theorem failed_init_backs_off
    (ch : adp910_channel_t) (now : Z) (i : init_result) :
  ready ch = false ->
  next_init_tick ch <= now ->
  init_status i <> ADP910_STATUS_OK ->
  let ch' := adp910_channel_try_init rate ch now i in
  ready ch' = false
  /\ next_init_tick ch'
     = wrap32 (now + FreeRTOS.pdMS_TO_TICKS rate ADP910_INIT_RETRY_BACKOFF_MS)
  /\ diag ch' = adp910_diag_record (diag ch) (init_status i)
  /\ forall (t : Z) (i' : init_result) (r' : read_result),
       t < next_init_tick ch' ->
       adp910_channel_cycle rate ch' t i' r' = adp910_channel_reset_cycle ch'.
Proof.
  intros Hr Hd Hi ch'.
  assert (Hne : adp910_status_eqb (init_status i) ADP910_STATUS_OK = false).
  { destruct (adp910_status_eqb (init_status i) ADP910_STATUS_OK) eqn:E; [|reflexivity].
    apply adp910_status_eqb_eq in E. contradiction. }
  assert (E : ch' = set_next_init_tick
                      (wrap32 (now + FreeRTOS.pdMS_TO_TICKS rate ADP910_INIT_RETRY_BACKOFF_MS))
                      (set_read_error_streak 0
                         (set_diag (adp910_diag_record (diag ch) (init_status i))
                            (set_ready false (set_sensor (init_sensor i) ch))))).
  { subst ch'. unfold adp910_channel_try_init. rewrite Hr.
    replace (now <? next_init_tick ch) with false by (symmetry; apply Z.ltb_ge; exact Hd).
    destruct ch as [a p s d rd nt sm sv ls st]. cbn. rewrite Hne. reflexivity. }
  rewrite E. cbn [ready next_init_tick diag set_next_init_tick set_read_error_streak
                  set_diag set_ready set_sensor].
  splits; try reflexivity.
  intros t i' r' Ht. unfold adp910_channel_cycle.
  set (c := adp910_channel_reset_cycle _).
  assert (Hc : ready c = false) by reflexivity.
  assert (Hn : next_init_tick c
               = wrap32 (now + FreeRTOS.pdMS_TO_TICKS rate ADP910_INIT_RETRY_BACKOFF_MS))
    by reflexivity.
  assert (Ei : adp910_channel_try_init rate c t i' = c).
  { unfold adp910_channel_try_init. rewrite Hc, Hn.
    apply Z.ltb_lt in Ht. rewrite Ht. reflexivity. }
  rewrite Ei. apply read_not_ready_noop. exact Hc.
Qed.

Lemma read_run_not_ready (answers : list read_result) (ch : adp910_channel_t) :
  ready ch = false -> read_run ch answers = ch.
Proof.
  induction answers as [|r rest IH]; intros Hr; [reflexivity|].
  cbn [read_run]. rewrite read_not_ready_noop by exact Hr. apply IH. exact Hr.
Qed.

(** X6. Bus errors and not-ready outcomes count alike: a READY channel is
    still READY after a run of such reads exactly when its streak plus the
    length of the run stays below 3; the streak has then grown by that
    length, and otherwise the channel is NOT_READY with streak 0. *)
Theorem counted_failures_run
    (answers : list read_result) (ch : adp910_channel_t) :
  ready ch = true ->
  channel_inv ch ->
  Forall (fun r => counted_failure (read_status r) = true) answers ->
  let n := read_error_streak ch + Z.of_nat (List.length answers) in
  let ch' := read_run ch answers in
  ready ch' = (n <? ADP910_READ_ERROR_STREAK_TO_REINIT)
  /\ read_error_streak ch' = (if n <? ADP910_READ_ERROR_STREAK_TO_REINIT then n else 0)
  /\ next_init_tick ch' = next_init_tick ch.
Proof.
  unfold ADP910_READ_ERROR_STREAK_TO_REINIT.
  cbv zeta. revert ch. induction answers as [|r rest IH]; intros ch Hr (Hs & Hn) Hall.
  - cbn [read_run List.length Z.of_nat]. rewrite Z.add_0_r.
    unfold ADP910_READ_ERROR_STREAK_TO_REINIT in Hs.
    replace (read_error_streak ch <? 3) with true by (symmetry; apply Z.ltb_lt; lia).
    auto.
  - inversion Hall as [|r0 rest0 Hc Hrest]; subst r0 rest0.
    unfold counted_failure in Hc. apply orb_true_iff in Hc.
    rewrite !adp910_status_eqb_eq in Hc.
    unfold ADP910_READ_ERROR_STREAK_TO_REINIT in Hs.
    cbn [read_run List.length]. rewrite Nat2Z.inj_succ.
    destruct (Z.eq_dec (read_error_streak ch) 2) as [H2 | H2].
    + destruct (read_counted_reaching ch r Hr Hc H2) as (A & B & C & _).
      cbv zeta in A, B, C. rewrite read_run_not_ready by exact A.
      rewrite A, B, C.
      replace (read_error_streak ch + Z.succ (Z.of_nat (List.length rest)) <? 3)
        with false by (symmetry; apply Z.ltb_ge; lia).
      auto.
    + destruct (read_counted_below ch r Hr Hc) as (A & B & C); [lia|].
      cbv zeta in A, B, C.
      assert (Hinv : channel_inv (adp910_channel_read ch r)).
      { split; [unfold ADP910_READ_ERROR_STREAK_TO_REINIT; lia | rewrite A; discriminate]. }
      destruct (IH _ A Hinv Hrest) as (P & Q & R).
      rewrite P, Q, R, B, C.
      replace (read_error_streak ch + 1 + Z.of_nat (List.length rest))
        with (read_error_streak ch + Z.succ (Z.of_nat (List.length rest))) by lia.
      auto.
Qed.

End ChannelExtras.

(** ** binary32 facts the service relies on *)

Section FloatExtras.
Import SamplingTask.

Lemma sub_diag (x : float32) : is_finite x = true -> sub x x = zero.
Proof.
  destruct x as [s | s | | s m e]; cbn [is_finite]; intros H; try discriminate H.
  - destruct s; reflexivity.
  - unfold sub, SFsub. rewrite Z.sub_diag. reflexivity.
Qed.

(** X7. [blower_absf] never returns a negative number: its result compares
    [>= 0.0f] for every input but NaN, which it returns as NaN; applying it
    twice changes nothing. *)
Theorem blower_absf_nonnegative (v : float32) :
  (is_nan v = false -> ge (blower_absf v) zero = true)
  /\ (is_nan v = true -> is_nan (blower_absf v) = true)
  /\ blower_absf (blower_absf v) = blower_absf v.
Proof.
  destruct v as [s | s | | s m e]; try destruct s;
    splits; intros; try discriminate; reflexivity.
Qed.

(** X8. With the two linear models and gains that are numbers, a fan
    pressure of [0.0] gives a fan speed of [0.0], and that speed gives a
    leakage of zero for every envelope pressure that is a number. *)
Theorem linear_models_at_zero_fan_pressure
    (c1 : option blower_linear_fan_speed_model_config_t)
    (c2 : option blower_linear_air_leakage_model_config_t) (envelope : float32) :
  fan_gain_finite c1 ->
  leakage_gain_finite c2 ->
  is_finite envelope = true ->
  blower_linear_fan_speed_model zero c1 = zero
  /\ is_zero (blower_linear_air_leakage_model
                (blower_linear_fan_speed_model zero c1) envelope c2) = true.
Proof.
  intros H1 H2 He.
  assert (S : blower_linear_fan_speed_model zero c1 = zero).
  { destruct c1 as [[g]|]; [|reflexivity]. cbn in H1.
    destruct g as [s | s | | s m e]; try discriminate H1; try destruct s; reflexivity. }
  rewrite S. split; [reflexivity|].
  destruct envelope as [se | se | | se me ee]; try discriminate He;
    destruct c2 as [[g]|]; cbn in H2;
    try (destruct g as [s | s | | s m e]; try discriminate H2; try destruct s);
    try destruct se; reflexivity.
Qed.

End FloatExtras.

(** ** The metrics service, beyond the claims *)

Section ServiceExtras.
Import SamplingTask.

Variable rate : Z.

(** The equation of the calibration block that applies, one goal per way
    through it, for an [update] on [g]. *)
Ltac calibration_block g now fs fv es ev :=
  destruct (calibration_cases rate g now) as [Hact | Hact Hel | Hact Hel];
  [ rewrite (update_calibration_inactive rate now fs fv es ev)
      by (rewrite roles_cal; exact Hact)
  | rewrite (update_calibration_window rate now fs fv es ev)
      by (rewrite roles_cal; assumption)
  | let F := fresh "F" in
    pose proof (update_calibration_finalize rate now fs fv es ev
                  (update_envelope_role es ev (update_fan_role fs fv g))) as F;
    rewrite !roles_cal in F; specialize (F Hact Hel); cbv zeta in F; rewrite F; clear F ];
  rewrite ?roles_cal.

(** X9. On an initialised service, after every [update] that runs to its end
    and every [capture_zero_offsets] that captures, the published fan speed
    is the installed fan-speed model applied to the published fan pressure,
    and the published leakage is the installed leakage model applied to that
    speed and the published envelope pressure; the calls that follow, short of
    an initialisation, keep it so. *)
Theorem derived_metrics_consistent
    (g : blower_metrics_service_context_t) (c : service_call) :
  service_ready g ->
  is_initialize c = false ->
  exists g' n,
    service_step rate g c = Returns (g', n)
    /\ (n = 1%nat -> derived_consistent g')
    /\ (derived_consistent g -> derived_consistent g').
Proof.
  intros Hr Hc. pose proof Hr as (Hi & Hm & Hs).
  destruct (models_supplied_inv _ Hs) as (f & a & Hf & Hal).
  destruct c as [m co | co tk now st fs fv es ev | o tk | tk st | tk now];
    try discriminate Hc; cbn [service_step].
  - (* update *)
    destruct tk.
    + pose proof (update_commit_eq rate g co now st fs fv es ev f a Hi Hm Hf Hal) as E.
      cbv zeta in E. rewrite E. clear E.
      eexists _, _. split; [reflexivity|].
      split; intros _; exists f, a; fields; auto.
    + rewrite update_ready_eq by assumption.
      eexists _, _. split; [reflexivity|]. split; [discriminate | auto].
  - (* get_snapshot *)
    eexists _, _. split; [reflexivity|]. split; [discriminate | auto].
  - (* capture_zero_offsets *)
    pose proof (capture_eq g tk st f a Hi Hm Hf Hal) as E. cbv zeta in E. rewrite E. clear E.
    destruct (tk && (fan_capturable g || envelope_capturable g)).
    + eexists _, _. split; [reflexivity|].
      split; intros _; exists f, a; fields; auto.
    + eexists _, _. split; [reflexivity|]. split; [discriminate | auto].
  - (* begin_calibration *)
    eexists _, _. split; [reflexivity|]. split; [discriminate|].
    rewrite begin_calibration_eq.
    destruct (mutex g && is_initialized g && tk); [|auto].
    intros (f' & a' & Hf' & Ha' & D1 & D2). exists f', a'. fields. auto.
Qed.

Lemma roles_snapshot_calibration (fs : option adp910_sample_t) (fv : bool)
    (es : option adp910_sample_t) (ev : bool) (g : blower_metrics_service_context_t) :
  let g' := update_envelope_role es ev (update_fan_role fs fv g) in
  calibration_state (snapshot g') = calibration_state (snapshot g)
  /\ calibration_progress_pct (snapshot g') = calibration_progress_pct (snapshot g)
  /\ calibration_fan_offset (snapshot g') = calibration_fan_offset (snapshot g)
  /\ calibration_envelope_offset (snapshot g') = calibration_envelope_offset (snapshot g)
  /\ fan_pressure_offset_pa g' = fan_pressure_offset_pa g
  /\ envelope_pressure_offset_pa g' = envelope_pressure_offset_pa g.
Proof.
  cbv zeta. rewrite update_envelope_role_eq, update_fan_role_eq.
  destruct (sample_given ev es), (sample_given fv fs); fields; splits; reflexivity.
Qed.

Lemma progress_in_window_range (E : Z) :
  0 <= E < CALIBRATION_DURATION_MS ->
  0 <= wrap8 (let pct := wrap32 (E * 100) / CALIBRATION_DURATION_MS in
              if 99 <? pct then 99 else pct) <= 99.
Proof.
  intros H. rewrite progress_pct_value by exact H.
  unfold CALIBRATION_DURATION_MS in H.
  assert (0 <= E * 100 / 10000) by (apply Z.div_pos; lia). lia.
Qed.

Lemma update_keeps_calibration_consistent (g : blower_metrics_service_context_t)
    (co tk : bool) (now st : Z)
    (fs : option adp910_sample_t) (fv : bool) (es : option adp910_sample_t) (ev : bool) :
  service_ready g -> calibration_consistent g ->
  exists g',
    blower_metrics_service_update rate g co tk now st fs fv es ev = Returns (g', tk)
    /\ calibration_consistent g'.
Proof.
  intros (Hi & Hm & Hs) Hcons.
  destruct tk; [| rewrite update_ready_eq by assumption; exists g; auto].
  destruct (models_supplied_inv _ Hs) as (f & a & Hf & Hal).
  pose proof (update_commit_eq rate g co now st fs fv es ev f a Hi Hm Hf Hal) as E.
  cbv zeta in E. rewrite E. clear E.
  eexists. split; [reflexivity|].
  unfold calibration_consistent in *. fields.
  destruct (roles_snapshot_calibration fs fv es ev g) as (Rs & Rp & _).
  calibration_block g now fs fv es ev; fields.
  - rewrite Rs, Rp, Hact. rewrite Hact in Hcons. exact Hcons.
  - split; [reflexivity|]. apply progress_in_window_range.
    split; [apply calibration_elapsed_ms_range | exact Hel].
  - split; reflexivity.
Qed.

Lemma step_keeps_calibration_consistent (g : blower_metrics_service_context_t)
    (c : service_call) :
  service_inv g -> calibration_consistent g ->
  exists g' n, service_step rate g c = Returns (g', n)
               /\ service_inv g' /\ calibration_consistent g'.
Proof.
  intros Hinv Hcons.
  destruct (service_step_inv rate g c Hinv) as (g' & n & E & Hinv' & _).
  exists g', n. split; [exact E|]. split; [exact Hinv'|].
  assert (Hzero : forall m : option blower_metrics_models_t,
            calibration_consistent
              (mk_context true (models_to_install m) blower_metrics_snapshot_zero
                 zero zero zero zero false false true calibration_accumulator_zero)).
  { intros m. split; reflexivity. }
  destruct c as [m co | co tk now st fs fv es ev | o tk | tk st | tk now];
    cbn [service_step] in E.
  - (* initialize *)
    injection E as <- _. rewrite initialize_eq.
    destruct (mutex g || co); [apply (Hzero m) | exact Hcons].
  - (* update *)
    destruct Hinv as (_ & [Hr | Hstatic]).
    + destruct (update_keeps_calibration_consistent g co tk now st fs fv es ev Hr Hcons)
        as (g1 & E1 & H1).
      rewrite E1 in E. injection E as <- _. exact H1.
    + subst g. rewrite update_lazy_eq in E by reflexivity.
      cbn [mutex g_service_context orb] in E. destruct co.
      * destruct (initialize_ready g_service_context None true eq_refl) as (Hr1 & _).
        assert (Hc1 : calibration_consistent
                        (blower_metrics_service_initialize g_service_context None true)).
        { rewrite initialize_eq. apply (Hzero None). }
        destruct (update_keeps_calibration_consistent _ true tk now st fs fv es ev Hr1 Hc1)
          as (g1 & E1 & H1).
        rewrite E1 in E. injection E as <- _. exact H1.
      * injection E as <- _. exact Hcons.
  - (* get_snapshot *)
    injection E as <- _. exact Hcons.
  - (* capture_zero_offsets *)
    destruct Hinv as (_ & [Hr | Hstatic]).
    + pose proof Hr as (Hi & Hm & Hs).
      destruct (models_supplied_inv _ Hs) as (f & a & Hf & Hal).
      pose proof (capture_eq g tk st f a Hi Hm Hf Hal) as E1. cbv zeta in E1.
      rewrite E1 in E. clear E1.
      destruct (tk && (fan_capturable g || envelope_capturable g));
        injection E as <- _; [|exact Hcons].
      unfold calibration_consistent in *. fields. exact Hcons.
    + subst g. injection E as <- _. exact Hcons.
  - (* begin_calibration *)
    injection E as <- _. rewrite begin_calibration_eq.
    destruct (mutex g && is_initialized g && tk); [|exact Hcons].
    unfold calibration_consistent. fields. split; [reflexivity | lia].
Qed.

(** X10. In every context that calls can produce from the static storage,
    the published calibration state and progress agree with the accumulator:
    Sampling exactly while it is active, with a progress between 0 and 99;
    Done with progress 100 and Idle with progress 0, both with the
    accumulator inactive. *)
Theorem reachable_calibration_consistent (g : blower_metrics_service_context_t) :
  reachable rate g -> calibration_consistent g.
Proof.
  intros H.
  assert (J : service_inv g /\ calibration_consistent g).
  { induction H as [|g g' c n _ IH Hstep].
    - split; [split; [cbn; unfold is_uint32; lia | right; reflexivity]|].
      split; reflexivity.
    - destruct IH as (Hinv & Hcons).
      destruct (step_keeps_calibration_consistent g c Hinv Hcons)
        as (g1 & n1 & E1 & Hinv1 & Hcons1).
      rewrite E1 in Hstep. injection Hstep as <- _. auto. }
  exact (proj2 J).
Qed.

(** X11. The calibration offsets that the snapshot publishes are written by
    the [update] that closes a calibration window, which sets them to the
    service's offsets of that moment; no other call short of an
    initialisation writes them, so a manual capture or the start of a window
    changes the offsets in use and leaves the published ones behind. *)
Theorem published_offsets_follow_finalization
    (g : blower_metrics_service_context_t) (c : service_call) :
  service_ready g ->
  is_initialize c = false ->
  exists g' n,
    service_step rate g c = Returns (g', n)
    /\ (closes_window rate g c = true -> published_offsets g' = offsets g')
    /\ (closes_window rate g c = false -> published_offsets g' = published_offsets g).
Proof.
  intros Hr Hc. pose proof Hr as (Hi & Hm & Hs).
  destruct (models_supplied_inv _ Hs) as (f & a & Hf & Hal).
  destruct c as [m co | co tk now st fs fv es ev | o tk | tk st | tk now];
    try discriminate Hc; cbn [service_step closes_window].
  - (* update *)
    destruct tk; cbn [andb].
    + pose proof (update_commit_eq rate g co now st fs fv es ev f a Hi Hm Hf Hal) as E.
      cbv zeta in E. rewrite E. clear E.
      eexists _, _. split; [reflexivity|].
      unfold published_offsets, offsets, finalizes. fields.
      destruct (roles_snapshot_calibration fs fv es ev g) as (_ & _ & Pf & Pe & _).
      calibration_block g now fs fv es ev; fields; rewrite Hact; cbn [andb].
      * split; [discriminate | intros _; rewrite Pf, Pe; reflexivity].
      * replace (CALIBRATION_DURATION_MS
                 <=? calibration_elapsed_ms rate (start_tick (cal g)) now)
          with false by (symmetry; apply Z.leb_gt; exact Hel).
        split; [discriminate | intros _; rewrite Pf, Pe; reflexivity].
      * apply Z.leb_le in Hel. rewrite Hel.
        split; [intros _; reflexivity | discriminate].
    + rewrite update_ready_eq by assumption.
      eexists _, _. split; [reflexivity|]. split; [discriminate | reflexivity].
  - eexists _, _. split; [reflexivity|]. split; [discriminate | reflexivity].
  - pose proof (capture_eq g tk st f a Hi Hm Hf Hal) as E. cbv zeta in E. rewrite E. clear E.
    destruct (tk && (fan_capturable g || envelope_capturable g));
      eexists _, _; (split; [reflexivity|]); (split; [discriminate | reflexivity]).
  - eexists _, _. split; [reflexivity|]. split; [discriminate|]. intros _.
    rewrite begin_calibration_eq.
    destruct (mutex g && is_initialized g && tk); reflexivity.
Qed.

(** An [update] that does not close a window, seen from the fan role. *)
Lemma update_valid_fan_role (g : blower_metrics_service_context_t) (co : bool) (now st : Z)
    (s : adp910_sample_t) (es : option adp910_sample_t) (ev : bool) :
  service_ready g ->
  finalizes rate g now = false ->
  exists g',
    blower_metrics_service_update rate g co true now st (Some s) true es ev
    = Returns (g', true)
    /\ fan_sample_valid (snapshot g') = true
    /\ fan_pressure_pa (snapshot g')
       = sub (corrected_pressure_pa s) (fan_pressure_offset_pa g)
    /\ fan_temperature_c (snapshot g') = temperature_c s
    /\ last_fan_pressure_raw_pa g' = corrected_pressure_pa s
    /\ has_last_fan_pressure_raw g' = true
    /\ fan_pressure_offset_pa g' = fan_pressure_offset_pa g
    /\ last_update_tick (snapshot g') = wrap32 st.
Proof.
  intros (Hi & Hm & Hs) Hfin.
  destruct (models_supplied_inv _ Hs) as (f & a & Hf & Hal).
  pose proof (update_commit_eq rate g co now st (Some s) true es ev f a Hi Hm Hf Hal) as E.
  cbv zeta in E. rewrite E. clear E. unfold finalizes in Hfin.
  calibration_block g now (Some s) true es ev;
    try (rewrite Hact in Hfin; apply Z.leb_le in Hel; rewrite Hel in Hfin; discriminate Hfin);
    rewrite update_envelope_role_eq, update_fan_role_eq; cbn [sample_given];
    destruct (sample_given ev es);
    (eexists; split; [reflexivity|]); fields; splits; reflexivity.
Qed.

Lemma update_valid_envelope_role (g : blower_metrics_service_context_t) (co : bool)
    (now st : Z) (fs : option adp910_sample_t) (fv : bool) (s : adp910_sample_t) :
  service_ready g ->
  finalizes rate g now = false ->
  exists g',
    blower_metrics_service_update rate g co true now st fs fv (Some s) true
    = Returns (g', true)
    /\ envelope_sample_valid (snapshot g') = true
    /\ envelope_pressure_pa (snapshot g')
       = sub (corrected_pressure_pa s) (envelope_pressure_offset_pa g)
    /\ envelope_temperature_c (snapshot g') = temperature_c s
    /\ last_envelope_pressure_raw_pa g' = corrected_pressure_pa s
    /\ has_last_envelope_pressure_raw g' = true
    /\ envelope_pressure_offset_pa g' = envelope_pressure_offset_pa g
    /\ last_update_tick (snapshot g') = wrap32 st.
Proof.
  intros (Hi & Hm & Hs) Hfin.
  destruct (models_supplied_inv _ Hs) as (f & a & Hf & Hal).
  pose proof (update_commit_eq rate g co now st fs fv (Some s) true f a Hi Hm Hf Hal) as E.
  cbv zeta in E. rewrite E. clear E. unfold finalizes in Hfin.
  calibration_block g now fs fv (Some s) true;
    try (rewrite Hact in Hfin; apply Z.leb_le in Hel; rewrite Hel in Hfin; discriminate Hfin);
    rewrite update_envelope_role_eq, update_fan_role_eq; cbn [sample_given];
    destruct (sample_given fv fs);
    (eexists; split; [reflexivity|]); fields; splits; reflexivity.
Qed.

(** X12. An [update] on an initialised service that takes the lock and does
    not close a calibration window publishes, for a role with a valid sample,
    the sample's pressure minus the role's current offset and the sample's
    temperature, marks the role valid, caches the raw pressure, leaves the
    offset as it was and stamps the snapshot with the tick. *)
Theorem update_publishes_corrected_pressure
    (g : blower_metrics_service_context_t) (co : bool) (now st : Z)
    (fan envelope : adp910_sample_t) :
  service_ready g ->
  finalizes rate g now = false ->
  exists g',
    blower_metrics_service_update rate g co true now st (Some fan) true (Some envelope) true
    = Returns (g', true)
    /\ fan_sample_valid (snapshot g') = true
    /\ envelope_sample_valid (snapshot g') = true
    /\ fan_pressure_pa (snapshot g')
       = sub (corrected_pressure_pa fan) (fan_pressure_offset_pa g)
    /\ envelope_pressure_pa (snapshot g')
       = sub (corrected_pressure_pa envelope) (envelope_pressure_offset_pa g)
    /\ fan_temperature_c (snapshot g') = temperature_c fan
    /\ envelope_temperature_c (snapshot g') = temperature_c envelope
    /\ last_fan_pressure_raw_pa g' = corrected_pressure_pa fan
    /\ last_envelope_pressure_raw_pa g' = corrected_pressure_pa envelope
    /\ offsets g' = offsets g
    /\ last_update_tick (snapshot g') = wrap32 st.
Proof.
  intros Hr Hfin.
  destruct (update_valid_fan_role g co now st fan (Some envelope) true Hr Hfin)
    as (g1 & E1 & A1 & A2 & A3 & A4 & _ & A6 & A7).
  destruct (update_valid_envelope_role g co now st (Some fan) true envelope Hr Hfin)
    as (g2 & E2 & B1 & B2 & B3 & B4 & _ & B6 & _).
  rewrite E1 in E2. injection E2 as <-.
  exists g1. unfold offsets. rewrite A6, B6. splits; auto.
Qed.

(** A capture seen from one role that it captures. *)
Lemma capture_captures_fan (g : blower_metrics_service_context_t) (st : Z) :
  service_ready g ->
  fan_capturable g = true ->
  exists g',
    blower_metrics_service_capture_zero_offsets g true st = Returns (g', true)
    /\ service_ready g' /\ cal g' = cal g
    /\ fan_pressure_offset_pa g' = last_fan_pressure_raw_pa g
    /\ fan_pressure_pa (snapshot g') = zero.
Proof.
  intros (Hi & Hm & Hs) Hcap.
  destruct (models_supplied_inv _ Hs) as (f & a & Hf & Hal).
  pose proof (capture_eq g true st f a Hi Hm Hf Hal) as E. cbv zeta in E.
  rewrite Hcap in E. cbn [andb orb] in E. rewrite E.
  eexists. split; [reflexivity|]. unfold service_ready. fields. splits; auto.
Qed.

Lemma capture_captures_envelope (g : blower_metrics_service_context_t) (st : Z) :
  service_ready g ->
  envelope_capturable g = true ->
  exists g',
    blower_metrics_service_capture_zero_offsets g true st = Returns (g', true)
    /\ service_ready g' /\ cal g' = cal g
    /\ envelope_pressure_offset_pa g' = last_envelope_pressure_raw_pa g
    /\ envelope_pressure_pa (snapshot g') = zero.
Proof.
  intros (Hi & Hm & Hs) Hcap.
  destruct (models_supplied_inv _ Hs) as (f & a & Hf & Hal).
  pose proof (capture_eq g true st f a Hi Hm Hf Hal) as E. cbv zeta in E.
  rewrite Hcap, orb_true_r in E. cbn [andb] in E. rewrite E.
  eexists. split; [reflexivity|]. unfold service_ready. fields. splits; auto.
Qed.

(** X13. After a manual capture of a role whose cached raw pressure is a
    number, an [update] that brings the same raw pressure again (and does
    not close a calibration window) publishes [0.0] for that role: the
    captured offset is what the next cycles subtract. *)
Theorem captured_offset_zeroes_same_reading
    (g : blower_metrics_service_context_t) (co : bool) (st now st' : Z)
    (s : adp910_sample_t) (other : option adp910_sample_t) (other_valid : bool) :
  service_ready g ->
  finalizes rate g now = false ->
  (fan_capturable g = true ->
   is_finite (last_fan_pressure_raw_pa g) = true ->
   corrected_pressure_pa s = last_fan_pressure_raw_pa g ->
   exists g' g'',
     blower_metrics_service_capture_zero_offsets g true st = Returns (g', true)
     /\ blower_metrics_service_update rate g' co true now st' (Some s) true other other_valid
        = Returns (g'', true)
     /\ fan_pressure_pa (snapshot g'') = zero)
  /\ (envelope_capturable g = true ->
      is_finite (last_envelope_pressure_raw_pa g) = true ->
      corrected_pressure_pa s = last_envelope_pressure_raw_pa g ->
      exists g' g'',
        blower_metrics_service_capture_zero_offsets g true st = Returns (g', true)
        /\ blower_metrics_service_update rate g' co true now st' other other_valid (Some s) true
           = Returns (g'', true)
        /\ envelope_pressure_pa (snapshot g'') = zero).
Proof.
  intros Hr Hfin. split; intros Hcap Hnum Hsame.
  - destruct (capture_captures_fan g st Hr Hcap) as (g' & E & Hr' & Hc' & Ho & _).
    assert (Hfin' : finalizes rate g' now = false).
    { unfold finalizes in *. rewrite Hc'. exact Hfin. }
    destruct (update_valid_fan_role g' co now st' s other other_valid Hr' Hfin')
      as (g'' & E' & _ & Hp & _).
    exists g', g''. split; [exact E|]. split; [exact E'|].
    rewrite Hp, Ho, Hsame. apply sub_diag. exact Hnum.
  - destruct (capture_captures_envelope g st Hr Hcap) as (g' & E & Hr' & Hc' & Ho & _).
    assert (Hfin' : finalizes rate g' now = false).
    { unfold finalizes in *. rewrite Hc'. exact Hfin. }
    destruct (update_valid_envelope_role g' co now st' other other_valid s Hr' Hfin')
      as (g'' & E' & _ & Hp & _).
    exists g', g''. split; [exact E|]. split; [exact E'|].
    rewrite Hp, Ho, Hsame. apply sub_diag. exact Hnum.
Qed.

(** X14. A capture decides for each role on its own: when only one role is
    capturable the call captures it, and the other role keeps its offset and
    its published pressure. *)
Theorem capture_is_per_role (g : blower_metrics_service_context_t) (st : Z) :
  service_ready g ->
  (fan_capturable g = true -> envelope_capturable g = false ->
   exists g',
     blower_metrics_service_capture_zero_offsets g true st = Returns (g', true)
     /\ fan_pressure_offset_pa g' = last_fan_pressure_raw_pa g
     /\ fan_pressure_pa (snapshot g') = zero
     /\ envelope_pressure_offset_pa g' = envelope_pressure_offset_pa g
     /\ envelope_pressure_pa (snapshot g') = envelope_pressure_pa (snapshot g))
  /\ (fan_capturable g = false -> envelope_capturable g = true ->
      exists g',
        blower_metrics_service_capture_zero_offsets g true st = Returns (g', true)
        /\ envelope_pressure_offset_pa g' = last_envelope_pressure_raw_pa g
        /\ envelope_pressure_pa (snapshot g') = zero
        /\ fan_pressure_offset_pa g' = fan_pressure_offset_pa g
        /\ fan_pressure_pa (snapshot g') = fan_pressure_pa (snapshot g)).
Proof.
  intros (Hi & Hm & Hs).
  destruct (models_supplied_inv _ Hs) as (f & a & Hf & Hal).
  pose proof (capture_eq g true st f a Hi Hm Hf Hal) as E. cbv zeta in E.
  split; intros H1 H2; rewrite H1, H2 in E; cbn [andb orb] in E; rewrite E;
    eexists; (split; [reflexivity|]); fields; splits; reflexivity.
Qed.

(** X15. The first [update] on a service that no call has initialised
    initialises it by itself when the lock can be created: it installs the
    built-in linear models without configuration, runs to its end and
    publishes sequence number 1. When the lock cannot be created the call
    changes nothing, and [get_snapshot] keeps failing. *)
Theorem update_self_initializes
    (tk o : bool) (now st : Z)
    (fs : option adp910_sample_t) (fv : bool) (es : option adp910_sample_t) (ev : bool) :
  (exists g',
     blower_metrics_service_update rate g_service_context true true now st fs fv es ev
     = Returns (g', true)
     /\ service_ready g'
     /\ models g' = blower_metrics_service_apply_default_models (models g_service_context)
     /\ update_sequence (snapshot g') = 1)
  /\ blower_metrics_service_update rate g_service_context false tk now st fs fv es ev
     = Returns (g_service_context, false)
  /\ blower_metrics_service_get_snapshot g_service_context o tk = None.
Proof.
  split; [|split].
  - rewrite update_lazy_eq by reflexivity. cbn [mutex g_service_context orb].
    destruct (initialize_ready g_service_context None true eq_refl) as (Hr1 & Hz1).
    pose proof Hr1 as (Hi & Hm & Hs).
    destruct (models_supplied_inv _ Hs) as (f & a & Hf & Hal).
    pose proof (update_commit_eq rate _ true now st fs fv es ev f a Hi Hm Hf Hal) as E.
    cbv zeta in E. rewrite E. clear E.
    eexists. split; [reflexivity|]. unfold service_ready. fields.
    rewrite Hz1. splits; auto.
  - rewrite update_lazy_eq by reflexivity. reflexivity.
  - unfold blower_metrics_service_get_snapshot. cbn. destruct o; reflexivity.
Qed.

(** Calls other than [update] leave an open window as it is. *)
Lemma reader_step_keeps_window (g : blower_metrics_service_context_t) (c : service_call) :
  service_ready g ->
  is_reader_call c = true ->
  exists g' n,
    service_step rate g c = Returns (g', n)
    /\ service_ready g' /\ cal g' = cal g
    /\ calibration_state (snapshot g') = calibration_state (snapshot g)
    /\ calibration_progress_pct (snapshot g') = calibration_progress_pct (snapshot g).
Proof.
  intros Hr Hc. pose proof Hr as (Hi & Hm & Hs).
  destruct c as [m co | co tk now st fs fv es ev | o tk | tk st | tk now];
    try discriminate Hc; cbn [service_step].
  - eexists _, _. split; [reflexivity|]. auto.
  - destruct (models_supplied_inv _ Hs) as (f & a & Hf & Hal).
    pose proof (capture_eq g tk st f a Hi Hm Hf Hal) as E. cbv zeta in E. rewrite E. clear E.
    destruct (tk && (fan_capturable g || envelope_capturable g));
      eexists _, _; (split; [reflexivity|]); unfold service_ready; fields; auto.
Qed.

(** X16. Calibration advances on ingestion only: after [begin_calibration],
    any number of [get_snapshot] and [capture_zero_offsets] calls, whatever
    the time they take, leave the accumulator active and empty and the
    snapshot at Sampling with progress 0. *)
Theorem readers_keep_window_open
    (calls : list service_call) (g : blower_metrics_service_context_t) (T : Z) :
  service_ready g ->
  forallb is_reader_call calls = true ->
  exists g1 n,
    service_run rate (blower_metrics_service_begin_calibration g true T) calls
    = Returns (g1, n)
    /\ cal g1 = mk_cal true T zero zero 0 0
    /\ calibration_state (snapshot g1) = BLOWER_CAL_SAMPLING
    /\ calibration_progress_pct (snapshot g1) = 0.
Proof.
  intros Hr Hcalls.
  assert (Hrun : forall g0,
            service_ready g0 ->
            exists g1 n,
              service_run rate g0 calls = Returns (g1, n)
              /\ cal g1 = cal g0
              /\ calibration_state (snapshot g1) = calibration_state (snapshot g0)
              /\ calibration_progress_pct (snapshot g1)
                 = calibration_progress_pct (snapshot g0)).
  { induction calls as [|c rest IH]; intros g0 Hr0.
    - exists g0, 0%nat. auto.
    - cbn [forallb] in Hcalls. apply andb_true_iff in Hcalls.
      destruct Hcalls as (Hc & Hrest).
      destruct (reader_step_keeps_window g0 c Hr0 Hc)
        as (g1 & n1 & E1 & Hr1 & C1 & S1 & P1).
      destruct (IH Hrest g1 Hr1) as (g2 & n2 & E2 & C2 & S2 & P2).
      exists g2, (n1 + n2)%nat. cbn [service_run]. rewrite E1, E2.
      split; [reflexivity|]. rewrite C2, S2, P2. auto. }
  destruct (begin_calibration_ready g true T Hr) as (Hr0 & _).
  destruct (Hrun _ Hr0) as (g1 & n & E & C & S & P).
  exists g1, n. split; [exact E|]. rewrite C, S, P.
  destruct Hr as (Hi & Hm & _). rewrite begin_calibration_eq, Hi, Hm.
  cbn [andb]. fields. auto.
Qed.

End ServiceExtras.

(** ** The sampling task as a whole *)

Section TaskExtras.
Import Adp910Task SamplingTask.

Variable rate : Z.

Ltac calibration_block g now fs fv es ev :=
  destruct (calibration_cases rate g now) as [Hact | Hact Hel | Hact Hel];
  [ rewrite (update_calibration_inactive rate now fs fv es ev)
      by (rewrite roles_cal; exact Hact)
  | rewrite (update_calibration_window rate now fs fv es ev)
      by (rewrite roles_cal; assumption)
  | let F := fresh "F" in
    pose proof (update_calibration_finalize rate now fs fv es ev
                  (update_envelope_role es ev (update_fan_role fs fv g))) as F;
    rewrite !roles_cal in F; specialize (F Hact Hel); cbv zeta in F; rewrite F; clear F ];
  rewrite ?roles_cal.

(** The validity flags and the cached raw readings after an [update],
    whatever the calibration block does. *)
Lemma update_validity_flags (g : blower_metrics_service_context_t) (co : bool) (now st : Z)
    (fs : option adp910_sample_t) (fv : bool) (es : option adp910_sample_t) (ev : bool) :
  service_ready g ->
  exists g',
    blower_metrics_service_update rate g co true now st fs fv es ev = Returns (g', true)
    /\ service_ready g'
    /\ fan_sample_valid (snapshot g')
       = match sample_given fv fs with Some _ => true | None => false end
    /\ envelope_sample_valid (snapshot g')
       = match sample_given ev es with Some _ => true | None => false end
    /\ last_fan_pressure_raw_pa g'
       = match sample_given fv fs with
         | Some s => corrected_pressure_pa s
         | None => last_fan_pressure_raw_pa g
         end
    /\ last_envelope_pressure_raw_pa g'
       = match sample_given ev es with
         | Some s => corrected_pressure_pa s
         | None => last_envelope_pressure_raw_pa g
         end.
Proof.
  intros (Hi & Hm & Hs).
  destruct (models_supplied_inv _ Hs) as (f & a & Hf & Hal).
  pose proof (update_commit_eq rate g co now st fs fv es ev f a Hi Hm Hf Hal) as E.
  cbv zeta in E. rewrite E. clear E.
  calibration_block g now fs fv es ev;
    rewrite update_envelope_role_eq, update_fan_role_eq;
    destruct (sample_given fv fs), (sample_given ev es);
    (eexists; split; [reflexivity|]); unfold service_ready; fields; splits; auto.
Qed.

Lemma sample_given_pointer (ch : adp910_channel_t) :
  sample_given (sample_valid ch) (sample_pointer ch) = sample_pointer ch.
Proof. unfold sample_given, sample_pointer. destruct (sample_valid ch); reflexivity. Qed.

Lemma sampling_task_period_eq (s : task_state) (e : period_inputs) :
  sampling_task_period rate s e =
  match blower_metrics_service_update rate (service s) (create_ok e) (take_ok e)
          (calibration_tick e) (stamp_tick e)
          (sample_pointer
             (adp910_channel_cycle rate (channel0 s) (now_tick e) (init0 e) (read0 e)))
          (sample_valid
             (adp910_channel_cycle rate (channel0 s) (now_tick e) (init0 e) (read0 e)))
          (sample_pointer
             (adp910_channel_cycle rate (channel1 s) (now_tick e) (init1 e) (read1 e)))
          (sample_valid
             (adp910_channel_cycle rate (channel1 s) (now_tick e) (init1 e) (read1 e))) with
  | Returns (g, _) =>
      Returns (mk_task_state
                 (adp910_channel_cycle rate (channel0 s) (now_tick e) (init0 e) (read0 e))
                 (adp910_channel_cycle rate (channel1 s) (now_tick e) (init1 e) (read1 e)) g)
  | NullCall => NullCall
  end.
Proof. reflexivity. Qed.

(** X17. One period of the task on an initialised service whose lock is
    taken: each role is published valid exactly when its channel was READY
    for the read and the read succeeded, and the raw pressure cached for a
    valid role is the one the driver delivered in this period. *)
Theorem task_period_publishes_read_outcome (s : task_state) (e : period_inputs) :
  service_ready (service s) ->
  take_ok e = true ->
  exists s',
    sampling_task_period rate s e = Returns s'
    /\ channel0 s' = adp910_channel_cycle rate (channel0 s) (now_tick e) (init0 e) (read0 e)
    /\ channel1 s' = adp910_channel_cycle rate (channel1 s) (now_tick e) (init1 e) (read1 e)
    /\ fan_sample_valid (snapshot (service s'))
       = ready_at_read rate (channel0 s) (now_tick e) (init0 e)
         && adp910_status_eqb (read_status (read0 e)) ADP910_STATUS_OK
    /\ envelope_sample_valid (snapshot (service s'))
       = ready_at_read rate (channel1 s) (now_tick e) (init1 e)
         && adp910_status_eqb (read_status (read1 e)) ADP910_STATUS_OK
    /\ (fan_sample_valid (snapshot (service s')) = true ->
        last_fan_pressure_raw_pa (service s')
        = corrected_pressure_pa (read_sample (read0 e)))
    /\ (envelope_sample_valid (snapshot (service s')) = true ->
        last_envelope_pressure_raw_pa (service s')
        = corrected_pressure_pa (read_sample (read1 e))).
Proof.
  intros Hr Htk. rewrite sampling_task_period_eq, Htk.
  set (c0 := adp910_channel_cycle rate (channel0 s) (now_tick e) (init0 e) (read0 e)).
  set (c1 := adp910_channel_cycle rate (channel1 s) (now_tick e) (init1 e) (read1 e)).
  destruct (update_validity_flags (service s) (create_ok e) (calibration_tick e)
              (stamp_tick e) (sample_pointer c0) (sample_valid c0)
              (sample_pointer c1) (sample_valid c1) Hr)
    as (g' & E & _ & Vf & Ve & Lf & Le).
  rewrite E. eexists. split; [reflexivity|]. cbn [channel0 channel1 service].
  rewrite !sample_given_pointer in *.
  destruct (cycle_sample_facts rate (channel0 s) (now_tick e) (init0 e) (read0 e))
    as (A0 & _ & B0).
  destruct (cycle_sample_facts rate (channel1 s) (now_tick e) (init1 e) (read1 e))
    as (A1 & _ & B1).
  fold c0 in A0, B0. fold c1 in A1, B1.
  assert (Pf : (match sample_pointer c0 with Some _ => true | None => false end)
               = sample_valid c0)
    by (unfold sample_pointer; destruct (sample_valid c0); reflexivity).
  assert (Pe : (match sample_pointer c1 with Some _ => true | None => false end)
               = sample_valid c1)
    by (unfold sample_pointer; destruct (sample_valid c1); reflexivity).
  rewrite Pf in Vf. rewrite Pe in Ve.
  split; [reflexivity|]. split; [reflexivity|].
  split; [rewrite Vf; exact A0|]. split; [rewrite Ve; exact A1|].
  split.
  - intros Hv. rewrite Vf in Hv. rewrite Lf. unfold sample_pointer. rewrite Hv.
    rewrite A0 in Hv. apply andb_true_iff in Hv. destruct Hv as (Hready & _).
    destruct (B0 Hready) as (Hs & _). rewrite Hs. reflexivity.
  - intros Hv. rewrite Ve in Hv. rewrite Le. unfold sample_pointer. rewrite Hv.
    rewrite A1 in Hv. apply andb_true_iff in Hv. destruct Hv as (Hready & _).
    destruct (B1 Hready) as (Hs & _). rewrite Hs. reflexivity.
Qed.

Lemma channel_cycle_inv (ch : adp910_channel_t) (now : Z) (i : init_result) (r : read_result) :
  channel_inv ch -> channel_inv (adp910_channel_cycle rate ch now i r).
Proof.
  intros Hinv. unfold adp910_channel_cycle.
  apply read_keeps_channel_inv, try_init_keeps_channel_inv.
  destruct Hinv as (Hs & Hn). split; [exact Hs | exact Hn].
Qed.

Lemma task_period_inv (s : task_state) (e : period_inputs) :
  service_inv (service s) -> channel_inv (channel0 s) -> channel_inv (channel1 s) ->
  exists s',
    sampling_task_period rate s e = Returns s'
    /\ service_inv (service s') /\ channel_inv (channel0 s') /\ channel_inv (channel1 s').
Proof.
  intros Hg H0 H1. rewrite sampling_task_period_eq.
  set (c0 := adp910_channel_cycle rate (channel0 s) (now_tick e) (init0 e) (read0 e)).
  set (c1 := adp910_channel_cycle rate (channel1 s) (now_tick e) (init1 e) (read1 e)).
  destruct (service_step_inv rate (service s)
              (CallUpdate (create_ok e) (take_ok e) (calibration_tick e) (stamp_tick e)
                 (sample_pointer c0) (sample_valid c0) (sample_pointer c1) (sample_valid c1))
              Hg) as (g' & n & E & Hg' & _).
  cbn [service_step] in E.
  destruct (blower_metrics_service_update rate (service s) (create_ok e) (take_ok e)
              (calibration_tick e) (stamp_tick e)
              (sample_pointer c0) (sample_valid c0) (sample_pointer c1) (sample_valid c1))
    as [[g1 b]|]; [|discriminate E].
  injection E as <- _.
  eexists. split; [reflexivity|]. cbn [channel0 channel1 service].
  split; [exact Hg'|]. split; apply channel_cycle_inv; assumption.
Qed.

(** X18. From its start on a well-formed service context, whether or not the
    lock could be created, and through any number of periods with any ticks
    and driver answers, the task never calls through a NULL model pointer;
    the service context stays well-formed, and both channels keep a streak
    below 3 that is 0 whenever the channel is not READY. *)
Theorem task_run_keeps_invariants
    (port0 port1 : adp910_port_config_t) (fan_gain leakage_gain : float32)
    (g : blower_metrics_service_context_t) (co : bool) (periods : list period_inputs) :
  service_inv g ->
  exists s,
    sampling_task_run rate
      (sampling_task_start port0 port1 fan_gain leakage_gain g co) periods = Returns s
    /\ service_inv (service s)
    /\ channel_inv (channel0 s)
    /\ channel_inv (channel1 s).
Proof.
  intros Hg.
  assert (Hrun : forall s0,
            service_inv (service s0) -> channel_inv (channel0 s0) ->
            channel_inv (channel1 s0) ->
            exists s, sampling_task_run rate s0 periods = Returns s
                      /\ service_inv (service s)
                      /\ channel_inv (channel0 s) /\ channel_inv (channel1 s)).
  { induction periods as [|e rest IH]; intros s0 A B C.
    - exists s0. auto.
    - destruct (task_period_inv s0 e A B C) as (s1 & E1 & A1 & B1 & C1).
      cbn [sampling_task_run]. rewrite E1. apply IH; assumption. }
  apply Hrun; unfold sampling_task_start; cbn [service channel0 channel1].
  - destruct (service_step_inv rate g
                (CallInitialize
                   (Some {| fan_speed_model := Some blower_linear_fan_speed_model;
                            fan_speed_model_context := Some (mk_fan_speed_config fan_gain);
                            air_leakage_model := Some blower_linear_air_leakage_model;
                            air_leakage_model_context :=
                              Some (mk_air_leakage_config leakage_gain) |}) co) Hg)
      as (g' & n & E & Hg' & _).
    cbn [service_step] in E. injection E as <- _. exact Hg'.
  - split; [cbn; unfold ADP910_READ_ERROR_STREAK_TO_REINIT; lia | reflexivity].
  - split; [cbn; unfold ADP910_READ_ERROR_STREAK_TO_REINIT; lia | reflexivity].
Qed.

End TaskExtras.

(** ** The further properties at concrete inputs *)

Section MoreInstances.
Import Adp910Task SamplingTask Examples MoreExamples.

Lemma envelope_only_service_ready : service_ready envelope_only_service.
Proof. repeat split. Defined.

Lemma fan_channel_ready_inv : channel_inv fan_channel_ready.
Proof.
  split; [unfold ADP910_READ_ERROR_STREAK_TO_REINIT; simpl; lia | discriminate].
Defined.

Lemma calibrating_service_reachable : reachable tick_rate calibrating_service.
Proof.
  apply (reachable_call tick_rate ready_service calibrating_service
           (CallBeginCalibration true 0) 0%nat); [|reflexivity].
  apply (reachable_call tick_rate g_service_context ready_service
           (CallInitialize None true) 0%nat); [|reflexivity].
  apply reachable_start.
Defined.

Lemma diag_buckets_count_outcomes_witness :
  ok (diag_record_all (adp910_diag_reset (diag fan_channel_start)) recorded_outcomes)
  = occurrences ADP910_STATUS_OK recorded_outcomes
  /\ diag_total (diag_record_all (adp910_diag_reset (diag fan_channel_start))
                                recorded_outcomes) = 7.
Proof.
  destruct (diag_buckets_count_outcomes (diag fan_channel_start) recorded_outcomes)
    as (A & _ & _ & _ & _ & _ & T & _).
  - vm_compute. reflexivity.
  - split; [exact A | exact T].
Defined.

Lemma status_names_distinct_witness : ADP910_STATUS_CRC_MISMATCH = ADP910_STATUS_CRC_MISMATCH.
Proof.
  apply (status_names_distinct ADP910_STATUS_CRC_MISMATCH ADP910_STATUS_CRC_MISMATCH).
  reflexivity.
Defined.

Lemma cycle_keeps_channel_inv_witness :
  channel_inv (adp910_channel_cycle tick_rate fan_channel_ready 10 init_ok bus_error).
Proof.
  apply (cycle_keeps_channel_inv tick_rate fan_channel_ready 10 init_ok bus_error).
  exact fan_channel_ready_inv.
Defined.

Lemma cycle_sample_valid_iff_read_ok_witness :
  sample (adp910_channel_cycle tick_rate fan_channel_start 10 init_ok read_five)
  = sample_of 5 20.
Proof.
  destruct (cycle_sample_valid_iff_read_ok tick_rate fan_channel_start 10 init_ok read_five)
    as (_ & _ & H).
  destruct (H eq_refl) as (Hs & _). exact Hs.
Defined.

Lemma failed_init_backs_off_witness :
  next_init_tick (adp910_channel_try_init tick_rate fan_channel_start 5 init_bus_error) = 1005
  /\ adp910_channel_cycle tick_rate
       (adp910_channel_try_init tick_rate fan_channel_start 5 init_bus_error)
       1004 init_ok read_five
     = adp910_channel_reset_cycle
         (adp910_channel_try_init tick_rate fan_channel_start 5 init_bus_error).
Proof.
  destruct (failed_init_backs_off tick_rate fan_channel_start 5 init_bus_error)
    as (_ & D & _ & H).
  - reflexivity.
  - simpl. lia.
  - discriminate.
  - split.
    + rewrite D. reflexivity.
    + apply H. rewrite D. vm_compute. reflexivity.
Defined.

Lemma counted_failures_run_witness :
  ready (read_run fan_channel_ready two_counted_failures) = true
  /\ read_error_streak (read_run fan_channel_ready two_counted_failures) = 2.
Proof.
  destruct (counted_failures_run two_counted_failures fan_channel_ready)
    as (A & B & _).
  - reflexivity.
  - exact fan_channel_ready_inv.
  - repeat constructor.
  - split; [rewrite A | rewrite B]; reflexivity.
Defined.

Lemma blower_absf_nonnegative_witness :
  ge (blower_absf (neg (of_uint32 5))) zero = true.
Proof.
  destruct (blower_absf_nonnegative (neg (of_uint32 5))) as (H & _).
  apply H. reflexivity.
Defined.

Lemma linear_models_at_zero_fan_pressure_witness :
  blower_linear_fan_speed_model zero (fan_speed_model_context task_models) = zero
  /\ is_zero (blower_linear_air_leakage_model
                (blower_linear_fan_speed_model zero (fan_speed_model_context task_models))
                (of_uint32 7) (air_leakage_model_context task_models)) = true.
Proof.
  apply (linear_models_at_zero_fan_pressure
           (fan_speed_model_context task_models) (air_leakage_model_context task_models)
           (of_uint32 7)); reflexivity.
Defined.

Lemma derived_metrics_consistent_witness :
  exists g' n,
    service_step tick_rate ready_service (update_at 10 (Some 5) (Some 7)) = Returns (g', n)
    /\ (n = 1%nat -> derived_consistent g').
Proof.
  destruct (derived_metrics_consistent tick_rate ready_service
              (update_at 10 (Some 5) (Some 7)) ready_service_ready eq_refl)
    as (g' & n & E & H & _).
  exists g', n. split; [exact E | exact H].
Defined.

Lemma reachable_calibration_consistent_witness :
  calibration_consistent calibrating_service.
Proof.
  apply (reachable_calibration_consistent tick_rate calibrating_service).
  exact calibrating_service_reachable.
Defined.

Lemma published_offsets_follow_finalization_witness :
  exists g' n,
    service_step tick_rate sampled_service (CallCaptureZeroOffsets true 11) = Returns (g', n)
    /\ published_offsets g' = published_offsets sampled_service.
Proof.
  destruct (published_offsets_follow_finalization tick_rate sampled_service
              (CallCaptureZeroOffsets true 11) sampled_service_ready eq_refl)
    as (g' & n & E & _ & H).
  exists g', n. split; [exact E | apply H; reflexivity].
Defined.

Lemma update_publishes_corrected_pressure_witness :
  exists g',
    blower_metrics_service_update tick_rate zeroed_service true true 20 20
      (Some (sample_of 6 20)) true (Some (sample_of 7 21)) true = Returns (g', true)
    /\ fan_pressure_pa (snapshot g') = of_uint32 1
    /\ envelope_pressure_pa (snapshot g') = zero.
Proof.
  destruct (update_publishes_corrected_pressure tick_rate zeroed_service true 20 20
              (sample_of 6 20) (sample_of 7 21) zeroed_service_ready eq_refl)
    as (g' & E & _ & _ & Pf & Pe & _).
  exists g'. split; [exact E|]. split; [rewrite Pf | rewrite Pe]; vm_compute; reflexivity.
Defined.

Lemma captured_offset_zeroes_same_reading_witness :
  exists g' g'',
    blower_metrics_service_capture_zero_offsets sampled_service true 11 = Returns (g', true)
    /\ blower_metrics_service_update tick_rate g' true true 20 20
         (Some (sample_of 5 22)) true None false = Returns (g'', true)
    /\ fan_pressure_pa (snapshot g'') = zero.
Proof.
  destruct (captured_offset_zeroes_same_reading tick_rate sampled_service true 11 20 20
              (sample_of 5 22) None false sampled_service_ready eq_refl) as (H & _).
  apply H; reflexivity.
Defined.

Lemma capture_is_per_role_witness :
  exists g',
    blower_metrics_service_capture_zero_offsets envelope_only_service true 11
    = Returns (g', true)
    /\ envelope_pressure_pa (snapshot g') = zero
    /\ fan_pressure_offset_pa g' = fan_pressure_offset_pa envelope_only_service.
Proof.
  destruct (capture_is_per_role envelope_only_service 11 envelope_only_service_ready)
    as (_ & H).
  destruct (H eq_refl eq_refl) as (g' & E & _ & Pe & Of & _).
  exists g'. split; [exact E|]. split; [exact Pe | exact Of].
Defined.

Lemma readers_keep_window_open_witness :
  exists g1 n,
    service_run tick_rate (blower_metrics_service_begin_calibration ready_service true 0)
                reader_calls = Returns (g1, n)
    /\ calibration_progress_pct (snapshot g1) = 0.
Proof.
  destruct (readers_keep_window_open tick_rate reader_calls ready_service 0
              ready_service_ready eq_refl) as (g1 & n & E & _ & _ & P).
  exists g1, n. split; [exact E | exact P].
Defined.

Lemma task_period_publishes_read_outcome_witness :
  exists s',
    sampling_task_period tick_rate task_at_start first_period = Returns s'
    /\ fan_sample_valid (snapshot (service s')) = true
    /\ envelope_sample_valid (snapshot (service s')) = false
    /\ last_fan_pressure_raw_pa (service s') = of_uint32 5.
Proof.
  destruct (task_period_publishes_read_outcome tick_rate task_at_start first_period)
    as (s' & E & _ & _ & Vf & Ve & Lf & _).
  - repeat split.
  - reflexivity.
  - exists s'. split; [exact E|].
    assert (Hv : fan_sample_valid (snapshot (service s')) = true)
      by (rewrite Vf; reflexivity).
    split; [exact Hv|]. split; [rewrite Ve; reflexivity | exact (Lf Hv)].
Defined.

Lemma task_run_keeps_invariants_witness :
  exists s,
    sampling_task_run tick_rate task_at_start [first_period; first_period] = Returns s
    /\ service_inv (service s).
Proof.
  destruct (task_run_keeps_invariants tick_rate fan_port envelope_port
              (of_uint32 2) (of_uint32 3) g_service_context true
              [first_period; first_period]) as (s & E & H & _).
  - split; [unfold is_uint32; simpl; lia | right; reflexivity].
  - exists s. split; [exact E | exact H].
Defined.

End MoreInstances.
